(** * JobPacker: a shallow embedding of [jobpacker.py]

    The development follows the layout of the program: a small model of the
    Python values the program handles, the library calls it relies on
    ([str.lower], [re.sub], [strftime], [float], [int], [uuid.uuid4],
    [json.dump], [json.load]), then the settings store ([load_config],
    [save_config]) and the export converter ([export_jobs]).

    Text is modelled by [string]; a character stands for the code point of
    the same number, so the model covers text over U+0000..U+00FF. *)

From Stdlib Require Import ZArith List Bool Ascii String Lia DecimalString
  DecimalFacts DecimalPos SpecFloat.
Import ListNotations.

Set Warnings "-register-all".

Local Open Scope string_scope.
Local Open Scope Z_scope.

(** ** Exceptions and results *)

Inductive exn : Type :=
| JSONDecodeError
| IOError
| TypeError
| ValueError
| OverflowError
| RecursionError
| Unrepresentable.  (* text outside U+0000..U+00FF: not covered by the model *)

Definition exn_eqb (a b : exn) : bool :=
  match a, b with
  | JSONDecodeError, JSONDecodeError | IOError, IOError | TypeError, TypeError
  | ValueError, ValueError | OverflowError, OverflowError
  | RecursionError, RecursionError | Unrepresentable, Unrepresentable => true
  | _, _ => false
  end.

Inductive result (A : Type) : Type :=
| Return (a : A)
| Raise (e : exn).
Arguments Return {A} a.
Arguments Raise {A} e.

Definition bind {A B} (m : result A) (k : A -> result B) : result B :=
  match m with
  | Return a => k a
  | Raise e => Raise e
  end.

Notation "x <- m ;; k" := (bind m (fun x => k))
  (at level 61, m at next level, right associativity).
Notation "' p <- m ;; k" := (bind m (fun x => let p := x in k))
  (at level 61, p pattern, m at next level, right associativity).

(** ** Text *)

Module Text.

Definition code (c : ascii) : Z := Z.of_N (N_of_ascii c).
Definition chr (z : Z) : ascii := ascii_of_N (Z.to_N z).

Definition between (lo hi : Z) (c : ascii) : bool :=
  (lo <=? code c) && (code c <=? hi).

Definition is_digit : ascii -> bool := between 48 57.
Definition is_upper_ascii : ascii -> bool := between 65 90.
Definition is_lower_ascii : ascii -> bool := between 97 122.

(** [str.isalnum] on U+0000..U+00FF: ASCII letters and digits, and in the
    Latin-1 supplement the letters (ª µ º À-Ö Ø-ö ø-ÿ) and the numeric
    characters (² ³ ¹ ¼ ½ ¾). *)
Definition isalnum (c : ascii) : bool :=
  is_digit c || is_upper_ascii c || is_lower_ascii c
  || (code c =? 170) || (code c =? 178) || (code c =? 179) || (code c =? 181)
  || (code c =? 185) || (code c =? 186) || between 188 190 c
  || between 192 214 c || between 216 246 c || between 248 255 c.

(** The class [\w] of [re] on [str] patterns: alphanumerics and underscore. *)
Definition is_word (c : ascii) : bool := isalnum c || (code c =? 95).

(** [str.lower] on one character of U+0000..U+00FF. *)
Definition lower_char (c : ascii) : ascii :=
  if is_upper_ascii c || between 192 214 c || between 216 222 c
  then chr (code c + 32) else c.

(** [str.isspace] on U+0000..U+00FF. *)
Definition isspace (c : ascii) : bool :=
  between 9 13 c || between 28 32 c || (code c =? 133) || (code c =? 160).

Fixpoint map (f : ascii -> ascii) (s : string) : string :=
  match s with
  | EmptyString => EmptyString
  | String c s' => String (f c) (map f s')
  end.

Definition lower : string -> string := map lower_char.

Fixpoint lstrip (p : ascii -> bool) (s : string) : string :=
  match s with
  | EmptyString => EmptyString
  | String c s' => if p c then lstrip p s' else s
  end.

Fixpoint rstrip (p : ascii -> bool) (s : string) : string :=
  match s with
  | EmptyString => EmptyString
  | String c s' =>
      match rstrip p s' with
      | EmptyString => if p c then EmptyString else String c EmptyString
      | r => String c r
      end
  end.

(** [s.strip(chars)], with the set [chars] given as a predicate. *)
Definition strip (p : ascii -> bool) (s : string) : string :=
  rstrip p (lstrip p s).

Definition is_char (a c : ascii) : bool := Ascii.eqb a c.

(** [s[:n]] for a non-negative [n]. *)
Fixpoint take (n : nat) (s : string) : string :=
  match n, s with
  | S n', String c s' => String c (take n' s')
  | _, _ => EmptyString
  end.

Fixpoint drop (n : nat) (s : string) : string :=
  match n, s with
  | S n', String _ s' => drop n' s'
  | _, _ => s
  end.

Fixpoint forallb (p : ascii -> bool) (s : string) : bool :=
  match s with
  | EmptyString => true
  | String c s' => p c && forallb p s'
  end.

Fixpoint repeat (c : ascii) (n : nat) : string :=
  match n with
  | O => EmptyString
  | S n' => String c (repeat c n')
  end.

(** [s.endswith(suffix)] *)
Definition endswith (s suffix : string) : bool :=
  let n := String.length s in
  let m := String.length suffix in
  (m <=? n)%nat && String.eqb (drop (n - m) s) suffix.

(** [sep.join(l)] *)
Fixpoint join (sep : string) (l : list string) : string :=
  match l with
  | [] => EmptyString
  | [x] => x
  | x :: rest => x ++ sep ++ join sep rest
  end.

End Text.

(** ** Filename sanitisation ([export_jobs], lines 241-244) *)

(** [re.sub(r'[^\w\-]', '_', s)] *)
Definition sub_non_word (s : string) : string :=
  Text.map (fun c => if Text.is_word c || Text.is_char "-" c then c else "_"%char) s.

(** [re.sub(r'_+', '_', s)]: every maximal run of underscores becomes one. *)
Fixpoint sub_underscores (s : string) : string :=
  match s with
  | EmptyString => EmptyString
  | String c s' =>
      if Text.is_char "_" c then
        match s' with
        | String c' _ =>
            if Text.is_char "_" c' then sub_underscores s'
            else String c (sub_underscores s')
        | EmptyString => String c EmptyString
        end
      else String c (sub_underscores s')
  end.

(** Truth value of a [str]: non-empty. *)
Definition str_truthy (s : string) : bool :=
  match s with EmptyString => false | _ => true end.

Definition safe_search (search_term : string) : string :=
  let safe_search :=
    if str_truthy search_term
    then Text.strip (Text.is_char "_") (sub_non_word (Text.lower search_term))
    else "jobs" in
  sub_underscores safe_search.


(** ** Numbers and their text *)

Module Num.

(** [str(n)] for an [int]. *)
Definition str_of_Z (z : Z) : string := NilZero.string_of_int (Z.to_int z).

Definition digit_val (c : ascii) : Z := Text.code c - 48.

(** Value of a run of decimal digits, most significant first. *)
Fixpoint digits_val (acc : Z) (s : string) : Z :=
  match s with
  | EmptyString => acc
  | String c s' => digits_val (10 * acc + digit_val c) s'
  end.

(** [str(n).zfill(w)] for [0 <= n]: the padding of [%m], [%d], [%H], ... *)
Definition zpad (w : nat) (z : Z) : string :=
  let s := str_of_Z z in
  Text.repeat "0" (w - String.length s) ++ s.

(** Grouping of a digit string by thousands. *)
Fixpoint commas (s : string) : string :=
  match s with
  | EmptyString => EmptyString
  | String c s' =>
      let n := String.length s' in
      if (0 <? n)%nat && (n mod 3 =? 0)%nat
      then String c ("," ++ commas s')
      else String c (commas s')
  end.

(** [f"{n:,}"] *)
Definition format_thousands (z : Z) : string :=
  if z <? 0 then "-" ++ commas (str_of_Z (- z)) else commas (str_of_Z z).

Definition hex_digit (z : Z) : ascii :=
  if z <? 10 then Text.chr (48 + z) else Text.chr (87 + z).

(** The [w] lowest hexadecimal digits of [z], most significant first:
    ['%0wx' % z] for [0 <= z < 16^w]. *)
Fixpoint hex (w : nat) (z : Z) : string :=
  match w with
  | O => EmptyString
  | S w' => hex w' (Z.shiftr z 4) ++ String (hex_digit (Z.land z 15)) EmptyString
  end.

Definition is_hex_digit (c : ascii) : bool :=
  Text.is_digit c || Text.between 97 102 c || Text.between 65 70 c.

Definition hex_val (c : ascii) : Z :=
  if Text.is_digit c then Text.code c - 48
  else if Text.between 97 102 c then Text.code c - 87
  else Text.code c - 55.

(** *** Binary64 values *)

Definition float_of_Z (z : Z) : spec_float := binary_normalize 53 1024 z 0 false.

(** The double nearest to [m * 10^e] (ties to even), as [float] computes it
    from a decimal literal. For a negative exponent the quotient is taken
    with 55 bits at least and a sticky bit below them, which decides the
    rounding as the exact quotient does. *)
Definition float_of_decimal (neg : bool) (m e : Z) : spec_float :=
  match m with
  | Zpos p =>
      if 0 <=? e then
        let n := m * 10 ^ e in
        binary_normalize 53 1024 (if neg then - n else n) 0 neg
      else
        let d := 10 ^ (- e) in
        let s := Z.max 0 (56 + Z.log2 d - Z.log2 m) in
        let n := Z.shiftl m s in
        let q := n / d in
        let sticky := if n mod d =? 0 then 0 else 1 in
        match 2 * q + sticky with
        | Zpos m' => binary_round 53 1024 neg m' (- s - 1)
        | _ => S754_zero neg
        end
  | _ => S754_zero neg
  end.

Definition is_nan (f : spec_float) : bool :=
  match f with S754_nan => true | _ => false end.

(** [int(x)] for a [float]: truncation towards zero. *)
Definition trunc (f : spec_float) : result Z :=
  match f with
  | S754_zero _ => Return 0
  | S754_finite s m e =>
      let a := if 0 <=? e then Z.shiftl (Zpos m) e else Z.shiftr (Zpos m) (- e) in
      Return (if s then - a else a)
  | S754_infinity _ => Raise OverflowError
  | S754_nan => Raise ValueError
  end.

(** *** Numeric literals of [int] and [float] *)

(** Longest prefix of the form [digit (["_"] digit)*], with the underscores
    removed, and what follows it. *)
Fixpoint scan_digitpart (s : string) : string * string :=
  match s with
  | String c s' =>
      if Text.is_digit c then
        match s' with
        | String u s'' =>
            if Text.is_digit u then
              let '(ds, rest) := scan_digitpart s' in (String c ds, rest)
            else if Text.is_char "_" u then
              match s'' with
              | String d _ =>
                  if Text.is_digit d then
                    let '(ds, rest) := scan_digitpart s'' in (String c ds, rest)
                  else (String c EmptyString, s')
              | EmptyString => (String c EmptyString, s')
              end
            else (String c EmptyString, s')
        | EmptyString => (String c EmptyString, EmptyString)
        end
      else (EmptyString, s)
  | EmptyString => (EmptyString, EmptyString)
  end.

(** An optional sign: [true] for [-]. *)
Definition scan_sign (s : string) : bool * string :=
  match s with
  | String "-" s' => (true, s')
  | String "+" s' => (false, s')
  | _ => (false, s)
  end.

(** [int(s)] for a [str], base 10. *)
Definition int_of_str (s : string) : result Z :=
  let '(neg, s1) := scan_sign (Text.strip Text.isspace s) in
  match scan_digitpart s1 with
  | (String c ds, EmptyString) =>
      let v := digits_val 0 (String c ds) in
      Return (if neg then - v else v)
  | _ => Raise ValueError
  end.

Definition scan_exponent (s : string) : option (Z * string) :=
  match s with
  | String c s' =>
      if Text.is_char "e" c || Text.is_char "E" c then
        let '(neg, s1) := scan_sign s' in
        match scan_digitpart s1 with
        | (String d ds, rest) =>
            let v := digits_val 0 (String d ds) in
            Some (if neg then - v else v, rest)
        | _ => None
        end
      else Some (0, s)
  | EmptyString => Some (0, s)
  end.

(** [float(s)] for a [str]. *)
Definition float_of_str (s : string) : result spec_float :=
  let '(neg, s1) := scan_sign (Text.strip Text.isspace s) in
  let low := Text.lower s1 in
  if String.eqb low "nan" then Return S754_nan
  else if String.eqb low "inf" || String.eqb low "infinity"
  then Return (S754_infinity neg)
  else
    let '(ip, r1) := scan_digitpart s1 in
    let '(fp, r2) :=
      match r1 with
      | String "." r => scan_digitpart r
      | _ => (EmptyString, r1)
      end in
    match ip, fp with
    | EmptyString, EmptyString => Raise ValueError
    | _, _ =>
        match scan_exponent r2 with
        | Some (ex, EmptyString) =>
            Return (float_of_decimal neg (digits_val 0 (ip ++ fp))
                      (ex - Z.of_nat (String.length fp)))
        | _ => Raise ValueError
        end
    end.

End Num.

(** ** Dates and times ([datetime]) *)

Record date := { year : Z; month : Z; day : Z }.

(** A [datetime.datetime]; [utcoffset] is [None] for a naive value and the
    offset from UTC in seconds for an aware one. *)
Record datetime := {
  dt_date : date;
  hour : Z; minute : Z; second : Z; microsecond : Z;
  utcoffset : option Z
}.

Definition midnight (d : date) : datetime :=
  {| dt_date := d; hour := 0; minute := 0; second := 0; microsecond := 0;
     utcoffset := None |}.




(** [%z]: empty for a naive value, else [+HHMM] or [-HHMM], followed by the
    seconds when the offset has some. *)
Definition format_offset (off : option Z) : string :=
  match off with
  | None => EmptyString
  | Some o =>
      let sign := if o <? 0 then "-" else "+" in
      let a := Z.abs o in
      let h := a / 3600 in
      let m := (a mod 3600) / 60 in
      let s := a mod 60 in
      sign ++ Num.zpad 2 h ++ Num.zpad 2 m
        ++ (if s =? 0 then EmptyString else Num.zpad 2 s)
  end.

(** One directive of [strftime]; [%Y] prints the four digits of the year
    (every platform agrees from the year 1000 on). *)
Definition directive (dt : datetime) (c : ascii) : string :=
  if Text.is_char "Y" c then Num.zpad 4 (year (dt_date dt))
  else if Text.is_char "m" c then Num.zpad 2 (month (dt_date dt))
  else if Text.is_char "d" c then Num.zpad 2 (day (dt_date dt))
  else if Text.is_char "H" c then Num.zpad 2 (hour dt)
  else if Text.is_char "M" c then Num.zpad 2 (minute dt)
  else if Text.is_char "S" c then Num.zpad 2 (second dt)
  else if Text.is_char "z" c then format_offset (utcoffset dt)
  else if Text.is_char "%" c then "%"
  else String "%" (String c EmptyString).

(** [dt.strftime(fmt)] for the directives the program uses. *)
Fixpoint strftime (dt : datetime) (fmt : string) : string :=
  match fmt with
  | EmptyString => EmptyString
  | String c rest =>
      if Text.is_char "%" c then
        match rest with
        | String d rest' => directive dt d ++ strftime dt rest'
        | EmptyString => String c EmptyString
        end
      else String c (strftime dt rest)
  end.

(** [str(d)] for a [date]: ISO format. *)
Definition isoformat_date (d : date) : string :=
  Num.zpad 4 (year d) ++ "-" ++ Num.zpad 2 (month d) ++ "-" ++ Num.zpad 2 (day d).

(** [+HH:MM] of an ISO timestamp, with the seconds when the offset has some. *)
Definition isoformat_offset (off : option Z) : string :=
  match off with
  | None => EmptyString
  | Some o =>
      let sign := if o <? 0 then "-" else "+" in
      let a := Z.abs o in
      sign ++ Num.zpad 2 (a / 3600) ++ ":" ++ Num.zpad 2 ((a mod 3600) / 60)
        ++ (if a mod 60 =? 0 then EmptyString else ":" ++ Num.zpad 2 (a mod 60))
  end.

(** [str(dt)] for a [datetime]: [isoformat(sep=' ')]. *)
Definition isoformat_datetime (dt : datetime) : string :=
  isoformat_date (dt_date dt) ++ " " ++ Num.zpad 2 (hour dt) ++ ":"
    ++ Num.zpad 2 (minute dt) ++ ":" ++ Num.zpad 2 (second dt)
    ++ (if microsecond dt =? 0 then EmptyString
        else "." ++ Num.zpad 6 (microsecond dt))
    ++ isoformat_offset (utcoffset dt).

(** ** Raw job records *)

(** A cell of a raw job record, as [DataFrame.to_dict("records")] yields
    them: [None], a [bool], an [int], a [float] (NaN for a missing number),
    a [str], a [datetime.date] or a [datetime.datetime]. *)
Inductive cell : Type :=
| CNone
| CBool (b : bool)
| CInt (z : Z)
| CFloat (f : spec_float)
| CStr (s : string)
| CDate (d : date)
| CDatetime (dt : datetime).

(** A raw job record: a [dict] with [str] keys. *)
Definition raw_job : Type := list (string * cell).

(** [job.get(key, default)] *)
Fixpoint job_get (job : raw_job) (key : string) (default : cell) : cell :=
  match job with
  | [] => default
  | (k, v) :: rest => if String.eqb k key then v else job_get rest key default
  end.

Section Python.

(** [repr] of a finite non-zero [float]: the shortest decimal text that
    reads back as the same double. It is a function of the interpreter and
    the program never inspects its result. *)
Variable float_repr : spec_float -> string.

Definition str_of_float (f : spec_float) : string :=
  match f with
  | S754_nan => "nan"
  | S754_infinity false => "inf"
  | S754_infinity true => "-inf"
  | S754_zero false => "0.0"
  | S754_zero true => "-0.0"
  | S754_finite _ _ _ => float_repr f
  end.

(** [str(v)] *)
Definition py_str (v : cell) : string :=
  match v with
  | CNone => "None"
  | CBool true => "True"
  | CBool false => "False"
  | CInt z => Num.str_of_Z z
  | CFloat f => str_of_float f
  | CStr s => s
  | CDate d => isoformat_date d
  | CDatetime dt => isoformat_datetime dt
  end.

(** Truth value of [v] in a condition. *)
Definition truthy (v : cell) : bool :=
  match v with
  | CNone => false
  | CBool b => b
  | CInt z => negb (z =? 0)
  | CFloat (S754_zero _) => false
  | CFloat _ => true
  | CStr s => str_truthy s
  | CDate _ | CDatetime _ => true
  end.

(** [hasattr(v, "strftime")] *)
Definition has_strftime (v : cell) : bool :=
  match v with
  | CDate _ | CDatetime _ => true
  | _ => false
  end.

(** [v.strftime(fmt)] where [v] has the method. *)
Definition cell_strftime (v : cell) (fmt : string) : string :=
  match v with
  | CDate d => strftime (midnight d) fmt
  | CDatetime dt => strftime dt fmt
  | _ => EmptyString
  end.

(** [float(v)]; an [int] beyond the range of a double raises
    [OverflowError]. *)
Definition py_float (v : cell) : result spec_float :=
  match v with
  | CBool b => Return (Num.float_of_Z (if b then 1 else 0))
  | CInt z =>
      match Num.float_of_Z z with
      | S754_infinity _ => Raise OverflowError
      | f => Return f
      end
  | CFloat f => Return f
  | CStr s => Num.float_of_str s
  | CNone | CDate _ | CDatetime _ => Raise TypeError
  end.

(** [int(v)] *)
Definition py_int (v : cell) : result Z :=
  match v with
  | CBool b => Return (if b then 1 else 0)
  | CInt z => Return z
  | CFloat f => Num.trunc f
  | CStr s => Num.int_of_str s
  | CNone | CDate _ | CDatetime _ => Raise TypeError
  end.

(** ** JSON documents ([json.dump], [json.load]) *)

(** The Python objects that [json.load] builds and [json.dump] accepts:
    [None], [bool], [int], [float], [str], [list] and [dict] with [str]
    keys. A [dict] keeps its keys in insertion order. *)
Inductive json : Type :=
| JNull
| JBool (b : bool)
| JInt (z : Z)
| JFloat (f : spec_float)
| JStr (s : string)
| JList (l : list json)
| JDict (d : list (string * json)).

Definition pydict : Type := list (string * json).

(** [d.get(k)] / [k in d] *)
Fixpoint dict_get (d : pydict) (k : string) : option json :=
  match d with
  | [] => None
  | (k', v) :: rest => if String.eqb k' k then Some v else dict_get rest k
  end.

(** [d[k] = v]: an existing key keeps its place, a new one goes last. *)
Fixpoint dict_set (d : pydict) (k : string) (v : json) : pydict :=
  match d with
  | [] => [(k, v)]
  | (k', v') :: rest =>
      if String.eqb k' k then (k', v) :: rest else (k', v') :: dict_set rest k v
  end.

(** [dict(pairs)] and [d.update(pairs)] *)
Definition dict_update (d : pydict) (pairs : list (string * json)) : pydict :=
  fold_left (fun acc kv => dict_set acc (fst kv) (snd kv)) pairs d.

Definition dict_of_pairs (pairs : list (string * json)) : pydict :=
  dict_update [] pairs.

Definition dict_keys (d : pydict) : list string := List.map fst d.

(** *** Writing *)

(** The double quote, U+0022. *)
Definition dquote : ascii := Ascii false true false false false true false false.

(** One character of a string literal. With [ensure_ascii] everything
    outside [' '..'~'] is escaped, without it only the control characters,
    the quote and the backslash. *)
Definition escape_char (ensure_ascii : bool) (c : ascii) : string :=
  if Text.is_char dquote c then String "\" (String dquote EmptyString)
  else if Text.is_char "\" c then "\\"
  else if Text.code c =? 10 then "\n"
  else if Text.code c =? 13 then "\r"
  else if Text.code c =? 9 then "\t"
  else if Text.code c =? 8 then "\b"
  else if Text.code c =? 12 then "\f"
  else if (Text.code c <? 32) || (ensure_ascii && (126 <? Text.code c))
  then "\u" ++ Num.hex 4 (Text.code c)
  else String c EmptyString.

Fixpoint escape (ensure_ascii : bool) (s : string) : string :=
  match s with
  | EmptyString => EmptyString
  | String c s' => escape_char ensure_ascii c ++ escape ensure_ascii s'
  end.

Definition quote (ensure_ascii : bool) (s : string) : string :=
  String dquote (escape ensure_ascii s) ++ String dquote EmptyString.

Definition newline : string := String (Text.chr 10) EmptyString.

(** Line break and indentation at nesting level [level], for [indent=2]. *)
Definition newline_indent (level : nat) : string :=
  newline ++ Text.repeat " " (2 * level).

Definition dumps_float (f : spec_float) : string :=
  match f with
  | S754_nan => "NaN"
  | S754_infinity false => "Infinity"
  | S754_infinity true => "-Infinity"
  | _ => str_of_float f
  end.

(** [json.dumps(v, indent=2, ensure_ascii=...)] at nesting level [level]. *)
Fixpoint dumps_at (ensure_ascii : bool) (level : nat) (v : json) : string :=
  match v with
  | JNull => "null"
  | JBool true => "true"
  | JBool false => "false"
  | JInt z => Num.str_of_Z z
  | JFloat f => dumps_float f
  | JStr s => quote ensure_ascii s
  | JList [] => "[]"
  | JList l =>
      "[" ++ newline_indent (S level)
        ++ Text.join ("," ++ newline_indent (S level))
             (List.map (dumps_at ensure_ascii (S level)) l)
        ++ newline_indent level ++ "]"
  | JDict [] => "{}"
  | JDict d =>
      "{" ++ newline_indent (S level)
        ++ Text.join ("," ++ newline_indent (S level))
             (List.map (fun kv => quote ensure_ascii (fst kv) ++ ": "
                                    ++ dumps_at ensure_ascii (S level) (snd kv)) d)
        ++ newline_indent level ++ "}"
  end.

Definition json_dumps (ensure_ascii : bool) (v : json) : string :=
  dumps_at ensure_ascii 0 v.

(** *** Reading *)

(** Nested containers the scanner enters before the interpreter raises
    [RecursionError]. *)
Variable recursion_limit : nat.

Definition is_ws (c : ascii) : bool :=
  Text.is_char " " c || (Text.code c =? 9) || (Text.code c =? 10)
  || (Text.code c =? 13).

Definition skip_ws (s : string) : string := Text.lstrip is_ws s.

(** Four hexadecimal digits of a [\u] escape. *)
Definition scan_hex4 (s : string) : option (Z * string) :=
  match s with
  | String a (String b (String c (String d rest))) =>
      if Num.is_hex_digit a && Num.is_hex_digit b && Num.is_hex_digit c
         && Num.is_hex_digit d
      then Some (((Num.hex_val a * 16 + Num.hex_val b) * 16 + Num.hex_val c) * 16
                 + Num.hex_val d, rest)
      else None
  | _ => None
  end.

(** The body of a string literal after its opening quote, up to the closing
    one. A code point beyond U+00FF has no text in the model. *)
Fixpoint scanstring (s : string) : result (string * string) :=
  match s with
  | EmptyString => Raise JSONDecodeError           (* unterminated *)
  | String c rest =>
      if Text.is_char dquote c then Return (EmptyString, rest)
      else if Text.is_char "\" c then
        match rest with
        | String e rest' =>
            let simple (x : ascii) :=
              '(body, tl) <- scanstring rest' ;; Return (String x body, tl) in
            if Text.is_char dquote e then simple dquote
            else if Text.is_char "\" e then simple "\"%char
            else if Text.is_char "/" e then simple "/"%char
            else if Text.is_char "b" e then simple (Text.chr 8)
            else if Text.is_char "f" e then simple (Text.chr 12)
            else if Text.is_char "n" e then simple (Text.chr 10)
            else if Text.is_char "r" e then simple (Text.chr 13)
            else if Text.is_char "t" e then simple (Text.chr 9)
            else if Text.is_char "u" e then
              match rest' with
              | String a (String b (String c' (String d rest''))) =>
                  match scan_hex4 rest' with
                  | Some (n, _) =>
                      if n <? 256 then
                        '(body, tl) <- scanstring rest'' ;;
                        Return (String (Text.chr n) body, tl)
                      else Raise Unrepresentable
                  | None => Raise JSONDecodeError
                  end
              | _ => Raise JSONDecodeError
              end
            else Raise JSONDecodeError             (* invalid escape *)
        | EmptyString => Raise JSONDecodeError
        end
      else if Text.code c <? 32 then Raise JSONDecodeError   (* control character *)
      else '(body, tl) <- scanstring rest ;; Return (String c body, tl)
  end.

(** Longest prefix of digits and what follows. *)
Fixpoint scan_digits (s : string) : string * string :=
  match s with
  | String c s' =>
      if Text.is_digit c then let '(ds, rest) := scan_digits s' in (String c ds, rest)
      else (EmptyString, s)
  | EmptyString => (EmptyString, EmptyString)
  end.

(** The parts of a number: an optional minus; 0 or digits that do not
    start with 0; optionally a dot with digits; optionally e or E with a
    signed run of digits. A part that does not match consumes nothing. *)
Definition scan_minus (s : string) : bool * string :=
  match s with
  | String c r => if Text.is_char "-" c then (true, r) else (false, s)
  | EmptyString => (false, s)
  end.

Definition scan_int_part (s : string) : string * string :=
  match s with
  | String c r => if Text.is_char "0" c then ("0", r) else scan_digits s
  | EmptyString => (EmptyString, s)
  end.

Definition scan_frac_part (s : string) : string * string :=
  match s with
  | String c r =>
      if Text.is_char "." c then
        match scan_digits r with
        | (EmptyString, _) => (EmptyString, s)
        | (ds, r') => (ds, r')
        end
      else (EmptyString, s)
  | EmptyString => (EmptyString, s)
  end.

Definition scan_exp_part (s : string) : option Z * string :=
  match s with
  | String c r =>
      if Text.is_char "e" c || Text.is_char "E" c then
        let '(eneg, r') :=
          match r with
          | String g r' =>
              if Text.is_char "-" g then (true, r')
              else if Text.is_char "+" g then (false, r')
              else (false, r)
          | EmptyString => (false, r)
          end in
        match scan_digits r' with
        | (EmptyString, _) => (None, s)
        | (ds, r'') =>
            let v := Num.digits_val 0 ds in
            (Some (if eneg then - v else v), r'')
        end
      else (None, s)
  | EmptyString => (None, s)
  end.

(** A number is an [int] when it has neither fraction nor exponent, else a
    [float]. *)
Definition scan_number (s : string) : option (json * string) :=
  let '(neg, s1) := scan_minus s in
  let '(ip, r1) := scan_int_part s1 in
  match ip with
  | EmptyString => None
  | _ =>
      let '(fp, r2) := scan_frac_part r1 in
      let '(ex, r3) := scan_exp_part r2 in
      match fp, ex with
      | EmptyString, None =>
          let v := Num.digits_val 0 ip in
          Some (JInt (if neg then - v else v), r3)
      | _, _ =>
          let e := match ex with Some e => e | None => 0 end in
          Some (JFloat (Num.float_of_decimal neg (Num.digits_val 0 (ip ++ fp))
                          (e - Z.of_nat (String.length fp))), r3)
      end
  end.

(** [s] begins with [p]: what follows the prefix. *)
Fixpoint after_prefix (p s : string) : option string :=
  match p, s with
  | EmptyString, _ => Some s
  | String a p', String b s' => if Ascii.eqb a b then after_prefix p' s' else None
  | _, _ => None
  end.

(** The members of an object ([JSONObject]): [s] starts at the quote of a
    key, [pairs] holds the members read so far, [scan] reads one value. The
    fuel [n] is the length of the text when the loop starts. *)
Fixpoint scan_members (scan : string -> result (json * string)) (n : nat)
    (s : string) (pairs : list (string * json)) {struct n}
  : result (json * string) :=
  match n, s with
  | S n', String q s1 =>
      if negb (Text.is_char dquote q) then Raise JSONDecodeError else
      '(key, s2) <- scanstring s1 ;;
      match skip_ws s2 with
      | String c s3 =>
          if negb (Text.is_char ":" c) then Raise JSONDecodeError else
          '(value, s4) <- scan (skip_ws s3) ;;
          let pairs := (pairs ++ [(key, value)])%list in
          match skip_ws s4 with
          | String c' s5 =>
              if Text.is_char "}" c' then Return (JDict (dict_of_pairs pairs), s5)
              else if Text.is_char "," c' then scan_members scan n' (skip_ws s5) pairs
              else Raise JSONDecodeError
          | EmptyString => Raise JSONDecodeError
          end
      | EmptyString => Raise JSONDecodeError
      end
  | _, _ => Raise JSONDecodeError
  end.

(** The items of an array ([JSONArray]): [s] starts at an item. *)
Fixpoint scan_items (scan : string -> result (json * string)) (n : nat)
    (s : string) (values : list json) {struct n} : result (json * string) :=
  match n with
  | S n' =>
      '(value, s1) <- scan s ;;
      let values := (values ++ [value])%list in
      match skip_ws s1 with
      | String c s2 =>
          if Text.is_char "]" c then Return (JList values, s2)
          else if Text.is_char "," c then scan_items scan n' (skip_ws s2) values
          else Raise JSONDecodeError
      | EmptyString => Raise JSONDecodeError
      end
  | O => Raise JSONDecodeError
  end.

(** The scanner: [scan_once depth s] reads one value at the head of [s];
    [depth] counts the containers it may still enter. *)
Fixpoint scan_once (depth : nat) (s : string) {struct depth}
  : result (json * string) :=
  match s with
  | EmptyString => Raise JSONDecodeError
  | String c rest =>
      if Text.is_char dquote c then
        '(str, tl) <- scanstring rest ;; Return (JStr str, tl)
      else if Text.is_char "{" c then
        match depth with
        | O => Raise RecursionError
        | S depth' =>
            let s1 := skip_ws rest in
            match s1 with
            | String c1 tl =>
                if Text.is_char "}" c1 then Return (JDict [], tl)
                else scan_members (scan_once depth') (String.length s1) s1 []
            | EmptyString => Raise JSONDecodeError
            end
        end
      else if Text.is_char "[" c then
        match depth with
        | O => Raise RecursionError
        | S depth' =>
            let s1 := skip_ws rest in
            match s1 with
            | String c1 tl =>
                if Text.is_char "]" c1 then Return (JList [], tl)
                else scan_items (scan_once depth') (String.length s1) s1 []
            | EmptyString => Raise JSONDecodeError
            end
        end
      else if Text.is_char "n" c then
        match after_prefix "ull" rest with
        | Some tl => Return (JNull, tl)
        | None => Raise JSONDecodeError
        end
      else if Text.is_char "t" c then
        match after_prefix "rue" rest with
        | Some tl => Return (JBool true, tl)
        | None => Raise JSONDecodeError
        end
      else if Text.is_char "f" c then
        match after_prefix "alse" rest with
        | Some tl => Return (JBool false, tl)
        | None => Raise JSONDecodeError
        end
      else
        match scan_number s with
        | Some r => Return r
        | None =>
            match after_prefix "NaN" s, after_prefix "Infinity" s,
                  after_prefix "-Infinity" s with
            | Some tl, _, _ => Return (JFloat S754_nan, tl)
            | _, Some tl, _ => Return (JFloat (S754_infinity false), tl)
            | _, _, Some tl => Return (JFloat (S754_infinity true), tl)
            | _, _, _ => Raise JSONDecodeError
            end
        end
  end.

(** [json.loads(s)]: one value between optional blanks, and nothing else. *)
Definition json_loads (s : string) : result json :=
  '(obj, tl) <- scan_once recursion_limit (skip_ws s) ;;
  match skip_ws tl with
  | EmptyString => Return obj
  | _ => Raise JSONDecodeError                   (* extra data *)
  end.

(** ** The world the program runs in *)

(** A path of the file system: no file, a file that cannot be opened, or a
    text file with its content. *)
Inductive file : Type :=
| Absent
| NoAccess
| Content (text : string).

(** A reading of the local clock, with the offset of local time from UTC in
    seconds. *)
Record local_time := { lt_naive : datetime; lt_gmtoff : Z }.

Record world := {
  fs : string -> file;             (* the files, by path *)
  clock : nat -> local_time;       (* the n-th reading of the clock *)
  ticks : nat;                     (* readings taken so far *)
  entropy : nat -> Z;              (* the n-th draw of [os.urandom(16)] *)
  draws : nat;                     (* draws taken so far *)
  stdin : nat -> string;           (* the n-th line the user types *)
  asked : nat;                     (* lines read so far *)
  console : list string            (* lines printed, oldest first *)
}.

(** Computations that read and change the world and may raise. *)
Definition M (A : Type) : Type := world -> result A * world.

Definition ret {A} (a : A) : M A := fun w => (Return a, w).
Definition throw {A} (e : exn) : M A := fun w => (Raise e, w).
Definition lift {A} (r : result A) : M A := fun w => (r, w).

Definition mbind {A B} (m : M A) (k : A -> M B) : M B :=
  fun w => match m w with
           | (Return a, w') => k a w'
           | (Raise e, w') => (Raise e, w')
           end.

Notation "x <~ m ;; k" := (mbind m (fun x => k))
  (at level 61, m at next level, right associativity).
Notation "m ;;; k" := (mbind m (fun _ => k))
  (at level 61, right associativity).

(** [try: m  except (e1, e2): handler] *)
Definition try_except {A} (m : M A) (e1 e2 : exn) (handler : exn -> M A) : M A :=
  fun w => match m w with
           | (Raise e, w') =>
               if exn_eqb e e1 || exn_eqb e e2 then handler e w' else (Raise e, w')
           | r => r
           end.

Definition set_fs (w : world) (f : string -> file) : world :=
  {| fs := f; clock := clock w; ticks := ticks w; entropy := entropy w;
     draws := draws w; stdin := stdin w; asked := asked w; console := console w |}.

(** [console.print(line)] *)
Definition console_print (line : string) : M unit :=
  fun w => (Return tt,
            {| fs := fs w; clock := clock w; ticks := ticks w; entropy := entropy w;
               draws := draws w; stdin := stdin w; asked := asked w;
               console := (console w ++ [line])%list |}).

(** [datetime.now()]: the naive local time. *)
Definition datetime_now : M datetime :=
  fun w => (Return (lt_naive (clock w (ticks w))),
            {| fs := fs w; clock := clock w; ticks := S (ticks w);
               entropy := entropy w; draws := draws w; stdin := stdin w;
               asked := asked w; console := console w |}).

(** [datetime.now().astimezone()]: the same reading, aware of the local
    offset. *)
Definition datetime_now_astimezone : M datetime :=
  fun w => let r := clock w (ticks w) in
           let n := lt_naive r in
           (Return {| dt_date := dt_date n; hour := hour n; minute := minute n;
                      second := second n; microsecond := microsecond n;
                      utcoffset := Some (lt_gmtoff r) |},
            {| fs := fs w; clock := clock w; ticks := S (ticks w);
               entropy := entropy w; draws := draws w; stdin := stdin w;
               asked := asked w; console := console w |}).

(** [os.urandom(16)] read as an integer below 2^128. *)
Definition urandom16 : M Z :=
  fun w => (Return (entropy w (draws w) mod 2 ^ 128),
            {| fs := fs w; clock := clock w; ticks := ticks w;
               entropy := entropy w; draws := S (draws w); stdin := stdin w;
               asked := asked w; console := console w |}).

(** [Prompt.ask(prompt, default=default)]: the line typed, stripped, or the
    default when the line is empty. *)
Definition prompt_ask (prompt default : string) : M string :=
  fun w => let line := stdin w (asked w) in
           (Return (if str_truthy line then Text.strip Text.isspace line else default),
            {| fs := fs w; clock := clock w; ticks := ticks w;
               entropy := entropy w; draws := draws w; stdin := stdin w;
               asked := S (asked w); console := console w |}).

(** [path.exists()] *)
Definition path_exists (path : string) : M bool :=
  fun w => (Return (match fs w path with Absent => false | _ => true end), w).

(** [open(path, "r")] followed by [f.read()] *)
Definition read_text (path : string) : M string :=
  fun w => match fs w path with
           | Content text => (Return text, w)
           | Absent | NoAccess => (Raise IOError, w)
           end.

(** [open(path, "w")] followed by [f.write(text)]: the file is replaced. *)
Definition write_text (path text : string) : M unit :=
  fun w => match fs w path with
           | NoAccess => (Raise IOError, w)
           | Absent | Content _ =>
               (Return tt,
                set_fs w (fun p => if String.eqb p path then Content text else fs w p))
           end.

(** ** Settings store *)

Definition CONFIG_PATH : string := "config.json".

Definition ALL_JOB_BOARDS : list string :=
  ["indeed"; "linkedin"; "glassdoor"; "zip_recruiter"; "google"].

Definition DEFAULT_CONFIG : pydict :=
  [ ("default_search", JStr "");
    ("default_location", JStr "USA");
    ("results_per_site", JInt 15);
    ("remote_only", JBool false);
    ("job_type", JNull);
    ("job_boards", JList (List.map JStr ALL_JOB_BOARDS)) ].

(** [{**a, **b}] for a [dict] [a]; [b] must be a mapping. *)
Definition dict_merge (a : pydict) (b : json) : result pydict :=
  match b with
  | JDict d => Return (dict_update a d)
  | _ => Raise TypeError
  end.

(** [json.load(f)] on the file at [path]. *)
Definition json_load (path : string) : M json :=
  text <~ read_text path ;; lift (json_loads text).

Definition load_config : M pydict :=
  e <~ path_exists CONFIG_PATH ;;
  r <~ (if e : bool then
          try_except
            (config <~ json_load CONFIG_PATH ;;
             merged <~ lift (dict_merge DEFAULT_CONFIG config) ;;
             ret (Some merged))
            JSONDecodeError IOError
            (fun _ => ret None)
        else ret None) ;;
  match r with
  | Some merged => ret merged
  | None => ret DEFAULT_CONFIG
  end.

Definition save_config (config : pydict) : M unit :=
  write_text CONFIG_PATH (json_dumps true (JDict config)).

(** ** Export converter *)

(** [is_valid_number], local to [export_jobs]. *)
Definition is_valid_number (val : cell) : result bool :=
  match val with
  | CNone => Return false
  | _ =>
      match py_float val with
      | Return f => Return (negb (Num.is_nan f))
      | Raise ValueError | Raise TypeError => Return false
      | Raise e => Raise e
      end
  end.

(** The salary text of one record (lines 270-291). *)
Definition salary_of (min_sal max_sal : cell) : result string :=
  let body : result string :=
    both <- (a <- is_valid_number min_sal ;;
             if a : bool then is_valid_number max_sal else Return false) ;;
    if both : bool then
      lo <- py_int min_sal ;;
      hi <- py_int max_sal ;;
      Return ("$" ++ Num.format_thousands lo ++ " - $" ++ Num.format_thousands hi)
    else
      only_min <- is_valid_number min_sal ;;
      if only_min : bool then
        lo <- py_int min_sal ;;
        Return ("$" ++ Num.format_thousands lo ++ "+")
      else
        only_max <- is_valid_number max_sal ;;
        if only_max : bool then
          hi <- py_int max_sal ;;
          Return ("Up to $" ++ Num.format_thousands hi)
        else Return EmptyString in
  match body with
  | Raise ValueError | Raise TypeError => Return EmptyString
  | r => r
  end.

(** The posting date of one record (lines 260-267). *)
Definition date_posted_of (job : raw_job) : M string :=
  let date_posted := job_get job "date_posted" CNone in
  if truthy date_posted then
    if has_strftime date_posted
    then ret (cell_strftime date_posted "%Y-%m-%d")
    else ret (Text.take 10 (py_str date_posted))
  else
    now <~ datetime_now ;; ret (strftime now "%Y-%m-%d").

(** The integer of [uuid.UUID(bytes=..., version=4)]: the variant and the
    version overwrite six bits of the random value. *)
Definition uuid4_int (r : Z) : Z :=
  let i := Z.land r (Z.lnot (Z.shiftl 49152 48)) in
  let i := Z.lor i (Z.shiftl 32768 48) in
  let i := Z.land i (Z.lnot (Z.shiftl 61440 64)) in
  Z.lor i (Z.shiftl 4 76).

(** [str(u)] for a [UUID] of integer [i]. *)
Definition uuid_str (i : Z) : string :=
  let h := Num.hex 32 i in
  Text.take 8 h ++ "-" ++ Text.take 4 (Text.drop 8 h) ++ "-"
    ++ Text.take 4 (Text.drop 12 h) ++ "-" ++ Text.take 4 (Text.drop 16 h) ++ "-"
    ++ Text.drop 20 h.

(** [str(uuid.uuid4())] *)
Definition uuid4_str : M string :=
  r <~ urandom16 ;; ret (uuid_str (uuid4_int r)).

(** The record built for one job (lines 293-305). *)
Definition cleansheet_job (job : raw_job) (id salary date_posted : string) : json :=
  JDict
    [ ("id", JStr id);
      ("company", JStr (py_str (job_get job "company" (CStr ""))));
      ("title", JStr (py_str (job_get job "title" (CStr ""))));
      ("location", JStr (py_str (job_get job "location" (CStr ""))));
      ("url", JStr (py_str (job_get job "job_url" (CStr ""))));
      ("description", JStr (py_str (job_get job "description" (CStr ""))));
      ("salary", JStr salary);
      ("datePosted", JStr date_posted);
      ("source", JStr (py_str (job_get job "site" (CStr ""))));
      ("status", JStr "Saved");
      ("tags", JList []) ].

(** One pass of the loop over [jobs] (lines 259-306). *)
Definition convert_job (job : raw_job) : M json :=
  date_posted <~ date_posted_of job ;;
  let min_sal := job_get job "min_amount" CNone in
  let max_sal := job_get job "max_amount" CNone in
  salary <~ lift (salary_of min_sal max_sal) ;;
  id <~ uuid4_str ;;
  ret (cleansheet_job job id salary date_posted).

(** The loop itself: [cleansheet_jobs] after the records of [jobs]. *)
Fixpoint convert_jobs (jobs : list raw_job) (cleansheet_jobs : list json)
  : M (list json) :=
  match jobs with
  | [] => ret cleansheet_jobs
  | job :: rest =>
      cleansheet_job <~ convert_job job ;;
      convert_jobs rest (cleansheet_jobs ++ [cleansheet_job])%list
  end.

Definition nat_str (n : nat) : string := Num.str_of_Z (Z.of_nat n).

(** The file name proposed to the user (lines 243-250). *)
Definition default_name (search_term : string) (now : datetime) : string :=
  let safe_search := safe_search search_term in
  let tz_offset := strftime now "%z" in
  safe_search ++ "_" ++ strftime now "%Y%m%d_%H%M%S" ++ tz_offset ++ ".json".

Definition export_jobs (jobs : list raw_job) (search_term : string) : M unit :=
  match jobs with
  | [] => console_print "No jobs to export. Run a search first."
  | _ =>
      console_print ("Export " ++ nat_str (List.length jobs) ++ " Jobs") ;;;
      now <~ datetime_now_astimezone ;;
      filename <~ prompt_ask "Filename" (default_name search_term now) ;;
      let filename :=
        if Text.endswith filename ".json" then filename else filename ++ ".json" in
      cleansheet_jobs <~ convert_jobs jobs [] ;;
      try_except
        (write_text filename (json_dumps false (JList cleansheet_jobs)) ;;;
         console_print ("Exported " ++ nat_str (List.length cleansheet_jobs)
                          ++ " jobs to " ++ filename) ;;;
         console_print "Import this file into Cleansheet Job Opportunities")
        IOError IOError
        (fun _ => console_print "Export failed")
  end.

(** ** The specification's wording, for comparison with the code *)












(** A lower-case hexadecimal digit. *)
Definition is_lower_hex (c : ascii) : bool :=
  Text.is_digit c || Text.between 97 102 c.







(** A field of an export record. *)
Definition field (k : string) (entry : json) : option json :=
  match entry with
  | JDict d => dict_get d k
  | _ => None
  end.


(** The six keys of a configuration record. *)
Definition recognized_keys : list string :=
  ["default_search"; "default_location"; "results_per_site"; "remote_only";
   "job_type"; "job_boards"].

(** A [dict] has each key once. *)
Definition dict_ok (d : pydict) : Prop := NoDup (dict_keys d).

(** A value that [json.dump] writes and [json.load] reads back: no float,
    each key once, and at most [n] containers nested in one another. *)
Inductive within : nat -> json -> Prop :=
| within_null n : within n JNull
| within_bool n b : within n (JBool b)
| within_int n z : within n (JInt z)
| within_str n s : within n (JStr s)
| within_list n l : Forall (within n) l -> within (S n) (JList l)
| within_dict n d :
    dict_ok d -> Forall (fun kv => within n (snd kv)) d -> within (S n) (JDict d).

(** What may follow a value in a text: nothing, or a character that does
    not continue a number. *)
Definition ends_value (rest : string) : Prop :=
  match rest with
  | EmptyString => True
  | String c _ =>
      Text.is_digit c = false /\ Text.is_char "." c = false
      /\ Text.is_char "e" c = false /\ Text.is_char "E" c = false
  end.

(** The names of the job types (the non-null entries of [JOB_TYPES]). *)
Definition job_type_names : list string :=
  ["fulltime"; "parttime"; "internship"; "contract"].

(** A well-formed configuration record: exactly the six keys, each once,
    with a text for the search and the location, an integer for the results
    per site, a boolean for the remote flag, null or a job type name for the
    job type, and a list of board names. *)
Definition wf_config (x : pydict) : Prop :=
  dict_ok x
  /\ (forall k, In k (dict_keys x) <-> In k recognized_keys)
  /\ (exists s, dict_get x "default_search" = Some (JStr s))
  /\ (exists s, dict_get x "default_location" = Some (JStr s))
  /\ (exists z, dict_get x "results_per_site" = Some (JInt z))
  /\ (exists b, dict_get x "remote_only" = Some (JBool b))
  /\ (dict_get x "job_type" = Some JNull
      \/ exists s, In s job_type_names /\ dict_get x "job_type" = Some (JStr s))
  /\ (exists boards, dict_get x "job_boards" = Some (JList (List.map JStr boards))).

(** Equality of two records as [==] decides it on [dict]s whose keys are
    unique: the same keys with the same values, in any order. *)
Definition dict_eq (a b : pydict) : Prop :=
  forall k, dict_get a k = dict_get b k.

(** A text made of decimal digits. *)
Definition all_digits (s : string) : Prop := Text.forallb Text.is_digit s = true.

(** The first character of a written value. *)
Definition opens_value (c : ascii) : Prop :=
  is_ws c = false /\ Text.is_char "]" c = false /\ Text.is_char "}" c = false
  /\ (Text.is_digit c = true \/ In c ["-"; dquote; "["; "{"; "n"; "t"; "f"]%char).


(** Evaluates the value of a literal digit in the goal. *)
Ltac eval_digit_val :=
  match goal with
  | |- context [Num.digit_val ?c] =>
      let v := eval vm_compute in (Num.digit_val c) in
      change (Num.digit_val c) with v
  end.


(** ** Data of the worked examples *)

(** The examples hold no finite non-zero float, so the text of such a float
    is never asked for. *)
Definition repr_unused (f : spec_float) : string := EmptyString.

(** [s] between double quotes. *)
Definition quoted (s : string) : string := String dquote s ++ String dquote EmptyString.

(** 15 January 2025, 10:30:05, five hours west of UTC. *)
Definition sample_time : local_time :=
  {| lt_naive := {| dt_date := {| year := 2025; month := 1; day := 15 |};
                    hour := 10; minute := 30; second := 5; microsecond := 0;
                    utcoffset := None |};
     lt_gmtoff := - 18000 |}.


(** No file, a user who accepts every default, and random draws that all
    differ. *)
Definition blank_world : world :=
  {| fs := fun _ => Absent;
     clock := fun _ => sample_time; ticks := 0;
     entropy := fun n => 1000003 * Z.of_nat n + 12345; draws := 0;
     stdin := fun _ => EmptyString; asked := 0;
     console := [] |}.

(** The same with a configuration file of the given content. *)
Definition with_config (text : string) : world :=
  set_fs blank_world
    (fun p => if String.eqb p CONFIG_PATH then Content text else Absent).


(** The record of [test_export_handles_nan_salary_gracefully]. *)
Definition nan_job : raw_job :=
  [ ("title", CStr "Test Job"); ("company", CStr "Test Co");
    ("location", CStr "Test City"); ("job_url", CStr "https://example.com");
    ("description", CStr "Test description"); ("date_posted", CNone);
    ("min_amount", CFloat S754_nan); ("max_amount", CFloat S754_nan);
    ("site", CStr "indeed") ].

(** A record with a salary range and no company. *)
Definition ranged_job : raw_job :=
  [ ("title", CStr "Data Engineer"); ("location", CStr "Remote");
    ("job_url", CStr "https://example.com/job/456");
    ("date_posted", CStr "2025-01-10T08:00:00");
    ("min_amount", CInt 100000); ("max_amount", CInt 150000);
    ("site", CStr "linkedin") ].



(** The partial file of [test_load_config_merges_with_defaults]:
    [{"default_search": "test search", "results_per_site": 50}]. *)
Definition partial_config_text : string :=
  "{" ++ quoted "default_search" ++ ": " ++ quoted "test search" ++ ", "
    ++ quoted "results_per_site" ++ ": 50}".


(** A file that holds a JSON array. *)
Definition array_config_text : string := "[1, 2]".


(** ** Notions used to state what the store and the export guarantee *)

(** A character that the base of a file name may hold: a word character or
    a hyphen. *)
Definition is_base_char (c : ascii) : bool := Text.is_word c || Text.is_char "-" c.

(** The text has two underscores in a row. *)
Fixpoint has_double_underscore (s : string) : bool :=
  match s with
  | String a s' =>
      match s' with
      | String b _ =>
          (Text.is_char "_" a && Text.is_char "_" b) || has_double_underscore s'
      | EmptyString => false
      end
  | EmptyString => false
  end.

(** The first and the last character of a text satisfy [p]. *)
Definition head_is (p : ascii -> bool) (s : string) : bool :=
  match s with
  | String c _ => p c
  | EmptyString => false
  end.

Fixpoint last_is (p : ascii -> bool) (s : string) : bool :=
  match s with
  | EmptyString => false
  | String c EmptyString => p c
  | String _ s' => last_is p s'
  end.



(** A character that leaves nothing but an underscore in the base of a file
    name: neither alphanumeric nor a hyphen. *)
Definition is_dropped (c : ascii) : bool :=
  negb (Text.isalnum c || Text.is_char "-" c).

(** A bit of the integer of a version-4 UUID at a given place: the bits of
    the constants are computed, those of the random value stay. *)
Ltac uuid4_bit :=
  unfold uuid4_int; cbv zeta;
  repeat (rewrite Z.lor_spec || rewrite Z.land_spec || rewrite Z.lnot_spec by lia);
  repeat match goal with
         | |- context [Z.testbit (Z.shiftl ?a ?b) ?c] =>
             let v := eval vm_compute in (Z.testbit (Z.shiftl a b) c) in
             change (Z.testbit (Z.shiftl a b) c) with v
         end;
  repeat match goal with
         | |- context [Z.testbit ?r ?c] => is_var r; destruct (Z.testbit r c)
         end;
  reflexivity.

(** * The interactive part

    [select_job_boards], [display_jobs_table], the two menus, [search_jobs]
    and [main]. The values of a configuration come from a JSON file, so each
    of them may be of any JSON type: the operations below are those of
    Python on such values. *)

(** ** Values of any type *)

(** Truth value of [v] in a condition, and [a or b]. *)
Definition json_truthy (v : json) : bool :=
  match v with
  | JNull => false
  | JBool b => b
  | JInt z => negb (z =? 0)
  | JFloat (S754_zero _) => false
  | JFloat _ => true
  | JStr s => str_truthy s
  | JList l => match l with [] => false | _ => true end
  | JDict d => match d with [] => false | _ => true end
  end.

Definition json_or (a b : json) : json := if json_truthy a then a else b.

(** [str.isprintable] on one character of U+0000..U+00FF: the controls, the
    no-break space and the soft hyphen are not printable. *)
Definition is_printable (c : ascii) : bool :=
  Text.between 32 126 c || (Text.between 161 255 c && negb (Text.code c =? 173)).

Fixpoint has_char (a : ascii) (s : string) : bool :=
  match s with
  | EmptyString => false
  | String c s' => Text.is_char a c || has_char a s'
  end.

(** The apostrophe, U+0027. *)
Definition squote : ascii := Ascii true true true false false true false false.

(** One character of [repr(s)] between the quotes [q]. *)
Definition repr_char (q c : ascii) : string :=
  if Text.is_char q c || Text.is_char "\" c then String "\" (String c EmptyString)
  else if Text.code c =? 9 then "\t"
  else if Text.code c =? 10 then "\n"
  else if Text.code c =? 13 then "\r"
  else if is_printable c then String c EmptyString
  else "\x" ++ Num.hex 2 (Text.code c).

Fixpoint repr_chars (q : ascii) (s : string) : string :=
  match s with
  | EmptyString => EmptyString
  | String c s' => repr_char q c ++ repr_chars q s'
  end.

(** [repr(s)] for a [str]: between apostrophes, or between double quotes
    when the text has an apostrophe and no double quote. *)
Definition repr_str (s : string) : string :=
  let q := if has_char squote s && negb (has_char dquote s) then dquote else squote in
  String q (repr_chars q s) ++ String q EmptyString.

(** [repr(v)] and [str(v)], which is also what an f-string prints. *)
Fixpoint json_repr (v : json) : string :=
  match v with
  | JNull => "None"
  | JBool true => "True"
  | JBool false => "False"
  | JInt z => Num.str_of_Z z
  | JFloat f => str_of_float f
  | JStr s => repr_str s
  | JList l => "[" ++ Text.join ", " (List.map json_repr l) ++ "]"
  | JDict d =>
      "{" ++ Text.join ", "
               (List.map (fun kv => repr_str (fst kv) ++ ": " ++ json_repr (snd kv)) d)
          ++ "}"
  end.

Definition json_str (v : json) : string :=
  match v with
  | JStr s => s
  | _ => json_repr v
  end.

(** [len(v)] *)
Definition json_len (v : json) : result Z :=
  match v with
  | JStr s => Return (Z.of_nat (String.length s))
  | JList l => Return (Z.of_nat (List.length l))
  | JDict d => Return (Z.of_nat (List.length d))
  | _ => Raise TypeError
  end.

(** The characters of a text, each as a text. *)
Fixpoint chars (s : string) : list string :=
  match s with
  | EmptyString => []
  | String c s' => String c EmptyString :: chars s'
  end.

(** The items of a list when all of them are texts. *)
Fixpoint strings_of (l : list json) : result (list string) :=
  match l with
  | [] => Return []
  | JStr s :: rest => r <- strings_of rest ;; Return (s :: r)
  | _ :: _ => Raise TypeError
  end.

(** [sep.join(v)]: [v] is iterated, and each item must be a text. *)
Definition json_join (sep : string) (v : json) : result string :=
  match v with
  | JList l => items <- strings_of l ;; Return (Text.join sep items)
  | JStr s => Return (Text.join sep (chars s))
  | JDict d => Return (Text.join sep (dict_keys d))
  | _ => Raise TypeError
  end.

(** [sub in s] for two texts. *)
Fixpoint is_substring (sub s : string) : bool :=
  match after_prefix sub s with
  | Some _ => true
  | None =>
      match s with
      | EmptyString => false
      | String _ s' => is_substring sub s'
      end
  end.

(** [x == s] for a value [x] and a text [s]. *)
Definition json_is_str (s : string) (x : json) : bool :=
  match x with
  | JStr t => String.eqb t s
  | _ => false
  end.

(** [s in v] for a text [s]: an item of a list, a part of a text, a key of
    a [dict]. *)
Definition json_contains (v : json) (s : string) : result bool :=
  match v with
  | JList l => Return (List.existsb (json_is_str s) l)
  | JStr t => Return (is_substring s t)
  | JDict d => Return (match dict_get d s with Some _ => true | None => false end)
  | _ => Raise TypeError
  end.

(** [s.split(sep)] for a separator of one character. *)
Fixpoint split_on (sep : ascii) (s : string) : list string :=
  match s with
  | EmptyString => [EmptyString]
  | String c s' =>
      if Text.is_char sep c then EmptyString :: split_on sep s'
      else
        match split_on sep s' with
        | x :: rest => String c x :: rest
        | [] => [String c EmptyString]
        end
  end.

(** [l[i]] for an [int] index: a negative index counts from the end. *)
Definition list_index {A} (l : list A) (i : Z) : option A :=
  let n := Z.of_nat (List.length l) in
  let j := if i <? 0 then i + n else i in
  if (0 <=? j) && (j <? n) then nth_error l (Z.to_nat j) else None.

(** [enumerate(l, start)] *)
Fixpoint enumerate {A} (l : list A) (start : nat) : list (nat * A) :=
  match l with
  | [] => []
  | x :: rest => (start, x) :: enumerate rest (S start)
  end.

(** ** Computations of the interactive part *)

(** The exceptions of the part above, and those that subscripting and
    attribute access add. *)
Inductive ui_exn : Type :=
| Py (e : exn)
| KeyError
| IndexError
| AttributeError.

(** A computation returns, raises, or is still waiting for an answer that
    the user has not given when the fuel runs out. *)
Inductive outcome (A : Type) : Type :=
| Done (a : A)
| Fail (e : ui_exn)
| Pending.
#[global] Arguments Done {A} a.
#[global] Arguments Fail {A} e.
#[global] Arguments Pending {A}.

Definition UI (A : Type) : Type := world -> outcome A * world.

Definition uret {A} (a : A) : UI A := fun w => (Done a, w).
Definition uraise {A} (e : ui_exn) : UI A := fun w => (Fail e, w).
Definition pending {A} : UI A := fun w => (Pending, w).

Definition ubind {A B} (m : UI A) (k : A -> UI B) : UI B :=
  fun w => match m w with
           | (Done a, w') => k a w'
           | (Fail e, w') => (Fail e, w')
           | (Pending, w') => (Pending, w')
           end.

Notation "x <-- m ;; k" := (ubind m (fun x => k))
  (at level 61, m at next level, right associativity).
Notation "m >>> k" := (ubind m (fun _ => k))
  (at level 61, right associativity).

(** A computation of the store or of the export, run here. *)
Definition run {A} (m : M A) : UI A :=
  fun w => match m w with
           | (Return a, w') => (Done a, w')
           | (Raise e, w') => (Fail (Py e), w')
           end.

Definition of_result {A} (r : result A) : UI A :=
  match r with
  | Return a => uret a
  | Raise e => uraise (Py e)
  end.

(** [try: m  except <those of catches>: handler] *)
Definition try_catch {A} (m : UI A) (catches : ui_exn -> bool) (handler : ui_exn -> UI A)
  : UI A :=
  fun w => match m w with
           | (Fail e, w') => if catches e then handler e w' else (Fail e, w')
           | r => r
           end.

Definition print (line : string) : UI unit := run (console_print line).

(** [d[k]] *)
Definition item (d : pydict) (k : string) : UI json :=
  match dict_get d k with
  | Some v => uret v
  | None => uraise KeyError
  end.

(** ** The prompts of [rich]

    A prompt writes to the console of the library, not to the one of the
    program, so what it shows is not part of the output kept here. *)

(** [input()]: the next line the user types. *)
Definition read_line : UI string :=
  fun w => (Done (stdin w (asked w)),
            {| fs := fs w; clock := clock w; ticks := ticks w;
               entropy := entropy w; draws := draws w; stdin := stdin w;
               asked := S (asked w); console := console w |}).

(** [Prompt.ask(prompt, default=default)]: the line typed, stripped, or the
    default, whatever its type, when the line is empty. *)
Definition ask (prompt : string) (default : json) : UI json :=
  line <-- read_line ;;
  uret (if str_truthy line then JStr (Text.strip Text.isspace line) else default).

(** [Prompt.ask(prompt, choices=choices, default=default)]: asks again
    until the answer is one of the choices. *)
Fixpoint ask_choice (fuel : nat) (prompt : string) (choices : list string)
    (default : string) : UI string :=
  match fuel with
  | O => pending
  | S fuel' =>
      line <-- read_line ;;
      if negb (str_truthy line) then uret default
      else
        let value := Text.strip Text.isspace line in
        if List.existsb (String.eqb value) choices then uret value
        else ask_choice fuel' prompt choices default
  end.

(** [IntPrompt.ask(prompt, default=default)]: asks again until the answer
    is the text of an [int]. *)
Fixpoint ask_int (fuel : nat) (prompt : string) (default : json) : UI json :=
  match fuel with
  | O => pending
  | S fuel' =>
      line <-- read_line ;;
      if negb (str_truthy line) then uret default
      else
        match Num.int_of_str (Text.strip Text.isspace line) with
        | Return z => uret (JInt z)
        | Raise _ => ask_int fuel' prompt default
        end
  end.

(** [Confirm.ask(prompt, default=default)]: asks again until the answer
    is [y] or [n], in either case. *)
Fixpoint ask_confirm (fuel : nat) (prompt : string) (default : json) : UI json :=
  match fuel with
  | O => pending
  | S fuel' =>
      line <-- read_line ;;
      if negb (str_truthy line) then uret default
      else
        let value := Text.lower (Text.strip Text.isspace line) in
        if String.eqb value "y" then uret (JBool true)
        else if String.eqb value "n" then uret (JBool false)
        else ask_confirm fuel' prompt default
  end.

(** ** Choice of the job boards ([select_job_boards], lines 123-142) *)

(** The two marks of the list of boards, U+2713 and U+25CB, and the panel
    and the tables that [rich] draws: texts beyond the characters of the
    model, or that depend on the terminal. The program prints them and never
    looks at them. *)
Variable check_mark : string.
Variable circle_mark : string.
Variable banner_panel : string.
Variable table_text : list (list string) -> string.

Definition of_outcome {A} (r : outcome A) : UI A := fun w => (r, w).

(** The lines of the boards, each with the mark of a board that is in
    [current]. *)
Fixpoint print_boards (current : json) (boards : list (nat * string)) : UI unit :=
  match boards with
  | [] => uret tt
  | (i, board) :: rest =>
      chosen <-- of_result (json_contains current board) ;;
      let status :=
        if chosen : bool then "[green]" ++ check_mark ++ "[/]"
        else "[dim]" ++ circle_mark ++ "[/]" in
      print ("  " ++ status ++ " [" ++ nat_str i ++ "] " ++ board) >>>
      print_boards current rest
  end.

(** [[int(x.strip()) for x in pieces]] *)
Fixpoint parse_indices (pieces : list string) : result (list Z) :=
  match pieces with
  | [] => Return []
  | x :: rest =>
      i <- Num.int_of_str (Text.strip Text.isspace x) ;;
      r <- parse_indices rest ;;
      Return (i :: r)
  end.

(** [[ALL_JOB_BOARDS[i-1] for i in indices if 1 <= i <= len(ALL_JOB_BOARDS)]] *)
Fixpoint pick_boards (indices : list Z) : outcome (list string) :=
  match indices with
  | [] => Done []
  | i :: rest =>
      if (1 <=? i) && (i <=? Z.of_nat (List.length ALL_JOB_BOARDS)) then
        match list_index ALL_JOB_BOARDS (i - 1) with
        | Some board =>
            match pick_boards rest with
            | Done r => Done (board :: r)
            | other => other
            end
        | None => Fail IndexError
        end
      else pick_boards rest
  end.

Definition select_job_boards (current : json) : UI json :=
  print (newline ++ "[bold]Select Job Boards[/] (comma-separated numbers)") >>>
  print_boards current (enumerate ALL_JOB_BOARDS 1) >>>
  print (newline ++ "Enter numbers (e.g., 1,2,3) or 'all' for all boards") >>>
  selection <-- run (prompt_ask "Selection" "all") ;;
  if String.eqb (Text.lower selection) "all"
  then uret (JList (List.map JStr ALL_JOB_BOARDS))
  else
    try_catch
      (indices <-- of_result (parse_indices (split_on "," selection)) ;;
       selected <-- of_outcome (pick_boards indices) ;;
       uret (match selected with
             | [] => current
             | _ => JList (List.map JStr selected)
             end))
      (fun e => match e with Py ValueError | IndexError => true | _ => false end)
      (fun _ => print "[red]Invalid selection, keeping current boards[/]" >>>
                uret current).

(** ** The table of the jobs ([display_jobs_table], lines 210-230) *)

(** The cells of the row of the [i]-th job. *)
Definition table_row (i : nat) (job : raw_job) : list string :=
  [ nat_str i;
    Text.take 30 (py_str (job_get job "title" (CStr "")));
    Text.take 25 (py_str (job_get job "company" (CStr "")));
    Text.take 20 (py_str (job_get job "location" (CStr "")));
    py_str (job_get job "site" (CStr "")) ].

(** The rows added to the table: one for each of the first fifty jobs. *)
Definition table_rows (jobs : list raw_job) : list (list string) :=
  List.map (fun ij => table_row (fst ij) (snd ij)) (enumerate (firstn 50 jobs) 1).

Definition display_jobs_table (jobs : list raw_job) : UI unit :=
  print (table_text (table_rows jobs)) >>>
  if (50 <? List.length jobs)%nat
  then print ("[dim]...and " ++ nat_str (List.length jobs - 50)
                ++ " more (all will be exported)[/]")
  else uret tt.

(** ** The banner and the main menu (lines 64-84) *)

Definition display_banner : UI unit := print banner_panel.

Definition display_main_menu (fuel : nat) : UI string :=
  print (newline ++ "[bold cyan]Main Menu[/]") >>>
  print "  [1] Search for Jobs" >>>
  print "  [2] Settings" >>>
  print "  [3] Export Results" >>>
  print "  [4] Exit" >>>
  print EmptyString >>>
  ask_choice fuel "[bold]Select option[/]" ["1"; "2"; "3"; "4"] "1".

(** ** The settings menu ([display_settings_menu], lines 87-120) *)

(** The lines that show the settings (lines 90-98). *)
Definition show_settings (config : pydict) : UI unit :=
  print (newline ++ "[bold cyan]Settings[/]") >>>
  v <-- item config "default_search" ;;
  print ("  [1] Default Search: [yellow]" ++ json_str (json_or v (JStr "(none)"))
           ++ "[/]") >>>
  v <-- item config "default_location" ;;
  print ("  [2] Default Location: [yellow]" ++ json_str v ++ "[/]") >>>
  v <-- item config "results_per_site" ;;
  print ("  [3] Results per Site: [yellow]" ++ json_str v ++ "[/]") >>>
  v <-- item config "remote_only" ;;
  print ("  [4] Remote Only: [yellow]" ++ json_str v ++ "[/]") >>>
  v <-- item config "job_type" ;;
  print ("  [5] Job Type: [yellow]" ++ json_str (json_or v (JStr "Any")) ++ "[/]") >>>
  v <-- item config "job_boards" ;;
  boards <-- of_result (json_join ", " v) ;;
  print ("  [6] Job Boards: [yellow]" ++ boards ++ "[/]") >>>
  print "  [0] Back to Main Menu" >>>
  print EmptyString.

(** [job_type in JOB_TYPES[1:]] *)
Definition is_job_type (job_type : json) : bool :=
  List.existsb (fun name => json_is_str name job_type) job_type_names.

(** One round of the menu for each unit of fuel; the settings are saved
    when the user leaves with [0]. *)
Fixpoint display_settings_menu (fuel : nat) (config : pydict) : UI pydict :=
  match fuel with
  | O => pending
  | S fuel' =>
      show_settings config >>>
      choice <-- ask_choice fuel' "[bold]Select option[/]"
                   ["0"; "1"; "2"; "3"; "4"; "5"; "6"] "0" ;;
      if String.eqb choice "0" then
        run (save_config config) >>> uret config
      else if String.eqb choice "1" then
        d <-- item config "default_search" ;;
        v <-- ask "Default search terms" d ;;
        display_settings_menu fuel' (dict_set config "default_search" v)
      else if String.eqb choice "2" then
        d <-- item config "default_location" ;;
        v <-- ask "Default location" d ;;
        display_settings_menu fuel' (dict_set config "default_location" v)
      else if String.eqb choice "3" then
        d <-- item config "results_per_site" ;;
        v <-- ask_int fuel' "Results per site" d ;;
        display_settings_menu fuel' (dict_set config "results_per_site" v)
      else if String.eqb choice "4" then
        d <-- item config "remote_only" ;;
        v <-- ask_confirm fuel' "Remote jobs only?" d ;;
        display_settings_menu fuel' (dict_set config "remote_only" v)
      else if String.eqb choice "5" then
        print (newline
                 ++ "Job Types: [dim](none)[/], fulltime, parttime, internship, contract") >>>
        d <-- item config "job_type" ;;
        job_type <-- ask "Job type" (json_or d (JStr "")) ;;
        display_settings_menu fuel'
          (dict_set config "job_type" (if is_job_type job_type then job_type else JNull))
      else if String.eqb choice "6" then
        d <-- item config "job_boards" ;;
        v <-- select_job_boards d ;;
        display_settings_menu fuel' (dict_set config "job_boards" v)
      else display_settings_menu fuel' config
  end.

(** ** The search ([search_jobs], lines 145-207) *)

(** What a call of [scrape_jobs] gives: a data frame with these rows,
    [None], or an exception with this text. *)
Inductive scraped : Type :=
| Frame (records : list raw_job)
| NoFrame
| Failed (message : string).

(** [scrape_jobs], as a function of its arguments [site_name],
    [search_term], [location], [results_wanted], [is_remote] and
    [job_type]: the state of the job boards when it is called. *)
Definition scraper : Type := json -> json -> json -> json -> json -> json -> scraped.

(** [config[k]] inside the [try] of the search: a missing key is an
    exception like another, whose text is [repr(k)]. *)
Definition with_item (config : pydict) (k : string) (f : json -> scraped) : scraped :=
  match dict_get config k with
  | Some v => f v
  | None => Failed (repr_str k)
  end.

(** The progress display is transient and leaves nothing on the console. *)
Definition search_jobs (scrape_jobs : scraper) (config : pydict)
  : UI (list raw_job * json) :=
  print (newline ++ "[bold cyan]Job Search[/]") >>>
  d <-- item config "default_search" ;;
  search_term <-- ask "Job title / keywords" d ;;
  if negb (json_truthy search_term) then
    print "[red]Search term is required[/]" >>> uret ([], JStr EmptyString)
  else
    d <-- item config "default_location" ;;
    location <-- ask "Location" d ;;
    boards <-- item config "job_boards" ;;
    n <-- of_result (json_len boards) ;;
    per_site <-- item config "results_per_site" ;;
    print (newline ++ "[dim]Searching " ++ Num.str_of_Z n ++ " boards, "
             ++ json_str per_site ++ " results each[/]") >>>
    remote <-- item config "remote_only" ;;
    (if json_truthy remote then print "[dim]Remote jobs only[/]" else uret tt) >>>
    job_type <-- item config "job_type" ;;
    (if json_truthy job_type
     then v <-- item config "job_type" ;;
          print ("[dim]Job type: " ++ json_str v ++ "[/]")
     else uret tt) >>>
    let results :=
      with_item config "job_boards" (fun site_name =>
      with_item config "results_per_site" (fun results_wanted =>
      with_item config "remote_only" (fun is_remote =>
      with_item config "job_type" (fun job_type =>
        scrape_jobs site_name search_term location results_wanted is_remote
          job_type)))) in
    match results with
    | Failed message =>
        print ("[red]Search error: " ++ message ++ "[/]") >>> uret ([], search_term)
    | other =>
        let jobs := match other with Frame records => records | _ => [] end in
        match jobs with
        | [] =>
            print (newline
                     ++ "[yellow]No jobs found. Try different search terms or location.[/]") >>>
            uret ([], search_term)
        | _ =>
            print (newline ++ "[green]Found " ++ nat_str (List.length jobs)
                     ++ " jobs![/]") >>>
            display_jobs_table jobs >>>
            uret (jobs, search_term)
        end
    end.

(** ** The main loop ([main], lines 320-339) *)

(** [export_jobs(jobs, search_term)] for a search term of any type. The
    term is used at line 243 only: one that counts as false gives the base
    [jobs], as the empty text does, and one that counts as true and is not
    a text has no [lower]. *)
Definition export_jobs_any (jobs : list raw_job) (search_term : json) : UI unit :=
  match search_term with
  | JStr s => run (export_jobs jobs s)
  | _ =>
      if json_truthy search_term then
        match jobs with
        | [] => run (export_jobs [] EmptyString)
        | _ =>
            print ("Export " ++ nat_str (List.length jobs) ++ " Jobs") >>>
            uraise AttributeError
        end
      else run (export_jobs jobs EmptyString)
  end.

(** One round of the menu for each unit of fuel; [web n] is the state of
    the job boards at the [n]-th search. *)
Fixpoint main_loop (fuel : nat) (web : nat -> scraper) (searches : nat)
    (config : pydict) (jobs : list raw_job) (last_search_term : json) : UI unit :=
  match fuel with
  | O => pending
  | S fuel' =>
      choice <-- display_main_menu fuel' ;;
      if String.eqb choice "1" then
        r <-- search_jobs (web searches) config ;;
        main_loop fuel' web (S searches) config (fst r) (snd r)
      else if String.eqb choice "2" then
        config' <-- display_settings_menu fuel' config ;;
        main_loop fuel' web searches config' jobs last_search_term
      else if String.eqb choice "3" then
        export_jobs_any jobs last_search_term >>>
        main_loop fuel' web searches config jobs last_search_term
      else if String.eqb choice "4" then
        print (newline ++ "[bold blue]Goodbye![/]" ++ newline)
      else main_loop fuel' web searches config jobs last_search_term
  end.

Definition main (fuel : nat) (web : nat -> scraper) : UI unit :=
  display_banner >>>
  config <-- run load_config ;;
  main_loop fuel web 0 config [] (JStr EmptyString).

(** ** Notions used to state what the interactive part guarantees *)

(** The world [w'] differs from [w] by the lines printed at most. *)
Definition printed (w w' : world) : Prop :=
  fs w' = fs w /\ clock w' = clock w /\ ticks w' = ticks w
  /\ entropy w' = entropy w /\ draws w' = draws w
  /\ stdin w' = stdin w /\ asked w' = asked w.

(** The world [w'] differs from [w] by the lines printed and by one more
    line read from the user. *)
Definition answered (w w' : world) : Prop :=
  fs w' = fs w /\ clock w' = clock w /\ ticks w' = ticks w
  /\ entropy w' = entropy w /\ draws w' = draws w
  /\ stdin w' = stdin w /\ asked w' = S (asked w).

(** The answer to a prompt whose default is a text: the next line the user
    types, stripped, or the default when the line is empty. *)
Definition answer (default : string) (w : world) : string :=
  let line := stdin w (asked w) in
  if str_truthy line then Text.strip Text.isspace line else default.

(** The boards that the numbers of a selection name, in the order of the
    numbers: a number outside 1..5 names none. *)
Definition boards_at (indices : list Z) : list string :=
  List.flat_map
    (fun i => if (1 <=? i) && (i <=? 5)
              then [nth (Z.to_nat (i - 1)) ALL_JOB_BOARDS EmptyString]
              else [])
    indices.

(** A line that a prompt with choices rejects: not empty, and not one of
    the choices once stripped. *)
Definition rejected (choices : list string) (line : string) : Prop :=
  line <> EmptyString
  /\ List.existsb (String.eqb (Text.strip Text.isspace line)) choices = false.


(** The world [w'] differs from [w] by the number of lines read from the
    user at most. *)
Definition listened (w w' : world) : Prop :=
  fs w' = fs w /\ clock w' = clock w /\ ticks w' = ticks w
  /\ entropy w' = entropy w /\ draws w' = draws w
  /\ stdin w' = stdin w /\ console w' = console w.

(** Runs the [print] at the head of the goal: the world after it is named,
    and what it keeps of the first world is recorded. *)
Ltac step_print :=
  unfold ubind at 1;
  match goal with
  | |- context [print ?line ?w] =>
      let w1 := fresh "w" in
      let E := fresh "E" in
      let P := fresh "P" in
      assert (exists w', print line w = (Done tt, w') /\ printed w w') as (w1 & E & P)
        by (eexists; split; [reflexivity | unfold printed; cbn; repeat split]);
      rewrite E; clear E;
      try match goal with
          | Q : printed ?w0 w |- _ =>
              let P' := fresh "P" in
              assert (printed w0 w1) as P'
                by (unfold printed in *; intuition congruence);
              clear Q P
          end
  end.

(** The world [w'] differs from [w] by lines printed and lines read at
    most: the files, the clock and the random bytes are as in [w]. *)
Definition chatted (w w' : world) : Prop :=
  fs w' = fs w /\ clock w' = clock w /\ ticks w' = ticks w
  /\ entropy w' = entropy w /\ draws w' = draws w
  /\ stdin w' = stdin w /\ (asked w <= asked w')%nat.

(** The value [v] has the type that a well-formed configuration gives to
    the key [k]. *)
Definition well_typed (k : string) (v : json) : Prop :=
  (k = "default_search" -> exists s, v = JStr s)
  /\ (k = "default_location" -> exists s, v = JStr s)
  /\ (k = "results_per_site" -> exists z, v = JInt z)
  /\ (k = "remote_only" -> exists b, v = JBool b)
  /\ (k = "job_type" ->
      v = JNull \/ exists s, In s job_type_names /\ v = JStr s)
  /\ (k = "job_boards" -> exists boards, v = JList (List.map JStr boards)).

(** The boards of the configuration are names of [ALL_JOB_BOARDS]. *)
Definition boards_valid (config : pydict) : Prop :=
  exists boards,
    dict_get config "job_boards" = Some (JList (List.map JStr boards))
    /\ Forall (fun b => In b ALL_JOB_BOARDS) boards.

(** What the settings menu keeps of a configuration: it is well formed,
    and, when [strict] is set, its boards are names of [ALL_JOB_BOARDS]. *)
Definition settled (strict : bool) (config : pydict) : Prop :=
  wf_config config /\ (strict = true -> boards_valid config).

(** What a run of the settings menu from the world [w] comes to: it returns
    a configuration that it has just saved, it raises the [IOError] of a
    configuration file that cannot be written, or it waits. *)
Definition settings_post (strict : bool) (w : world) (r : outcome pydict * world)
  : Prop :=
  match r with
  | (Done cfg, w') =>
      settled strict cfg
      /\ exists w1, chatted w w1 /\ save_config cfg w1 = (Return tt, w')
  | (Fail e, _) => e = Py IOError /\ fs w CONFIG_PATH = NoAccess
  | (Pending, _) => True
  end.

(** The answer to the [n]-th prompt after [w] when its default is
    [default]: the line typed, stripped, or the default for an empty line. *)
Definition reply (default : json) (w : world) (n : nat) : json :=
  let line := stdin w (asked w + n)%nat in
  if str_truthy line then JStr (Text.strip Text.isspace line) else default.





(** A value that cannot be iterated or counted: [None], a [bool] or a
    number. *)
Definition is_scalar (v : json) : bool :=
  match v with
  | JNull | JBool _ | JInt _ | JFloat _ => true
  | _ => false
  end.



(** ** Data of the further examples *)




(** A user who types the given lines, then empty lines; no file. *)
Definition typing (lines : list string) : world :=
  {| fs := fun _ => Absent;
     clock := fun _ => sample_time; ticks := 0;
     entropy := fun n => 1000003 * Z.of_nat n + 12345; draws := 0;
     stdin := fun n => nth n lines EmptyString; asked := 0;
     console := [] |}.


(** Job boards that answer every search with the same two rows. *)
Definition sample_web : scraper :=
  fun _ _ _ _ _ _ => Frame [nan_job; ranged_job].


(** Plain stand-ins for what [rich] draws: marks, banner and table. *)
Definition plain_check : string := "x".
Definition plain_circle : string := "o".
Definition plain_banner : string := "JOBPACKER".
Definition plain_table (rows : list (list string)) : string :=
  Text.join newline (List.map (Text.join " | ") rows).

(** The settings after the location was set to Berlin. *)
Definition berlin_config : pydict :=
  dict_set DEFAULT_CONFIG "default_location" (JStr "Berlin").

(** The settings read from the file [{"job_boards": null}]. *)
Definition unboarded_config : pydict := dict_set DEFAULT_CONFIG "job_boards" JNull.
Example safe_search_1 :
  safe_search "Python/Java Developer @ NYC" = "python_java_developer_nyc".
Proof. reflexivity. Qed.
Example safe_search_2 :
  safe_search "Python   &&&   Developer" = "python_developer".
Proof. reflexivity. Qed.
Example safe_search_3 : safe_search "" = "jobs".
Proof. reflexivity. Qed.

Example int_of_str_1 : Num.int_of_str " 1_000 " = Return 1000. Proof. reflexivity. Qed.
Example int_of_str_2 : Num.int_of_str "1.5" = Raise ValueError. Proof. reflexivity. Qed.
Example int_of_str_3 : Num.int_of_str "-42" = Return (-42). Proof. reflexivity. Qed.
Example float_of_str_1 : Num.float_of_str "1.5" = Return (S754_finite false 6755399441055744 (-52)). Proof. vm_compute. reflexivity. Qed.
Example float_of_str_2 : Num.float_of_str "abc" = Raise ValueError. Proof. reflexivity. Qed.
Example float_of_str_3 : Num.float_of_str "NaN" = Return S754_nan. Proof. reflexivity. Qed.
Example float_of_str_4 : Num.float_of_str "0.1" = Return (S754_finite false 7205759403792794 (-56)). Proof. vm_compute. reflexivity. Qed.
Example float_of_str_5 : Num.float_of_str "1e400" = Return (S754_infinity false). Proof. vm_compute. reflexivity. Qed.
Example float_of_str_6 : Num.float_of_str "1e5" = Return (S754_finite false 6871947673600000 (-36)). Proof. vm_compute. reflexivity. Qed.
Example float_of_str_7 : Num.float_of_str "5e-324" = Return (S754_finite false 1 (-1074)). Proof. vm_compute. reflexivity. Qed.
Example float_of_str_8 : Num.float_of_str "2e-324" = Return (S754_zero false). Proof. vm_compute. reflexivity. Qed.
Example float_of_str_9 : Num.float_of_str "." = Raise ValueError. Proof. reflexivity. Qed.
Example float_of_str_10 : Num.float_of_str "5." = Return (S754_finite false 5629499534213120 (-50)). Proof. vm_compute. reflexivity. Qed.
Example fmt_1 : Num.format_thousands 100000 = "100,000". Proof. reflexivity. Qed.
Example fmt_2 : Num.format_thousands (-1234567) = "-1,234,567". Proof. reflexivity. Qed.
Example fmt_3 : Num.format_thousands 999 = "999". Proof. reflexivity. Qed.
Example hex_1 : Num.hex 4 43981 = "abcd". Proof. reflexivity. Qed.
Example zpad_1 : Num.zpad 2 5 = "05". Proof. reflexivity. Qed.

(** * Properties *)

(** ** Text *)

Lemma append_assoc (a b c : string) : (a ++ b) ++ c = a ++ (b ++ c).
Proof. induction a as [|x a IH]; simpl; [reflexivity | now rewrite IH]. Qed.

Lemma append_nil_r (a : string) : a ++ "" = a.
Proof. induction a as [|x a IH]; simpl; [reflexivity | now rewrite IH]. Qed.

Lemma length_append (a b : string) :
  String.length (a ++ b) = (String.length a + String.length b)%nat.
Proof. induction a as [|x a IH]; simpl; [reflexivity | now rewrite IH]. Qed.

Lemma is_char_true (a c : ascii) : Text.is_char a c = true <-> a = c.
Proof. unfold Text.is_char. apply Ascii.eqb_eq. Qed.

Lemma is_char_refl (a : ascii) : Text.is_char a a = true.
Proof. now apply is_char_true. Qed.

Section Underscores.

Lemma lstrip_cons (p : ascii -> bool) (c : ascii) (s : string) :
  Text.lstrip p (String c s) = if p c then Text.lstrip p s else String c s.
Proof. reflexivity. Qed.

Lemma su_other (c : ascii) (s : string) :
  (Text.is_char "_") c = false -> sub_underscores (String c s) = String c (sub_underscores s).
Proof. intros H. cbn [sub_underscores]. now rewrite H. Qed.

Lemma su_last (c : ascii) :
  (Text.is_char "_") c = true -> sub_underscores (String c "") = String c "".
Proof. intros H. cbn [sub_underscores]. now rewrite H. Qed.

Lemma su_run (c c' : ascii) (s : string) :
  (Text.is_char "_") c = true -> (Text.is_char "_") c' = true ->
  sub_underscores (String c (String c' s)) = sub_underscores (String c' s).
Proof. intros H H'. cbn [sub_underscores]. now rewrite H, H'. Qed.

Lemma su_end_of_run (c c' : ascii) (s : string) :
  (Text.is_char "_") c = true -> (Text.is_char "_") c' = false ->
  sub_underscores (String c (String c' s))
  = String c (sub_underscores (String c' s)).
Proof. intros H H'. cbn [sub_underscores]. now rewrite H, H'. Qed.

Lemma sub_underscores_nil (s : string) : sub_underscores s = "" -> s = "".
Proof.
  induction s as [|c s IH]; [reflexivity|].
  destruct ((Text.is_char "_") c) eqn:Ec.
  - destruct s as [|c' s'].
    + now rewrite su_last.
    + destruct ((Text.is_char "_") c') eqn:Ec'.
      * rewrite su_run by assumption. intros H. specialize (IH H). discriminate.
      * now rewrite su_end_of_run.
  - now rewrite su_other.
Qed.


Lemma rstrip_cons (p : ascii -> bool) (c : ascii) (s : string) :
  Text.rstrip p (String c s)
  = match Text.rstrip p s with
    | "" => if p c then "" else String c ""
    | r => String c r
    end.
Proof. reflexivity. Qed.




End Underscores.

(** ** Decimal text *)

Lemma forallb_append (p : ascii -> bool) (a b : string) :
  Text.forallb p (a ++ b) = Text.forallb p a && Text.forallb p b.
Proof.
  induction a as [|x a IH]; simpl; [reflexivity|].
  now rewrite IH, andb_assoc.
Qed.



Lemma uint_digits (d : Decimal.uint) : all_digits (NilEmpty.string_of_uint d).
Proof. unfold all_digits. induction d; simpl; auto. Qed.





Lemma digits_val_of_uint_acc (d : Decimal.uint) (acc : positive) :
  Num.digits_val (Zpos acc) (NilEmpty.string_of_uint d)
  = Zpos (Pos.of_uint_acc d acc).
Proof.
  revert acc.
  induction d; intros acc;
    cbn [NilEmpty.string_of_uint Num.digits_val Pos.of_uint_acc];
    try reflexivity; eval_digit_val; rewrite <- IHd; f_equal; lia.
Qed.

Lemma digits_val_of_uint (d : Decimal.uint) :
  Num.digits_val 0 (NilEmpty.string_of_uint d) = Z.of_N (Pos.of_uint d).
Proof.
  induction d; cbn [NilEmpty.string_of_uint Num.digits_val Pos.of_uint];
    try reflexivity; eval_digit_val;
    [exact IHd | cbn [Z.of_N]; rewrite <- digits_val_of_uint_acc; f_equal ..].
Qed.

(** The decimal text of a positive number: digits, the first of which is
    not 0. *)
Lemma pos_to_uint_head (p : positive) :
  exists c s, NilEmpty.string_of_uint (Pos.to_uint p) = String c s
              /\ Text.is_char "0" c = false.
Proof.
  pose proof (DecimalPos.Unsigned.to_of (Pos.to_uint p)) as H.
  rewrite DecimalPos.Unsigned.of_to in H. cbn [N.to_uint] in H.
  pose proof (DecimalPos.Unsigned.to_uint_nonzero p) as Hz.
  pose proof (DecimalPos.Unsigned.to_uint_nonnil p) as Hn.
  destruct (Pos.to_uint p) as [|u|u|u|u|u|u|u|u|u|u] eqn:E;
    try (cbn [NilEmpty.string_of_uint]; eexists _, _; split; [reflexivity|reflexivity]).
  - congruence.
  - exfalso. unfold Decimal.unorm in H. cbn [Decimal.nzhead] in H.
    destruct (Decimal.nzhead u) eqn:En.
    + injection H as ->. now apply Hz.
    + symmetry in H. rewrite <- En in H. now apply DecimalFacts.nzhead_nonzero in H.
    + discriminate. + discriminate. + discriminate. + discriminate.
    + discriminate. + discriminate. + discriminate. + discriminate.
    + discriminate.
Qed.

Lemma str_of_Z_pos (p : positive) :
  Num.str_of_Z (Zpos p) = NilEmpty.string_of_uint (Pos.to_uint p).
Proof.
  unfold Num.str_of_Z. cbn [Z.to_int NilZero.string_of_int].
  unfold NilZero.string_of_uint.
  pose proof (DecimalPos.Unsigned.to_uint_nonnil p).
  now destruct (Pos.to_uint p).
Qed.

Lemma str_of_Z_neg (p : positive) :
  Num.str_of_Z (Zneg p) = String "-" (Num.str_of_Z (Zpos p)).
Proof.
  rewrite str_of_Z_pos. unfold Num.str_of_Z. cbn [Z.to_int NilZero.string_of_int].
  unfold NilZero.string_of_uint.
  pose proof (DecimalPos.Unsigned.to_uint_nonnil p).
  now destruct (Pos.to_uint p).
Qed.

Lemma str_of_Z_0 : Num.str_of_Z 0 = "0".
Proof. reflexivity. Qed.

Lemma str_of_Z_nonneg_digits (z : Z) : 0 <= z -> all_digits (Num.str_of_Z z).
Proof.
  intros H. destruct z as [|p|p]; [reflexivity| |lia].
  rewrite str_of_Z_pos. apply uint_digits.
Qed.

Lemma digits_val_str_of_Z (z : Z) : 0 <= z -> Num.digits_val 0 (Num.str_of_Z z) = z.
Proof.
  intros H. destruct z as [|p|p]; [reflexivity| |lia].
  rewrite str_of_Z_pos, digits_val_of_uint, DecimalPos.Unsigned.of_to. reflexivity.
Qed.





(** ** The default file name *)








(** ** Salary text *)


Lemma int_of_str_raises (s : string) (e : exn) :
  Num.int_of_str s = Raise e -> e = ValueError.
Proof.
  unfold Num.int_of_str.
  destruct (Num.scan_sign _) as [neg s1].
  destruct (Num.scan_digitpart s1) as [[|c ds] [|? ?]]; congruence.
Qed.




(** ** Posting date *)




(** ** Hexadecimal text and UUIDs *)

Lemma land15_range (z : Z) : 0 <= Z.land z 15 < 16.
Proof.
  change 15 with (Z.ones 4). rewrite Z.land_ones by lia.
  apply Z.mod_pos_bound. lia.
Qed.

Lemma hex_digit_lower (z : Z) : 0 <= z < 16 -> is_lower_hex (Num.hex_digit z) = true.
Proof.
  intros H.
  assert (E : z = 0 \/ z = 1 \/ z = 2 \/ z = 3 \/ z = 4 \/ z = 5 \/ z = 6 \/ z = 7
              \/ z = 8 \/ z = 9 \/ z = 10 \/ z = 11 \/ z = 12 \/ z = 13 \/ z = 14
              \/ z = 15) by lia.
  repeat (destruct E as [-> | E]; [reflexivity|]). subst. reflexivity.
Qed.


Lemma hex_length (w : nat) (z : Z) : String.length (Num.hex w z) = w.
Proof.
  revert z. induction w as [|w IH]; intros z; [reflexivity|].
  cbn [Num.hex]. rewrite length_append, IH. cbn. lia.
Qed.

Lemma hex_lower (w : nat) (z : Z) : Text.forallb is_lower_hex (Num.hex w z) = true.
Proof.
  revert z. induction w as [|w IH]; intros z; [reflexivity|].
  cbn [Num.hex]. rewrite forallb_append, IH. cbn [Text.forallb].
  now rewrite hex_digit_lower by apply land15_range.
Qed.



(** The 32 digits of [hex 32 i], one by one. *)
Lemma hex32_chars (i : Z) :
  exists l : list ascii,
    List.length l = 32%nat /\ Num.hex 32 i = string_of_list_ascii l
    /\ List.forallb is_lower_hex l = true.
Proof.
  exists (list_ascii_of_string (Num.hex 32 i)). split; [|split].
  - pose proof (hex_length 32 i) as H. revert H.
    generalize (Num.hex 32 i). intros s. generalize 32%nat.
    induction s as [|c s IH]; intros n H; cbn in *; [assumption|].
    destruct n; [discriminate|]. injection H as H. f_equal. now apply IH.
  - now rewrite string_of_list_ascii_of_string.
  - pose proof (hex_lower 32 i) as H. revert H.
    generalize (Num.hex 32 i). intros s.
    induction s as [|c s IH]; cbn; [reflexivity|].
    intros H. apply andb_true_iff in H. destruct H as [-> H]. now apply IH.
Qed.






(** ** The conversion loop *)





(** ** Dictionaries *)

Lemma dict_get_set (d : pydict) (k k' : string) (v : json) :
  dict_get (dict_set d k v) k' = if String.eqb k k' then Some v else dict_get d k'.
Proof.
  induction d as [|[k0 v0] d IH]; cbn [dict_set dict_get].
  - reflexivity.
  - destruct (String.eqb k0 k) eqn:E0.
    + apply String.eqb_eq in E0. subst k0. cbn [dict_get].
      now destruct (String.eqb k k').
    + cbn [dict_get]. destruct (String.eqb k0 k') eqn:E1.
      * apply String.eqb_eq in E1. subst k0.
        rewrite String.eqb_sym in E0. now rewrite E0.
      * exact IH.
Qed.

Lemma dict_get_none (d : pydict) (k : string) :
  dict_get d k = None <-> ~ In k (dict_keys d).
Proof.
  induction d as [|[k0 v0] d IH]; cbn [dict_get dict_keys List.map In fst].
  - tauto.
  - destruct (String.eqb k0 k) eqn:E.
    + apply String.eqb_eq in E. split; [discriminate | tauto].
    + apply String.eqb_neq in E. unfold dict_keys in IH. tauto.
Qed.

Lemma dict_keys_set (d : pydict) (k : string) (v : json) :
  dict_keys (dict_set d k v)
  = match dict_get d k with
    | Some _ => dict_keys d
    | None => (dict_keys d ++ [k])%list
    end.
Proof.
  induction d as [|[k0 v0] d IH]; cbn [dict_set dict_get dict_keys List.map fst].
  - reflexivity.
  - destruct (String.eqb k0 k) eqn:E; [reflexivity|].
    cbn [List.map fst]. unfold dict_keys in IH. rewrite IH.
    now destruct (dict_get d k).
Qed.

Lemma dict_set_ok (d : pydict) (k : string) (v : json) :
  dict_ok d -> dict_ok (dict_set d k v).
Proof.
  unfold dict_ok. intros H. rewrite dict_keys_set.
  destruct (dict_get d k) eqn:E; [assumption|].
  apply dict_get_none in E.
  apply NoDup_app; [assumption | repeat constructor; intros [] |].
  intros x Hx [<- | []]. contradiction.
Qed.

Lemma dict_update_ok (pairs : list (string * json)) (d : pydict) :
  dict_ok d -> dict_ok (dict_update d pairs).
Proof.
  unfold dict_update. revert d.
  induction pairs as [|[k v] pairs IH]; intros d H; cbn [fold_left]; [assumption|].
  apply IH. now apply dict_set_ok.
Qed.

Lemma dict_of_pairs_ok (pairs : list (string * json)) : dict_ok (dict_of_pairs pairs).
Proof. apply dict_update_ok. constructor. Qed.

(** Merging: the keys of [b] override those of [a]. *)
Lemma dict_get_update (b : pydict) :
  dict_ok b ->
  forall (a : pydict) (k : string),
    dict_get (dict_update a b) k
    = match dict_get b k with
      | Some v => Some v
      | None => dict_get a k
      end.
Proof.
  unfold dict_update.
  induction b as [|[k0 v0] b IH]; intros Hb a k; cbn [fold_left dict_get fst snd].
  - reflexivity.
  - unfold dict_ok in Hb. cbn [dict_keys List.map fst] in Hb.
    apply NoDup_cons_iff in Hb. destruct Hb as [Hk0 Hb].
    rewrite (IH Hb), dict_get_set.
    destruct (String.eqb k0 k) eqn:E; [|reflexivity].
    apply String.eqb_eq in E. subst k0.
    apply dict_get_none in Hk0. now rewrite Hk0.
Qed.

Lemma default_config_keys : dict_keys DEFAULT_CONFIG = recognized_keys.
Proof. reflexivity. Qed.

(** ** What the scanner returns *)

Lemma bind_return {A B} (m : result A) (k : A -> result B) (b : B) :
  bind m k = Return b -> exists a, m = Return a /\ k a = Return b.
Proof. destruct m as [a|e]; cbn; [eauto | discriminate]. Qed.

Lemma scan_members_dict (scan : string -> result (json * string)) (n : nat) :
  forall (s : string) (pairs : list (string * json)) (v : json) (tl : string),
    scan_members scan n s pairs = Return (v, tl) ->
    exists ps, v = JDict (dict_of_pairs ps).
Proof.
  induction n as [|n IH]; intros s pairs v tl E; cbn [scan_members] in E.
  - destruct s; discriminate.
  - destruct s as [|q s1]; [discriminate|].
    destruct (negb (Text.is_char dquote q)); [discriminate|].
    apply bind_return in E. destruct E as ([key s2] & _ & E).
    destruct (skip_ws s2) as [|c s3]; [discriminate|].
    destruct (negb (Text.is_char ":" c)); [discriminate|].
    apply bind_return in E. destruct E as ([value s4] & _ & E).
    destruct (skip_ws s4) as [|c' s5]; [discriminate|].
    destruct (Text.is_char "}" c'); [injection E as <- _; eauto|].
    destruct (Text.is_char "," c'); [|discriminate].
    eapply IH. exact E.
Qed.

Lemma scan_items_list (scan : string -> result (json * string)) (n : nat) :
  forall (s : string) (values : list json) (v : json) (tl : string),
    scan_items scan n s values = Return (v, tl) -> exists l, v = JList l.
Proof.
  induction n as [|n IH]; intros s values v tl E; cbn [scan_items] in E.
  - discriminate.
  - apply bind_return in E. destruct E as ([value s1] & _ & E).
    destruct (skip_ws s1) as [|c s2]; [discriminate|].
    destruct (Text.is_char "]" c); [injection E as <- _; eauto|].
    destruct (Text.is_char "," c); [|discriminate].
    eapply IH. exact E.
Qed.

Lemma scan_number_kind (s : string) (v : json) (tl : string) :
  scan_number s = Some (v, tl) -> (exists z, v = JInt z) \/ (exists f, v = JFloat f).
Proof.
  unfold scan_number.
  destruct (scan_minus s) as [neg s1].
  destruct (scan_int_part s1) as [ip r1].
  destruct ip as [|c ip]; [discriminate|].
  destruct (scan_frac_part r1) as [fp r2].
  destruct (scan_exp_part r2) as [ex r3].
  destruct fp, ex; intros [= <- _]; eauto.
Qed.

(** An object read from a text has each key once. *)
Lemma scan_once_dict (depth : nat) (s : string) (d : pydict) (tl : string) :
  scan_once depth s = Return (JDict d, tl) -> dict_ok d.
Proof.
  assert (Hm : forall scan n s0 r,
             scan_members scan n s0 [] = r -> r = Return (JDict d, tl) -> dict_ok d).
  { intros scan n s0 r Er Hr. rewrite Hr in Er. apply scan_members_dict in Er.
    destruct Er as (ps & [= ->]). apply dict_of_pairs_ok. }
  assert (Hi : forall scan n s0 r,
             scan_items scan n s0 [] = r -> r = Return (JDict d, tl) -> dict_ok d).
  { intros scan n s0 r Er Hr. rewrite Hr in Er. apply scan_items_list in Er.
    destruct Er as (l & [=]). }
  destruct s as [|c rest]; [destruct depth; discriminate|].
  destruct depth as [|depth]; cbn [scan_once];
    (destruct (Text.is_char dquote c);
     [ intros E; apply bind_return in E; destruct E as ([str t] & _ & E);
       cbn in E; discriminate |]);
    (destruct (Text.is_char "{" c);
     [ first
         [ discriminate
         | cbv zeta; destruct (skip_ws rest) as [|c1 s1]; [discriminate|];
           destruct (Text.is_char "}" c1);
           [ intros [= <- _]; constructor
           | intros E; exact (Hm _ _ _ _ eq_refl E) ] ] |]);
    (destruct (Text.is_char "[" c);
     [ first
         [ discriminate
         | cbv zeta; destruct (skip_ws rest) as [|c1 s1]; [discriminate|];
           destruct (Text.is_char "]" c1);
           [ discriminate
           | intros E; exact (Hi _ _ _ _ eq_refl E) ] ] |]);
    (destruct (Text.is_char "n" c);
     [ destruct (after_prefix "ull" rest); discriminate |]);
    (destruct (Text.is_char "t" c);
     [ destruct (after_prefix "rue" rest); discriminate |]);
    (destruct (Text.is_char "f" c);
     [ destruct (after_prefix "alse" rest); discriminate |]);
    (destruct (scan_number (String c rest)) as [[v t]|] eqn:En;
     [ intros [= -> _]; apply scan_number_kind in En;
       destruct En as [[z [=]] | [f [=]]]
     | destruct (after_prefix "NaN" _); [discriminate|];
       destruct (after_prefix "Infinity" _); [discriminate|];
       destruct (after_prefix "-Infinity" _); discriminate ]).
Qed.

Lemma json_loads_dict (text : string) (d : pydict) :
  json_loads text = Return (JDict d) -> dict_ok d.
Proof.
  unfold json_loads. intros E.
  apply bind_return in E. destruct E as ([obj tl] & E & E').
  destruct (skip_ws tl); [|discriminate]. injection E' as ->.
  eapply scan_once_dict. exact E.
Qed.

(** ** Loading the configuration *)

Lemma load_config_content (w : world) (text : string) :
  fs w CONFIG_PATH = Content text ->
  load_config w
  = (match json_loads text with
     | Return (JDict d) => Return (dict_update DEFAULT_CONFIG d)
     | Return _ => Raise TypeError
     | Raise e =>
         if exn_eqb e JSONDecodeError || exn_eqb e IOError
         then Return DEFAULT_CONFIG else Raise e
     end, w).
Proof.
  intros H.
  cbv beta delta [load_config json_load mbind path_exists try_except read_text
                    lift ret dict_merge].
  rewrite H. cbv beta iota. rewrite H. cbv beta iota.
  destruct (json_loads text) as [[]|[]]; reflexivity.
Qed.

Lemma load_config_missing (w : world) :
  fs w CONFIG_PATH = Absent -> load_config w = (Return DEFAULT_CONFIG, w).
Proof.
  intros H. cbv beta delta [load_config mbind path_exists ret]. now rewrite H.
Qed.

Lemma load_config_no_access (w : world) :
  fs w CONFIG_PATH = NoAccess -> load_config w = (Return DEFAULT_CONFIG, w).
Proof.
  intros H.
  cbv beta delta [load_config json_load mbind path_exists try_except read_text
                    lift ret dict_merge].
  rewrite H. cbv beta iota. now rewrite H.
Qed.


Lemma load_config_object (w : world) (text : string) (d : pydict) :
  fs w CONFIG_PATH = Content text -> json_loads text = Return (JDict d) ->
  load_config w = (Return (dict_update DEFAULT_CONFIG d), w)
  /\ forall k, dict_get (dict_update DEFAULT_CONFIG d) k
               = match dict_get d k with
                 | Some v => Some v
                 | None => dict_get DEFAULT_CONFIG k
                 end.
Proof.
  intros Hf Hl. split.
  - rewrite (load_config_content w text Hf), Hl. reflexivity.
  - intros k. apply dict_get_update. eapply json_loads_dict. exact Hl.
Qed.

(** ** Reading back what was written *)

Section Escaping.

(** The [ensure_ascii] argument of the writer: the scanner reads back both
    forms of a text. *)
Variable ea : bool.

Lemma scanstring_escape_char (c : ascii) (t : string) :
  scanstring (escape_char ea c ++ t)
  = bind (scanstring t) (fun x => let '(body, tl) := x in Return (String c body, tl)).
Proof.
  destruct ea; destruct c as [[] [] [] [] [] [] [] []]; reflexivity.
Qed.

Lemma scanstring_escape (s rest : string) :
  scanstring (escape ea s ++ String dquote rest) = Return (s, rest).
Proof.
  induction s as [|c s IH]; [reflexivity|].
  cbn [escape]. rewrite append_assoc, scanstring_escape_char, IH. reflexivity.
Qed.

Lemma scanstring_quote (s rest : string) :
  exists t, quote ea s ++ rest = String dquote t
            /\ scanstring t = Return (s, rest).
Proof.
  unfold quote. eexists. split; [reflexivity|].
  rewrite append_assoc. apply scanstring_escape.
Qed.

Lemma digit_is_not (a c : ascii) :
  Text.is_digit a = false -> Text.is_digit c = true -> Text.is_char a c = false.
Proof.
  intros Ha Hc. destruct (Text.is_char a c) eqn:E; [|reflexivity].
  apply is_char_true in E. congruence.
Qed.

Lemma scan_digits_append (ds rest : string) :
  all_digits ds ->
  match rest with String c _ => Text.is_digit c = false | EmptyString => True end ->
  scan_digits (ds ++ rest) = (ds, rest).
Proof.
  unfold all_digits. intros Hd Hr. induction ds as [|c ds IH].
  - cbn [append]. destruct rest as [|c r]; [reflexivity|].
    cbn [scan_digits]. now rewrite Hr.
  - cbn [Text.forallb] in Hd. apply andb_true_iff in Hd. destruct Hd as [Hc Hd].
    cbn [append scan_digits]. now rewrite Hc, (IH Hd).
Qed.

Lemma scan_frac_exp_none (rest : string) :
  ends_value rest ->
  scan_frac_part rest = (EmptyString, rest) /\ scan_exp_part rest = (None, rest).
Proof.
  destruct rest as [|c r]; [now split|].
  intros (_ & Hdot & He & HE). cbn [scan_frac_part scan_exp_part].
  now rewrite Hdot, He, HE.
Qed.

Lemma ends_value_no_digit (rest : string) :
  ends_value rest ->
  match rest with String c _ => Text.is_digit c = false | EmptyString => True end.
Proof. destruct rest; [trivial | now intros (? & _)]. Qed.

Lemma scan_number_nat (z : Z) (neg : bool) (rest : string) :
  0 <= z -> ends_value rest ->
  scan_number ((if neg then "-" else "") ++ Num.str_of_Z z ++ rest)
  = Some (JInt (if neg then - z else z), rest).
Proof.
  intros Hz Hr.
  assert (Hcore : forall s1, s1 = Num.str_of_Z z ++ rest ->
            (let '(ip, r1) := scan_int_part s1 in
             match ip with
             | EmptyString => None
             | _ =>
                 let '(fp, r2) := scan_frac_part r1 in
                 let '(ex, r3) := scan_exp_part r2 in
                 match fp, ex with
                 | EmptyString, None =>
                     let v := Num.digits_val 0 ip in
                     Some (JInt (if neg then - v else v), r3)
                 | _, _ =>
                     let e := match ex with Some e => e | None => 0 end in
                     Some (JFloat (Num.float_of_decimal neg
                                     (Num.digits_val 0 (ip ++ fp))
                                     (e - Z.of_nat (String.length fp))), r3)
                 end
             end) = Some (JInt (if neg then - z else z), rest)).
  { intros s1 ->. destruct (scan_frac_exp_none rest Hr) as [Hf He].
    destruct z as [|p|p]; [| |lia].
    - rewrite str_of_Z_0. cbn [append scan_int_part].
      change (Text.is_char "0" "0") with true. cbv iota. now rewrite Hf, He.
    - pose proof (digits_val_str_of_Z (Zpos p) Hz) as Hv.
      pose proof (str_of_Z_nonneg_digits (Zpos p) Hz) as Hd.
      rewrite str_of_Z_pos in *.
      destruct (pos_to_uint_head p) as (c & s & E & Hc). rewrite E in *.
      cbn [append scan_int_part]. rewrite Hc.
      change (String c (s ++ rest)) with (String c s ++ rest).
      rewrite (scan_digits_append _ _ Hd (ends_value_no_digit _ Hr)).
      rewrite Hf, He. cbv zeta. now rewrite Hv. }
  unfold scan_number.
  destruct neg.
  - cbn [append scan_minus]. change (Text.is_char "-" "-") with true. cbv iota.
    now apply Hcore.
  - cbn [append].
    assert (Hm : scan_minus (Num.str_of_Z z ++ rest) = (false, Num.str_of_Z z ++ rest)).
    { destruct z as [|p|p]; [reflexivity| |lia].
      pose proof (str_of_Z_nonneg_digits (Zpos p) Hz) as Hd.
      rewrite str_of_Z_pos in *.
      destruct (pos_to_uint_head p) as (c & s & E & Hc). rewrite E in *.
      unfold all_digits in Hd. cbn [Text.forallb] in Hd.
      apply andb_true_iff in Hd. destruct Hd as [Hd _].
      cbn [append scan_minus]. now rewrite (digit_is_not "-" c eq_refl Hd). }
    rewrite Hm. now apply Hcore.
Qed.

Lemma str_of_Z_sign (z : Z) :
  Num.str_of_Z z = (if z <? 0 then "-" else "") ++ Num.str_of_Z (Z.abs z).
Proof.
  destruct z as [|p|p]; [reflexivity|reflexivity|].
  cbn [Z.ltb Z.compare Z.abs]. now rewrite str_of_Z_neg.
Qed.

Lemma scan_number_int (z : Z) (rest : string) :
  ends_value rest -> scan_number (Num.str_of_Z z ++ rest) = Some (JInt z, rest).
Proof.
  intros Hr. rewrite str_of_Z_sign, append_assoc.
  rewrite (scan_number_nat (Z.abs z) (z <? 0) rest (Z.abs_nonneg z) Hr).
  do 2 f_equal. f_equal. destruct (Z.ltb_spec z 0); lia.
Qed.

Lemma skip_ws_spaces (n : nat) (s : string) :
  skip_ws (Text.repeat " " n ++ s) = skip_ws s.
Proof. induction n as [|n IH]; [reflexivity|]. exact IH. Qed.

Lemma skip_ws_newline_indent (level : nat) (s : string) :
  skip_ws (newline_indent level ++ s) = skip_ws s.
Proof.
  unfold newline_indent. rewrite append_assoc.
  change (skip_ws (newline ++ Text.repeat " " (2 * level) ++ s))
    with (skip_ws (Text.repeat " " (2 * level) ++ s)).
  apply skip_ws_spaces.
Qed.

Lemma skip_ws_head (c : ascii) (s : string) :
  is_ws c = false -> skip_ws (String c s) = String c s.
Proof. intros H. unfold skip_ws. cbn [Text.lstrip]. now rewrite H. Qed.

Lemma digit_opens (c : ascii) : Text.is_digit c = true -> opens_value c.
Proof.
  intros H. unfold opens_value.
  assert (Hn : forall a, Text.is_digit a = false -> Text.is_char a c = false)
    by (intros a Ha; now apply digit_is_not).
  repeat split; auto.
  unfold is_ws. rewrite (Hn " "%char eq_refl).
  unfold Text.is_digit, Text.between in H. apply andb_true_iff in H.
  destruct H as [H1 H2]. apply Z.leb_le in H1, H2.
  replace (Text.code c =? 9) with false by lia.
  replace (Text.code c =? 10) with false by lia.
  replace (Text.code c =? 13) with false by lia. reflexivity.
Qed.

Lemma str_of_Z_head (z : Z) :
  exists c t, Num.str_of_Z z = String c t
              /\ (Text.is_digit c = true \/ c = "-"%char).
Proof.
  destruct z as [|p|p].
  - exists "0"%char, "". split; [reflexivity | now left].
  - pose proof (str_of_Z_nonneg_digits (Zpos p) ltac:(lia)) as Hd.
    rewrite str_of_Z_pos in *.
    destruct (pos_to_uint_head p) as (c & s & E & Hc). rewrite E in *.
    unfold all_digits in Hd. cbn [Text.forallb] in Hd.
    apply andb_true_iff in Hd. destruct Hd as [Hd _]. eauto.
  - rewrite str_of_Z_neg. eauto.
Qed.

Lemma dumps_head (n level : nat) (v : json) :
  within n v ->
  exists c t, dumps_at ea level v = String c t /\ opens_value c.
Proof.
  assert (Hc : forall c, In c ["-"; dquote; "["; "{"; "n"; "t"; "f"]%char ->
                         opens_value c).
  { intros c H. cbn [In] in H.
    repeat (destruct H as [<- | H];
            [unfold opens_value; repeat split; try reflexivity; right;
             cbn [In]; tauto|]).
    destruct H. }
  intros H. destruct H as [n|n [|]|n z|n s|n [|x l] Hl|n [|kv d] Hok Hd];
    cbn [dumps_at append];
    try (eexists _, _; split; [reflexivity|]; apply Hc; cbn [In]; tauto).
  destruct (str_of_Z_head z) as (c & t & -> & [Hd | ->]).
  - eexists _, _. split; [reflexivity|]. now apply digit_opens.
  - eexists _, _. split; [reflexivity|]. apply Hc. cbn [In]. tauto.
Qed.

Lemma skip_ws_dumps (n level : nat) (v : json) (rest : string) :
  within n v -> skip_ws (dumps_at ea level v ++ rest) = dumps_at ea level v ++ rest.
Proof.
  intros H. destruct (dumps_head n level v H) as (c & t & -> & Hc & _).
  cbn [append]. now apply skip_ws_head.
Qed.

(** Scalars are read back at any depth. *)
Lemma scan_once_number (depth : nat) (s : string) (c : ascii) (t : string) :
  s = String c t -> Text.is_digit c = true \/ c = "-"%char ->
  scan_once depth s
  = match scan_number s with
    | Some r => Return r
    | None =>
        match after_prefix "NaN" s, after_prefix "Infinity" s,
              after_prefix "-Infinity" s with
        | Some tl, _, _ => Return (JFloat S754_nan, tl)
        | _, Some tl, _ => Return (JFloat (S754_infinity false), tl)
        | _, _, Some tl => Return (JFloat (S754_infinity true), tl)
        | _, _, _ => Raise JSONDecodeError
        end
    end.
Proof.
  intros -> H.
  assert (Hn : forall a, Text.is_digit a = false -> a <> "-"%char ->
                         Text.is_char a c = false).
  { intros a Ha Hm. destruct H as [H | ->].
    - now apply digit_is_not.
    - destruct (Text.is_char a "-") eqn:E; [|reflexivity].
      apply is_char_true in E. contradiction. }
  destruct depth; cbn [scan_once];
    rewrite (Hn dquote), (Hn "{"%char), (Hn "["%char), (Hn "n"%char),
      (Hn "t"%char), (Hn "f"%char) by (reflexivity || discriminate);
    reflexivity.
Qed.

Lemma scan_once_int (depth : nat) (z : Z) (rest : string) :
  ends_value rest ->
  scan_once depth (Num.str_of_Z z ++ rest) = Return (JInt z, rest).
Proof.
  intros Hr. destruct (str_of_Z_head z) as (c & t & E & Hc).
  rewrite (scan_once_number depth (Num.str_of_Z z ++ rest) c (t ++ rest)).
  - now rewrite scan_number_int.
  - now rewrite E.
  - assumption.
Qed.

Lemma scan_once_str (depth : nat) (s rest : string) :
  scan_once depth (quote ea s ++ rest) = Return (JStr s, rest).
Proof.
  destruct (scanstring_quote s rest) as (t & -> & E).
  destruct depth; cbn [scan_once]; rewrite is_char_refl, E; reflexivity.
Qed.

Lemma dict_set_new (d : pydict) (k : string) (v : json) :
  ~ In k (dict_keys d) -> dict_set d k v = (d ++ [(k, v)])%list.
Proof.
  induction d as [|[k0 v0] d IH]; intros H; cbn [dict_set app]; [reflexivity|].
  cbn [dict_keys List.map fst In] in H.
  destruct (String.eqb k0 k) eqn:E.
  - apply String.eqb_eq in E. tauto.
  - rewrite IH; [reflexivity|]. unfold dict_keys. tauto.
Qed.

Lemma dict_update_new (d acc : pydict) :
  dict_ok (acc ++ d)%list -> dict_update acc d = (acc ++ d)%list.
Proof.
  unfold dict_update, dict_ok, dict_keys. revert acc.
  induction d as [|[k v] d IH]; intros acc H; cbn [fold_left fst snd].
  - now rewrite List.app_nil_r.
  - rewrite dict_set_new.
    + rewrite IH; rewrite <- List.app_assoc; [reflexivity | exact H].
    + rewrite List.map_app in H. cbn [List.map fst] in H.
      apply NoDup_remove_2 in H. intros Hin. apply H.
      apply in_or_app. now left.
Qed.

Lemma dict_of_pairs_id (d : pydict) : dict_ok d -> dict_of_pairs d = d.
Proof. intros H. unfold dict_of_pairs. now rewrite dict_update_new. Qed.

Lemma scan_once_list (n : nat) (x : string) :
  scan_once (S n) (String "[" x)
  = match skip_ws x with
    | String c1 tl =>
        if Text.is_char "]" c1 then Return (JList [], tl)
        else scan_items (scan_once n) (String.length (skip_ws x)) (skip_ws x) []
    | EmptyString => Raise JSONDecodeError
    end.
Proof. reflexivity. Qed.

Lemma scan_once_object (n : nat) (x : string) :
  scan_once (S n) (String "{" x)
  = match skip_ws x with
    | String c1 tl =>
        if Text.is_char "}" c1 then Return (JDict [], tl)
        else scan_members (scan_once n) (String.length (skip_ws x)) (skip_ws x) []
    | EmptyString => Raise JSONDecodeError
    end.
Proof. reflexivity. Qed.

Lemma dumps_list_cons (level : nat) (x : json) (l : list json) :
  dumps_at ea level (JList (x :: l))
  = String "[" (newline_indent (S level)
      ++ Text.join ("," ++ newline_indent (S level))
           (List.map (dumps_at ea (S level)) (x :: l))
      ++ newline_indent level ++ "]").
Proof. reflexivity. Qed.

Lemma dumps_dict_cons (level : nat) (kv : string * json) (d : pydict) :
  dumps_at ea level (JDict (kv :: d))
  = String "{" (newline_indent (S level)
      ++ Text.join ("," ++ newline_indent (S level))
           (List.map (fun kv => quote ea (fst kv) ++ ": "
                                  ++ dumps_at ea (S level) (snd kv)) (kv :: d))
      ++ newline_indent level ++ "}").
Proof. reflexivity. Qed.

Lemma join_cons2 (sep x y : string) (l : list string) :
  Text.join sep (x :: y :: l) = x ++ sep ++ Text.join sep (y :: l).
Proof. reflexivity. Qed.

Lemma join_head (sep x : string) (l : list string) (c : ascii) (t : string) :
  x = String c t -> exists t', Text.join sep (x :: l) = String c t'.
Proof.
  intros ->. destruct l as [|y l].
  - now exists t.
  - rewrite join_cons2. cbn [append]. eauto.
Qed.

Lemma join_length (sep : string) (l : list string) :
  Forall (fun x => x <> EmptyString) l ->
  (List.length l <= String.length (Text.join sep l))%nat.
Proof.
  induction 1 as [|x l Hx Hl IH]; [cbn; lia|].
  destruct l as [|y l].
  - destruct x; [contradiction | cbn; lia].
  - rewrite join_cons2, !length_append.
    destruct x; [contradiction|]. cbn [String.length List.length] in *. lia.
Qed.

Lemma ends_value_comma (s : string) : ends_value (String "," s).
Proof. cbn. auto. Qed.

Lemma ends_value_newline (level : nat) (s : string) :
  ends_value (newline_indent level ++ s).
Proof. cbn. auto. Qed.

(** The items of an array are read back, given that each of them is. *)
Lemma scan_items_dumps (scan : string -> result (json * string))
    (bound level : nat) (l : list json) :
  l <> [] ->
  Forall (within bound) l ->
  Forall (fun x => forall rest, ends_value rest ->
            scan (dumps_at ea (S level) x ++ rest) = Return (x, rest)) l ->
  forall (fuel : nat) (acc : list json) (rest : string),
    (List.length l <= fuel)%nat ->
    scan_items scan fuel
      (Text.join ("," ++ newline_indent (S level))
         (List.map (dumps_at ea (S level)) l)
       ++ newline_indent level ++ String "]" rest) acc
    = Return (JList (acc ++ l), rest).
Proof.
  intros Hne Hw Hs. induction l as [|x l IH]; [contradiction|]. clear Hne.
  intros fuel acc rest Hf.
  apply Forall_cons_iff in Hw, Hs. destruct Hw as [Hwx Hwl], Hs as [Hsx Hsl].
  destruct fuel as [|fuel]; [cbn in Hf; lia|]. cbn [List.length] in Hf.
  destruct l as [|y l].
  - cbn [List.map Text.join scan_items].
    rewrite Hsx by apply ends_value_newline. cbn [bind].
    rewrite skip_ws_newline_indent. cbn [skip_ws Text.lstrip].
    reflexivity.
  - cbn [List.map]. rewrite join_cons2, !append_assoc. cbn [scan_items].
    rewrite Hsx by apply ends_value_comma. cbn [bind].
    assert (Hy : within bound y) by now apply Forall_cons_iff in Hwl.
    destruct (dumps_head bound (S level) y Hy) as (c & t & Ec & Hc & _).
    destruct (join_head ("," ++ newline_indent (S level)) _
                (List.map (dumps_at ea (S level)) l) c t Ec) as (t' & Et).
    assert (Hf' : (List.length (y :: l) <= fuel)%nat) by lia.
    specialize (IH ltac:(discriminate) Hwl Hsl fuel (acc ++ [x])%list rest Hf').
    cbn [List.map] in IH. rewrite Et in IH |- *.
    cbn [append] in IH |- *.
    rewrite (skip_ws_head ","%char) by reflexivity.
    change (Text.is_char "]" ",") with false. change (Text.is_char "," ",") with true.
    cbv iota. rewrite skip_ws_newline_indent.
    rewrite skip_ws_head by assumption.
    rewrite IH. now rewrite <- List.app_assoc.
Qed.

Lemma skip_ws_space (s : string) : skip_ws (String " " s) = skip_ws s.
Proof. reflexivity. Qed.

Lemma cons_append (c : ascii) (x r : string) : String c x ++ r = String c (x ++ r).
Proof. reflexivity. Qed.

Lemma member_head (level : nat) (kv : string * json) :
  exists t, quote ea (fst kv) ++ ": " ++ dumps_at ea (S level) (snd kv)
            = String dquote t.
Proof. unfold quote. cbn [append]. eauto. Qed.

(** The members of an object are read back, given that each value is. *)
Lemma scan_members_dumps (scan : string -> result (json * string))
    (bound level : nat) (d : pydict) :
  d <> [] ->
  Forall (fun kv => within bound (snd kv)) d ->
  Forall (fun kv => forall rest, ends_value rest ->
            scan (dumps_at ea (S level) (snd kv) ++ rest)
            = Return (snd kv, rest)) d ->
  forall (fuel : nat) (acc : list (string * json)) (rest : string),
    (List.length d <= fuel)%nat ->
    scan_members scan fuel
      (Text.join ("," ++ newline_indent (S level))
         (List.map (fun kv => quote ea (fst kv) ++ ": "
                                ++ dumps_at ea (S level) (snd kv)) d)
       ++ newline_indent level ++ String "}" rest) acc
    = Return (JDict (dict_of_pairs (acc ++ d)), rest).
Proof.
  intros Hne Hw Hs. induction d as [|[k v] d IH]; [contradiction|]. clear Hne.
  intros fuel acc rest Hf.
  apply Forall_cons_iff in Hw, Hs. destruct Hw as [Hwx Hwl], Hs as [Hsx Hsl].
  cbn [fst snd] in Hwx, Hsx.
  destruct fuel as [|fuel]; [cbn in Hf; lia|]. cbn [List.length] in Hf.
  destruct d as [|kv d].
  - cbn [List.map Text.join fst snd]. rewrite !append_assoc.
    destruct (scanstring_quote k
                (": " ++ dumps_at ea (S level) v ++ newline_indent level
                 ++ String "}" rest)) as (t & -> & Et).
    cbn [scan_members]. rewrite is_char_refl. cbn [negb]. rewrite Et. cbn [bind].
    cbn [append]. rewrite (skip_ws_head ":"%char) by reflexivity.
    change (Text.is_char ":" ":") with true. cbn [negb].
    rewrite skip_ws_space, (skip_ws_dumps bound) by assumption.
    rewrite Hsx by apply ends_value_newline. cbn [bind].
    rewrite skip_ws_newline_indent. cbn [skip_ws Text.lstrip].
    reflexivity.
  - cbn [List.map fst snd]. rewrite join_cons2, !append_assoc.
    match goal with
    | |- scan_members _ _ (quote ea k ++ ?z) _ = _ =>
        destruct (scanstring_quote k z) as (t & -> & Et)
    end.
    cbn [scan_members]. rewrite is_char_refl. cbn [negb]. rewrite Et. cbn [bind].
    assert (Hf' : (List.length (kv :: d) <= fuel)%nat) by lia.
    specialize (IH ltac:(discriminate) Hwl Hsl fuel (acc ++ [(k, v)])%list rest Hf').
    cbn [List.map] in IH.
    destruct (member_head level kv) as (t1 & Ek).
    destruct (join_head ("," ++ newline_indent (S level)) _
                (List.map (fun kv => quote ea (fst kv) ++ ": "
                                       ++ dumps_at ea (S level) (snd kv)) d)
                dquote t1 Ek) as (t' & Ej).
    rewrite Ej in IH |- *.
    cbn [append] in IH |- *.
    rewrite (skip_ws_head ":"%char) by reflexivity.
    change (Text.is_char ":" ":") with true. cbn [negb].
    rewrite skip_ws_space, (skip_ws_dumps bound) by assumption.
    rewrite Hsx by apply ends_value_comma. cbn [bind].
    rewrite (skip_ws_head ","%char) by reflexivity.
    change (Text.is_char "}" ",") with false. change (Text.is_char "," ",") with true.
    cbv iota. rewrite skip_ws_newline_indent.
    rewrite (skip_ws_head dquote) by reflexivity.
    rewrite IH. now rewrite <- List.app_assoc.
Qed.

(** Every value without float is read back from its text, when the
    scanner may enter as many containers as the value nests. *)
Lemma scan_once_dumps (n : nat) :
  forall v, within n v ->
  forall (level : nat) (rest : string), ends_value rest ->
    scan_once n (dumps_at ea level v ++ rest) = Return (v, rest).
Proof.
  induction n as [|n IH]; intros v H level rest Hr; inversion H; subst;
    try reflexivity;
    try (now apply scan_once_int); try (now apply scan_once_str);
    try (match goal with b : bool |- _ => destruct b; reflexivity end).
  - (* a list *)
    destruct l as [|x l]; [reflexivity|].
    rewrite dumps_list_cons, cons_append, scan_once_list.
    rewrite !append_assoc, skip_ws_newline_indent.
    assert (Hx : within n x) by now apply Forall_cons_iff in H1.
    destruct (dumps_head n (S level) x Hx) as (c & t & Ec & Hc & Hb & _).
    destruct (join_head ("," ++ newline_indent (S level)) _
                (List.map (dumps_at ea (S level)) l) c t Ec) as (t' & Ej).
    assert (Hlen : (List.length (x :: l)
                    <= String.length
                         (Text.join ("," ++ newline_indent (S level))
                            (List.map (dumps_at ea (S level)) (x :: l))
                          ++ newline_indent level ++ String "]" rest))%nat).
    { rewrite length_append.
      assert (Hj : (List.length (List.map (dumps_at ea (S level)) (x :: l))
                    <= String.length
                         (Text.join ("," ++ newline_indent (S level))
                            (List.map (dumps_at ea (S level)) (x :: l))))%nat).
      { apply join_length. apply Forall_map.
        eapply Forall_impl; [|exact H1]. intros y Hy E.
        destruct (dumps_head n (S level) y Hy) as (? & ? & E' & _). congruence. }
      rewrite List.length_map in Hj. lia. }
    pose proof (scan_items_dumps (scan_once n) n level (x :: l)
                  ltac:(discriminate) H1
                  ltac:(eapply Forall_impl; [|exact H1]; intros y Hy r Hy';
                        now apply IH) _ [] rest Hlen) as Hscan.
    cbn [List.map] in Hscan |- *. rewrite Ej in Hscan |- *.
    cbn [append] in Hscan |- *.
    rewrite skip_ws_head by assumption. rewrite Hb. exact Hscan.
  - (* an object *)
    destruct d as [|[k v] d]; [reflexivity|].
    rewrite dumps_dict_cons, cons_append, scan_once_object.
    rewrite !append_assoc, skip_ws_newline_indent.
    destruct (member_head level (k, v)) as (t & Ek).
    destruct (join_head ("," ++ newline_indent (S level)) _
                (List.map (fun kv => quote ea (fst kv) ++ ": "
                                       ++ dumps_at ea (S level) (snd kv)) d)
                dquote t Ek) as (t' & Ej).
    assert (Hlen : (List.length ((k, v) :: d)
                    <= String.length
                         (Text.join ("," ++ newline_indent (S level))
                            (List.map (fun kv => quote ea (fst kv) ++ ": "
                                         ++ dumps_at ea (S level) (snd kv))
                               ((k, v) :: d))
                          ++ newline_indent level ++ String "}" rest))%nat).
    { rewrite length_append.
      match goal with
      | |- (_ <= String.length (Text.join ?sep (List.map ?f ?l)) + _)%nat =>
          assert (Hj : (List.length (List.map f l)
                        <= String.length (Text.join sep (List.map f l)))%nat)
      end.
      { apply join_length. apply Forall_map. apply Forall_forall.
        intros kv _ E. destruct (member_head level kv) as (? & E'). congruence. }
      rewrite List.length_map in Hj. lia. }
    pose proof (scan_members_dumps (scan_once n) n level ((k, v) :: d)
                  ltac:(discriminate) H2
                  ltac:(eapply Forall_impl; [|exact H2]; intros y Hy r Hy';
                        now apply IH) _ [] rest Hlen) as Hscan.
    cbn [List.map] in Hscan |- *. rewrite Ej in Hscan |- *.
    cbn [append] in Hscan |- *.
    rewrite (skip_ws_head dquote) by reflexivity.
    change (Text.is_char "}" dquote) with false. cbv iota.
    rewrite Hscan. cbn [app]. now rewrite dict_of_pairs_id.
Qed.

Lemma loads_dumps_any (v : json) :
  within recursion_limit v -> json_loads (json_dumps ea v) = Return v.
Proof.
  intros H. unfold json_loads, json_dumps.
  rewrite <- (append_nil_r (dumps_at ea 0 v)).
  rewrite (skip_ws_dumps recursion_limit) by assumption.
  rewrite (scan_once_dumps recursion_limit v H 0 "" I). reflexivity.
Qed.

End Escaping.

Theorem loads_dumps (v : json) :
  within recursion_limit v -> json_loads (json_dumps true v) = Return v.
Proof. apply loads_dumps_any. Qed.

(** ** Saving, then loading *)

Lemma dict_get_in (d : pydict) (k : string) (v : json) :
  dict_ok d -> In (k, v) d -> dict_get d k = Some v.
Proof.
  unfold dict_ok, dict_keys.
  induction d as [|[k0 v0] d IH]; intros Hok Hin; [destruct Hin|].
  cbn [List.map fst] in Hok. apply NoDup_cons_iff in Hok. destruct Hok as [Hk0 Hok].
  cbn [dict_get]. destruct Hin as [[= -> ->] | Hin].
  - now rewrite String.eqb_refl.
  - destruct (String.eqb k0 k) eqn:E; [|now apply IH].
    apply String.eqb_eq in E. subst k0. exfalso. apply Hk0.
    change k with (fst (k, v)). now apply in_map.
Qed.

Lemma wf_config_within (x : pydict) (m : nat) :
  wf_config x -> within (S (S m)) (JDict x).
Proof.
  intros (Hok & Hkeys & (s1 & H1) & (s2 & H2) & (z & H3) & (b & H4) & H5 & (bs & H6)).
  constructor; [assumption|]. apply Forall_forall. intros [k v] Hin. cbn [snd].
  pose proof (dict_get_in x k v Hok Hin) as Hget.
  assert (Hk : In k recognized_keys).
  { apply Hkeys. unfold dict_keys. change k with (fst (k, v)). now apply in_map. }
  cbn [recognized_keys In] in Hk.
  destruct Hk as [<- | [<- | [<- | [<- | [<- | [<- | []]]]]]].
  - rewrite H1 in Hget. injection Hget as <-. constructor.
  - rewrite H2 in Hget. injection Hget as <-. constructor.
  - rewrite H3 in Hget. injection Hget as <-. constructor.
  - rewrite H4 in Hget. injection Hget as <-. constructor.
  - destruct H5 as [H5 | (s & _ & H5)]; rewrite H5 in Hget;
      injection Hget as <-; constructor.
  - rewrite H6 in Hget. injection Hget as <-. constructor.
    apply Forall_map. apply Forall_forall. intros s _. constructor.
Qed.

Lemma save_config_run (x : pydict) (w : world) :
  fs w CONFIG_PATH <> NoAccess ->
  exists w1, save_config x w = (Return tt, w1)
             /\ fs w1 CONFIG_PATH = Content (json_dumps true (JDict x)).
Proof.
  intros H. unfold save_config, write_text.
  destruct (fs w CONFIG_PATH) eqn:E; [| contradiction |];
    (eexists; split; [reflexivity|]; cbn; reflexivity).
Qed.

Lemma save_load_config (x : pydict) (w : world) :
  wf_config x -> (2 <= recursion_limit)%nat -> fs w CONFIG_PATH <> NoAccess ->
  exists w1 cfg,
    save_config x w = (Return tt, w1)
    /\ load_config w1 = (Return cfg, w1)
    /\ dict_ok cfg /\ dict_eq cfg x.
Proof.
  intros Hwf Hlim Hfs.
  destruct (save_config_run x w Hfs) as (w1 & Hsave & Hfile).
  assert (Hload : json_loads (json_dumps true (JDict x)) = Return (JDict x)).
  { apply loads_dumps.
    destruct recursion_limit as [|[|m]]; [lia | lia |].
    now apply wf_config_within. }
  destruct (load_config_object w1 _ x Hfile Hload) as [Hl Hget].
  exists w1, (dict_update DEFAULT_CONFIG x). split; [assumption|].
  split; [assumption|]. split.
  - apply dict_update_ok. unfold dict_ok. rewrite default_config_keys.
    repeat constructor; cbn; intuition discriminate.
  - intros k. rewrite Hget. destruct (dict_get x k) eqn:E; [reflexivity|].
    apply dict_get_none. rewrite default_config_keys.
    apply dict_get_none in E. destruct Hwf as (_ & Hkeys & _).
    intros Hk. apply E. now apply Hkeys.
Qed.

(** ** The export records *)








(** C10. A configuration file that holds well-formed JSON other than an
    object (an array, say) makes [load_config] raise [TypeError]: the merge
    with the defaults needs a mapping, and the handler catches decoding and
    input-output errors only. *)
Theorem C10_non_object_raises (w : world) (text : string) (v : json) :
  fs w CONFIG_PATH = Content text ->
  json_loads text = Return v ->
  (forall d, v <> JDict d) ->
  load_config w = (Raise TypeError, w).
Proof.
  intros Hf Hl Hv. rewrite (load_config_content w text Hf), Hl.
  destruct v; try reflexivity. exfalso. now apply (Hv d).
Qed.

(** * The claims *)








(** * Further properties of the program *)

(** ** The settings store *)

Lemma default_config_ok : dict_ok DEFAULT_CONFIG.
Proof.
  unfold dict_ok. rewrite default_config_keys.
  repeat constructor; cbn; intuition discriminate.
Qed.

Lemma default_config_get (k : string) :
  In k recognized_keys -> dict_get DEFAULT_CONFIG k <> None.
Proof.
  intros H Hn. apply dict_get_none in Hn. apply Hn.
  now rewrite default_config_keys.
Qed.

(** X1. Whatever the configuration file holds, a record that [load_config]
    returns has each of the six configuration keys, holds no key twice, and
    the call has changed nothing: no file, no output, no input read. *)
Theorem load_config_complete (w w' : world) (cfg : pydict) :
  load_config w = (Return cfg, w') ->
  w' = w /\ dict_ok cfg
  /\ (forall k, In k recognized_keys -> dict_get cfg k <> None).
Proof.
  intros H.
  assert (Hdef : cfg = DEFAULT_CONFIG -> dict_ok cfg
            /\ (forall k, In k recognized_keys -> dict_get cfg k <> None)).
  { intros ->. split; [apply default_config_ok | apply default_config_get]. }
  destruct (fs w CONFIG_PATH) as [| |text] eqn:E.
  - rewrite (load_config_missing w E) in H. injection H as <- <-. now split; [|apply Hdef].
  - rewrite (load_config_no_access w E) in H. injection H as <- <-.
    now split; [|apply Hdef].
  - rewrite (load_config_content w text E) in H.
    destruct (json_loads text) as [v|e] eqn:El.
    + destruct v; try discriminate H. injection H as <- <-.
      split; [reflexivity|]. split.
      * apply dict_update_ok, default_config_ok.
      * intros k Hk. rewrite (dict_get_update d (json_loads_dict text d El)).
        destruct (dict_get d k); [discriminate|]. now apply default_config_get.
    + destruct (exn_eqb e JSONDecodeError || exn_eqb e IOError); [|discriminate H].
      injection H as <- <-. now split; [|apply Hdef].
Qed.


(** ** The export *)












(** ** The base of the file name *)

Lemma forallb_lstrip (p q : ascii -> bool) (s : string) :
  Text.forallb p s = true -> Text.forallb p (Text.lstrip q s) = true.
Proof.
  induction s as [|c s IH]; [trivial|]. intros H. rewrite lstrip_cons.
  destruct (q c); [|exact H].
  cbn [Text.forallb] in H. apply andb_true_iff in H. now apply IH.
Qed.

Lemma forallb_rstrip (p q : ascii -> bool) (s : string) :
  Text.forallb p s = true -> Text.forallb p (Text.rstrip q s) = true.
Proof.
  induction s as [|c s IH]; [trivial|]. intros H. rewrite rstrip_cons.
  cbn [Text.forallb] in H. apply andb_true_iff in H. destruct H as [Hc Hs].
  specialize (IH Hs). destruct (Text.rstrip q s) as [|c' r].
  - destruct (q c); [reflexivity|]. cbn [Text.forallb]. now rewrite Hc.
  - cbn [Text.forallb] in IH |- *. now rewrite Hc, IH.
Qed.

Lemma forallb_sub_underscores (p : ascii -> bool) (s : string) :
  Text.forallb p s = true -> Text.forallb p (sub_underscores s) = true.
Proof.
  induction s as [|c s IH]; [trivial|]. intros H.
  cbn [Text.forallb] in H. apply andb_true_iff in H. destruct H as [Hc Hs].
  specialize (IH Hs).
  destruct (Text.is_char "_" c) eqn:Ec.
  - destruct s as [|c' s'].
    + rewrite su_last by assumption. cbn [Text.forallb]. now rewrite Hc.
    + destruct (Text.is_char "_" c') eqn:Ec'.
      * now rewrite su_run.
      * rewrite su_end_of_run by assumption. cbn [Text.forallb]. now rewrite Hc, IH.
  - rewrite su_other by assumption. cbn [Text.forallb]. now rewrite Hc, IH.
Qed.

Lemma forallb_map (p : ascii -> bool) (f : ascii -> ascii) (s : string) :
  (forall c, p (f c) = true) -> Text.forallb p (Text.map f s) = true.
Proof.
  intros H. induction s as [|c s IH]; [reflexivity|].
  cbn [Text.map Text.forallb]. now rewrite H, IH.
Qed.

(** A character that [str.lower] leaves as it is. *)
Lemma lower_char_idem (c : ascii) :
  Text.lower_char (Text.lower_char c) = Text.lower_char c.
Proof. destruct c as [[] [] [] [] [] [] [] []]; vm_compute; reflexivity. Qed.

Lemma forallb_lower_fixed (s : string) :
  Text.forallb (fun c => Ascii.eqb (Text.lower_char c) c) s = true ->
  Text.lower s = s.
Proof.
  induction s as [|c s IH]; [reflexivity|]. cbn [Text.forallb]. intros H.
  apply andb_true_iff in H. destruct H as [Hc Hs]. apply Ascii.eqb_eq in Hc.
  unfold Text.lower in *. cbn [Text.map]. now rewrite Hc, (IH Hs).
Qed.

(** X6. For every search term, the base of the default file name holds
    nothing but word characters (letters, digits, underscore) and hyphens,
    so no blank, dot or path separator, and lower-casing it changes nothing. *)
Theorem safe_search_chars (search_term : string) :
  Text.forallb is_base_char (safe_search search_term) = true
  /\ Text.lower (safe_search search_term) = safe_search search_term.
Proof.
  unfold safe_search. destruct (str_truthy search_term); [|now split].
  unfold Text.strip. split.
  - apply forallb_sub_underscores, forallb_rstrip, forallb_lstrip.
    unfold sub_non_word. apply forallb_map. intros c. unfold is_base_char.
    destruct (Text.is_word c || Text.is_char "-" c) eqn:E; [exact E | reflexivity].
  - apply forallb_lower_fixed.
    apply forallb_sub_underscores, forallb_rstrip, forallb_lstrip.
    unfold sub_non_word, Text.lower.
    generalize search_term as s. induction s as [|c s IH]; [reflexivity|].
    cbn [Text.map Text.forallb]. rewrite IH, andb_true_r.
    destruct (Text.is_word (Text.lower_char c) || Text.is_char "-" (Text.lower_char c));
      [|reflexivity].
    rewrite lower_char_idem. apply Ascii.eqb_refl.
Qed.

Lemma head_lstrip (p : ascii -> bool) (s : string) :
  head_is p (Text.lstrip p s) = false.
Proof.
  induction s as [|c s IH]; [reflexivity|]. rewrite lstrip_cons.
  destruct (p c) eqn:E; [exact IH | exact E].
Qed.

Lemma head_rstrip (p : ascii -> bool) (s : string) :
  head_is p s = false -> head_is p (Text.rstrip p s) = false.
Proof.
  destruct s as [|c s]; [trivial|]. cbn [head_is]. intros H. rewrite rstrip_cons.
  destruct (Text.rstrip p s); [now rewrite H | exact H].
Qed.

Lemma last_rstrip (p : ascii -> bool) (s : string) :
  last_is p (Text.rstrip p s) = false.
Proof.
  induction s as [|c s IH]; [reflexivity|]. rewrite rstrip_cons.
  destruct (Text.rstrip p s) as [|c' r] eqn:E.
  - destruct (p c) eqn:Ec; [reflexivity | exact Ec].
  - exact IH.
Qed.

Lemma head_sub_underscores (p : ascii -> bool) (s : string) :
  head_is p (sub_underscores s) = head_is p s.
Proof.
  induction s as [|c s IH]; [reflexivity|].
  destruct (Text.is_char "_" c) eqn:Ec.
  - destruct s as [|c' s'].
    + now rewrite su_last.
    + destruct (Text.is_char "_" c') eqn:Ec'.
      * rewrite su_run by assumption. rewrite IH. cbn [head_is].
        apply is_char_true in Ec, Ec'. congruence.
      * now rewrite su_end_of_run.
  - now rewrite su_other.
Qed.

Lemma last_cons (p : ascii -> bool) (c c' : ascii) (s : string) :
  last_is p (String c (String c' s)) = last_is p (String c' s).
Proof. reflexivity. Qed.

Lemma sub_underscores_cons (c : ascii) (s : string) :
  exists c' r, sub_underscores (String c s) = String c' r.
Proof.
  destruct (sub_underscores (String c s)) as [|c' r] eqn:E; [|eauto].
  apply sub_underscores_nil in E. discriminate E.
Qed.

Lemma last_sub_underscores (p : ascii -> bool) (s : string) :
  last_is p (sub_underscores s) = last_is p s.
Proof.
  induction s as [|c s IH]; [reflexivity|].
  destruct s as [|c' s'].
  - destruct (Text.is_char "_" c) eqn:Ec; [now rewrite su_last | now rewrite su_other].
  - rewrite last_cons, <- IH.
    destruct (sub_underscores_cons c' s') as (d & r & Er).
    destruct (Text.is_char "_" c) eqn:Ec.
    + destruct (Text.is_char "_" c') eqn:Ec'.
      * now rewrite su_run.
      * rewrite su_end_of_run by assumption. now rewrite Er.
    + rewrite su_other by assumption. now rewrite Er.
Qed.

Lemma double_cons (a b : ascii) (s : string) :
  has_double_underscore (String a (String b s))
  = (Text.is_char "_" a && Text.is_char "_" b) || has_double_underscore (String b s).
Proof. reflexivity. Qed.

Lemma no_double_sub_underscores (s : string) :
  has_double_underscore (sub_underscores s) = false.
Proof.
  induction s as [|c s IH]; [reflexivity|].
  destruct (Text.is_char "_" c) eqn:Ec.
  - destruct s as [|c' s'].
    + now rewrite su_last.
    + destruct (Text.is_char "_" c') eqn:Ec'.
      * now rewrite su_run.
      * rewrite su_end_of_run by assumption.
        destruct (sub_underscores_cons c' s') as (d & r & Er).
        pose proof (head_sub_underscores (Text.is_char "_") (String c' s')) as Hh.
        rewrite Er in IH, Hh |- *. cbn [head_is] in Hh.
        rewrite double_cons, IH, Hh, Ec'. now rewrite andb_false_r.
  - rewrite su_other by assumption.
    destruct s as [|c' s']; [reflexivity|].
    destruct (sub_underscores_cons c' s') as (d & r & Er).
    rewrite Er in IH |- *. rewrite double_cons, IH, Ec. reflexivity.
Qed.

(** X7. For every search term, the base of the default file name neither
    starts nor ends with an underscore and has no two underscores in a
    row. *)
Theorem safe_search_underscores (search_term : string) :
  head_is (Text.is_char "_") (safe_search search_term) = false
  /\ last_is (Text.is_char "_") (safe_search search_term) = false
  /\ has_double_underscore (safe_search search_term) = false.
Proof.
  unfold safe_search. destruct (str_truthy search_term); [|now repeat split].
  split; [|split].
  - rewrite head_sub_underscores. unfold Text.strip.
    apply head_rstrip, head_lstrip.
  - rewrite last_sub_underscores. unfold Text.strip. apply last_rstrip.
  - apply no_double_sub_underscores.
Qed.

Lemma lstrip_all (p : ascii -> bool) (s : string) :
  Text.lstrip p s = "" <-> Text.forallb p s = true.
Proof.
  induction s as [|c s IH]; [now split|]. rewrite lstrip_cons. cbn [Text.forallb].
  destruct (p c); [exact IH | now split].
Qed.

Lemma rstrip_lstrip_empty (p : ascii -> bool) (s : string) :
  Text.rstrip p (Text.lstrip p s) = "" <-> Text.lstrip p s = "".
Proof.
  split; [|now intros ->].
  pose proof (head_lstrip p s) as Hh. destruct (Text.lstrip p s) as [|c r]; [trivial|].
  cbn [head_is] in Hh. rewrite rstrip_cons.
  destruct (Text.rstrip p r); [now rewrite Hh | discriminate].
Qed.

Lemma sub_underscores_empty (s : string) : sub_underscores s = "" <-> s = "".
Proof. split; [apply sub_underscores_nil | now intros ->]. Qed.

Lemma dropped_char (c : ascii) :
  Text.is_char "_"
    (if Text.is_word (Text.lower_char c) || Text.is_char "-" (Text.lower_char c)
     then Text.lower_char c else "_"%char)
  = (Text.is_char "_" c || is_dropped c).
Proof. destruct c as [[] [] [] [] [] [] [] []]; vm_compute; reflexivity. Qed.

(** X8. The base of the default file name is empty exactly when the search
    term is not empty and holds no letter, no digit and no hyphen: the
    fallback [jobs] is for the empty term only, and a term such as [???]
    gives a default name that starts with the underscore before the date. *)
Theorem safe_search_empty (search_term : string) :
  safe_search search_term = ""
  <-> search_term <> ""
      /\ Text.forallb (fun c => Text.is_char "_" c || is_dropped c) search_term
         = true.
Proof.
  unfold safe_search. destruct search_term as [|c0 s0].
  - cbn. split; [discriminate | now intros [H _]].
  - remember (String c0 s0) as t eqn:Et. cbn [str_truthy]. rewrite Et at 1.
    cbn [str_truthy]. rewrite sub_underscores_empty. unfold Text.strip.
    rewrite rstrip_lstrip_empty, lstrip_all.
    assert (E : Text.forallb (Text.is_char "_") (sub_non_word (Text.lower t))
                = Text.forallb (fun c => Text.is_char "_" c || is_dropped c) t).
    { clear. unfold sub_non_word, Text.lower.
      induction t as [|c t IH]; [reflexivity|].
      cbn [Text.map Text.forallb]. now rewrite IH, dropped_char. }
    rewrite E. split.
    + intros H. split; [rewrite Et; discriminate | exact H].
    + intros [_ H]. exact H.
Qed.

(** ** The identifiers *)

Lemma hex_get (w : nat) :
  forall (z : Z) (k : nat), (k < w)%nat ->
    String.get k (Num.hex w z)
    = Some (Num.hex_digit (Z.land (Z.shiftr z (4 * Z.of_nat (w - 1 - k))) 15)).
Proof.
  induction w as [|w IH]; intros z k Hk; [lia|].
  cbn [Num.hex]. destruct (Nat.eq_dec k w) as [->|Hne].
  - replace (S w - 1 - w)%nat with 0%nat by lia.
    pose proof (String.append_correct2 (Num.hex w (Z.shiftr z 4))
                  (String (Num.hex_digit (Z.land z 15)) "") 0) as H.
    rewrite hex_length in H. cbn [Nat.add] in H. rewrite <- H.
    cbn [String.get]. now rewrite Z.shiftr_0_r.
  - rewrite <- String.append_correct1 by (rewrite hex_length; lia).
    rewrite IH by lia. rewrite Z.shiftr_shiftr by lia.
    replace (4 * Z.of_nat (S w - 1 - k)) with (4 + 4 * Z.of_nat (w - 1 - k)) by lia.
    reflexivity.
Qed.

Lemma uuid_str_get (i : Z) :
  String.get 14 (uuid_str i) = String.get 12 (Num.hex 32 i)
  /\ String.get 19 (uuid_str i) = String.get 16 (Num.hex 32 i).
Proof.
  unfold uuid_str. destruct (hex32_chars i) as (l & Hl & -> & _).
  do 32 (destruct l as [|? l]; [discriminate Hl|]).
  destruct l; [|discriminate Hl]. split; reflexivity.
Qed.

Lemma nibble_eq (x v : Z) :
  0 <= v < 16 ->
  (forall n, 0 <= n < 4 -> Z.testbit x n = Z.testbit v n) -> Z.land x 15 = v.
Proof.
  intros Hv H. apply Z.bits_inj'. intros n Hn. rewrite Z.land_spec.
  change 15 with (Z.ones 4). destruct (Z.lt_ge_cases n 4) as [Hlt|Hge].
  - rewrite Z.ones_spec_low, andb_true_r by lia. apply H. lia.
  - rewrite Z.ones_spec_high, andb_false_r by lia. symmetry.
    destruct (Z.eq_dec v 0) as [->|Hv0]; [apply Z.bits_0|].
    apply Z.bits_above_log2; [lia|].
    apply Z.log2_lt_pow2; [lia|]. change (2 ^ 4) with 16.
    assert (2 ^ 4 <= 2 ^ n) by (apply Z.pow_le_mono_r; lia). lia.
Qed.

Lemma uuid4_version_nibble (r : Z) : Z.land (Z.shiftr (uuid4_int r) 76) 15 = 4.
Proof.
  apply nibble_eq; [lia|]. intros n Hn. rewrite Z.shiftr_spec by lia.
  assert (E : n = 0 \/ n = 1 \/ n = 2 \/ n = 3) by lia.
  destruct E as [-> | [-> | [-> | ->]]]; cbn [Z.add Pos.add Pos.succ]; uuid4_bit.
Qed.

Lemma uuid4_variant_nibble (r : Z) :
  exists v, Z.land (Z.shiftr (uuid4_int r) 60) 15 = v /\ 8 <= v <= 11.
Proof.
  exists (8 + (if Z.testbit r 61 then 2 else 0) + (if Z.testbit r 60 then 1 else 0)).
  split; [|destruct (Z.testbit r 61), (Z.testbit r 60); lia].
  apply nibble_eq; [destruct (Z.testbit r 61), (Z.testbit r 60); lia|].
  intros n Hn. rewrite Z.shiftr_spec by lia.
  assert (E : n = 0 \/ n = 1 \/ n = 2 \/ n = 3) by lia.
  destruct E as [-> | [-> | [-> | ->]]]; cbn [Z.add Pos.add Pos.succ];
    unfold uuid4_int; cbv zeta;
    repeat (rewrite Z.lor_spec || rewrite Z.land_spec || rewrite Z.lnot_spec by lia);
    repeat match goal with
           | |- context [Z.testbit (Z.shiftl ?a ?b) ?c] =>
               let v := eval vm_compute in (Z.testbit (Z.shiftl a b) c) in
               change (Z.testbit (Z.shiftl a b) c) with v
           end;
    destruct (Z.testbit r 61), (Z.testbit r 60), (Z.testbit r 62), (Z.testbit r 63);
    reflexivity.
Qed.

(** X9. Every identifier that [uuid4] makes is marked as a random UUID:
    in its text the digit after the second hyphen, which holds the version,
    is [4], and the digit after the third hyphen, which holds the variant,
    is one of [8], [9], [a], [b], whatever the random bytes are. *)
Theorem uuid4_version_variant (w : world) :
  exists id w' c,
    uuid4_str w = (Return id, w')
    /\ String.get 14 id = Some "4"%char
    /\ String.get 19 id = Some c /\ In c ["8"; "9"; "a"; "b"]%char.
Proof.
  unfold uuid4_str, mbind, urandom16, ret.
  set (u := uuid4_int (entropy w (draws w) mod 2 ^ 128)).
  destruct (uuid_str_get u) as [E14 E19].
  destruct (uuid4_variant_nibble (entropy w (draws w) mod 2 ^ 128)) as (v & Ev & Hv).
  fold u in Ev.
  eexists (uuid_str u), _, (Num.hex_digit v). split; [reflexivity|].
  split; [|split].
  - rewrite E14, (hex_get 32 u 12) by lia.
    change (4 * Z.of_nat (32 - 1 - 12)) with 76. unfold u.
    now rewrite uuid4_version_nibble.
  - rewrite E19, (hex_get 32 u 16) by lia.
    change (4 * Z.of_nat (32 - 1 - 16)) with 60. now rewrite Ev.
  - assert (E : v = 8 \/ v = 9 \/ v = 10 \/ v = 11) by lia.
    destruct E as [-> | [-> | [-> | ->]]]; cbn; tauto.
Qed.

(** ** Salary bounds beyond the range of a double *)









(** * The interactive part *)

(** ** Choice of the job boards *)

Lemma printed_refl (w : world) : printed w w.
Proof. unfold printed. repeat split. Qed.

Lemma printed_trans (a b c : world) : printed a b -> printed b c -> printed a c.
Proof.
  unfold printed. intros (?&?&?&?&?&?&?) (?&?&?&?&?&?&?).
  repeat split; congruence.
Qed.

Lemma print_run (line : string) (w : world) :
  exists w', print line w = (Done tt, w') /\ printed w w'.
Proof. eexists. split; [reflexivity|]. unfold printed. cbn. repeat split. Qed.

Lemma print_boards_run (l : list json) (boards : list (nat * string)) :
  forall w, exists w', print_boards (JList l) boards w = (Done tt, w') /\ printed w w'.
Proof.
  induction boards as [|[i board] rest IH]; intros w.
  - exists w. split; [reflexivity | apply printed_refl].
  - cbn [print_boards json_contains of_result]. unfold ubind at 1. unfold uret at 1.
    unfold ubind at 1.
    match goal with
    | |- context [print ?line w] => destruct (print_run line w) as (w1 & E1 & P1)
    end.
    rewrite E1. destruct (IH w1) as (w2 & E2 & P2). rewrite E2.
    exists w2. split; [reflexivity | eapply printed_trans; eassumption].
Qed.

Lemma parse_indices_raises (pieces : list string) (e : exn) :
  parse_indices pieces = Raise e -> e = ValueError.
Proof.
  induction pieces as [|x rest IH]; [discriminate|]. cbn [parse_indices].
  destruct (Num.int_of_str _) as [i|e'] eqn:Ei; cbn [bind].
  - destruct (parse_indices rest) as [r|e'']; cbn [bind]; [discriminate|].
    intros [= <-]. now apply IH.
  - intros [= <-]. now apply int_of_str_raises in Ei.
Qed.

(** The subscript of the comprehension is always in range: no [IndexError]
    comes out of it. *)
Lemma pick_boards_at (indices : list Z) : pick_boards indices = Done (boards_at indices).
Proof.
  induction indices as [|i rest IH]; [reflexivity|].
  cbn [pick_boards boards_at List.flat_map]. fold (boards_at rest).
  change (Z.of_nat (List.length ALL_JOB_BOARDS)) with 5.
  destruct ((1 <=? i) && (i <=? 5)) eqn:E; [|exact IH].
  apply andb_true_iff in E. destruct E as [E1 E2].
  apply Z.leb_le in E1, E2. rewrite IH.
  assert (Hi : i = 1 \/ i = 2 \/ i = 3 \/ i = 4 \/ i = 5) by lia.
  destruct Hi as [-> | [-> | [-> | [-> | ->]]]]; reflexivity.
Qed.

Lemma boards_at_valid (indices : list Z) (b : string) :
  In b (boards_at indices) -> In b ALL_JOB_BOARDS.
Proof.
  unfold boards_at. intros H. apply in_flat_map in H. destruct H as (i & _ & H).
  destruct ((1 <=? i) && (i <=? 5)) eqn:E; [|destruct H].
  apply andb_true_iff in E. destruct E as [E1 E2]. apply Z.leb_le in E1, E2.
  destruct H as [<- | []].
  assert (Hi : i = 1 \/ i = 2 \/ i = 3 \/ i = 4 \/ i = 5) by lia.
  destruct Hi as [-> | [-> | [-> | [-> | ->]]]]; cbn; tauto.
Qed.

(** A run of the selection when the boards chosen so far are a list: the
    result by cases on the answer. *)
Lemma select_job_boards_run (l : list json) (w : world) :
  exists w',
    answered w w'
    /\ select_job_boards (JList l) w
       = (Done (if String.eqb (Text.lower (answer "all" w)) "all"
                then JList (List.map JStr ALL_JOB_BOARDS)
                else
                  match parse_indices (split_on "," (answer "all" w)) with
                  | Return indices =>
                      match boards_at indices with
                      | [] => JList l
                      | _ => JList (List.map JStr (boards_at indices))
                      end
                  | Raise _ => JList l
                  end), w').
Proof.
  unfold select_job_boards.
  unfold ubind at 1.
  match goal with
  | |- context [print ?line w] => destruct (print_run line w) as (w1 & E1 & P1)
  end.
  rewrite E1. unfold ubind at 1.
  destruct (print_boards_run l (enumerate ALL_JOB_BOARDS 1) w1) as (w2 & E2 & P2).
  rewrite E2. unfold ubind at 1.
  match goal with
  | |- context [print ?line w2] => destruct (print_run line w2) as (w3 & E3 & P3)
  end.
  rewrite E3.
  pose proof (printed_trans _ _ _ (printed_trans _ _ _ P1 P2) P3) as P.
  destruct P as (Hfs & Hcl & Hti & Hen & Hdr & Hst & Has).
  unfold ubind at 1. unfold run at 1. unfold prompt_ask. cbv beta zeta iota.
  assert (Ea : (if str_truthy (stdin w3 (asked w3))
                then Text.strip Text.isspace (stdin w3 (asked w3)) else "all")
               = answer "all" w).
  { unfold answer. now rewrite Hst, Has. }
  rewrite Ea. set (sel := answer "all" w).
  set (wa := {| fs := fs w3; clock := clock w3; ticks := ticks w3;
                entropy := entropy w3; draws := draws w3; stdin := stdin w3;
                asked := S (asked w3); console := console w3 |}).
  assert (Hans : answered w wa).
  { unfold answered, wa. cbn. repeat split; congruence. }
  destruct (String.eqb (Text.lower sel) "all").
  - exists wa. split; [exact Hans | reflexivity].
  - unfold try_catch, ubind, of_result, of_outcome.
    pose proof (parse_indices_raises (split_on "," sel)) as Hr.
    destruct (parse_indices (split_on "," sel)) as [indices|e].
    + unfold uret. rewrite pick_boards_at.
      exists wa. split; [exact Hans | reflexivity].
    + rewrite (Hr e eq_refl). unfold uraise.
      destruct (print_run "[red]Invalid selection, keeping current boards[/]" wa)
        as (w5 & E5 & P5).
      rewrite E5. exists w5. split; [|reflexivity].
      destruct P5 as (?&?&?&?&?&?&?). destruct Hans as (?&?&?&?&?&?&?).
      unfold answered. repeat split; congruence.
Qed.

Lemma parse_indices_bad (pieces : list string) (x : string) :
  In x pieces -> Num.int_of_str (Text.strip Text.isspace x) = Raise ValueError ->
  parse_indices pieces = Raise ValueError.
Proof.
  intros Hin Hx. induction pieces as [|y rest IH]; [destruct Hin|].
  cbn [parse_indices]. destruct Hin as [-> | Hin].
  - now rewrite Hx.
  - destruct (Num.int_of_str (Text.strip Text.isspace y)) as [i|e] eqn:Ei; cbn [bind].
    + now rewrite (IH Hin).
    + now rewrite (int_of_str_raises _ _ Ei).
Qed.

(** X11. When the user answers the selection with an empty line, or with
    the word [all] in any letter case and with blanks around it or not,
    [select_job_boards] returns the list of the five boards, whatever the
    boards chosen so far. *)
Theorem select_all_boards (l : list json) (w : world) :
  stdin w (asked w) = ""
  \/ Text.lower (Text.strip Text.isspace (stdin w (asked w))) = "all" ->
  exists w',
    select_job_boards (JList l) w = (Done (JList (List.map JStr ALL_JOB_BOARDS)), w')
    /\ answered w w'.
Proof.
  intros H. destruct (select_job_boards_run l w) as (w' & Ha & E).
  exists w'. split; [|exact Ha]. rewrite E.
  assert (Hall : Text.lower (answer "all" w) = "all").
  { unfold answer. cbv zeta. destruct H as [-> | H]; [reflexivity|].
    destruct (stdin w (asked w)); [reflexivity | exact H]. }
  now rewrite Hall.
Qed.


(** X13. When some piece of the answer between commas is not the text of
    an integer, [select_job_boards] keeps the boards chosen so far, even
    when other pieces are numbers of boards; no exception comes out. *)
Theorem select_invalid_keeps (l : list json) (w : world) (x : string) :
  Text.lower (answer "all" w) <> "all" ->
  In x (split_on "," (answer "all" w)) ->
  Num.int_of_str (Text.strip Text.isspace x) = Raise ValueError ->
  exists w', select_job_boards (JList l) w = (Done (JList l), w') /\ answered w w'.
Proof.
  intros Hall Hin Hx. destruct (select_job_boards_run l w) as (w' & Ha & E).
  exists w'. split; [|exact Ha]. rewrite E, (parse_indices_bad _ x Hin Hx).
  apply String.eqb_neq in Hall. now rewrite Hall.
Qed.

(** What the settings menu needs of a selection. *)
Lemma select_job_boards_valid (l : list json) (w : world) :
  exists v w',
    select_job_boards (JList l) w = (Done v, w')
    /\ answered w w'
    /\ (v = JList l
        \/ exists bs, v = JList (List.map JStr bs)
                      /\ Forall (fun b => In b ALL_JOB_BOARDS) bs).
Proof.
  destruct (select_job_boards_run l w) as (w' & Ha & E).
  eexists _, w'. split; [exact E|]. split; [exact Ha|].
  destruct (String.eqb (Text.lower (answer "all" w)) "all").
  - right. exists ALL_JOB_BOARDS. split; [reflexivity|]. apply Forall_forall. trivial.
  - destruct (parse_indices (split_on "," (answer "all" w))) as [indices|e];
      [|now left].
    destruct (boards_at indices) as [|b bs] eqn:Eb; [now left|].
    right. exists (b :: bs). split; [reflexivity|].
    apply Forall_forall. intros b' Hb. apply (boards_at_valid indices).
    now rewrite Eb.
Qed.

(** X14. Whatever the user answers, [select_job_boards] on a list of
    boards returns, after reading one line and without touching a file:
    either the list it was given, or a list that is not empty and holds
    names of [ALL_JOB_BOARDS] only. In particular the subscript
    [ALL_JOB_BOARDS[i-1]] never raises [IndexError]. *)
Theorem select_job_boards_closed (l : list json) (w : world) :
  exists v w',
    select_job_boards (JList l) w = (Done v, w')
    /\ answered w w'
    /\ (v = JList l
        \/ exists bs, bs <> [] /\ v = JList (List.map JStr bs)
                      /\ Forall (fun b => In b ALL_JOB_BOARDS) bs).
Proof.
  destruct (select_job_boards_run l w) as (w' & Ha & E).
  eexists _, w'. split; [exact E|]. split; [exact Ha|].
  destruct (String.eqb (Text.lower (answer "all" w)) "all").
  - right. exists ALL_JOB_BOARDS. split; [discriminate|]. split; [reflexivity|].
    apply Forall_forall. trivial.
  - destruct (parse_indices (split_on "," (answer "all" w))) as [indices|e];
      [|now left].
    destruct (boards_at indices) as [|b bs] eqn:Eb; [now left|].
    right. exists (b :: bs). split; [discriminate|]. split; [reflexivity|].
    apply Forall_forall. intros b' Hb. apply (boards_at_valid indices).
    now rewrite Eb.
Qed.

(** ** The table of the jobs *)





(** ** The prompt of the menus *)

Lemma ask_choice_cases (prompt : string) (choices : list string) (default : string)
    (fuel : nat) :
  forall w,
    match ask_choice fuel prompt choices default w with
    | (Done c, w') =>
        (c = default \/ In c choices)
        /\ listened w w'
        /\ (asked w < asked w' <= asked w + fuel)%nat
        /\ (forall i, (asked w + i < asked w' - 1)%nat ->
                      rejected choices (stdin w (asked w + i)%nat))
        /\ c = answer default {| fs := fs w; clock := clock w; ticks := ticks w;
                                 entropy := entropy w; draws := draws w;
                                 stdin := stdin w; asked := (asked w' - 1)%nat;
                                 console := console w |}
    | (Fail _, _) => False
    | (Pending, w') =>
        forall i, (i < fuel)%nat -> rejected choices (stdin w (asked w + i)%nat)
    end.
Proof.
  induction fuel as [|fuel IH]; intros w.
  - cbn. intros i Hi. lia.
  - cbn [ask_choice]. unfold ubind at 1. unfold read_line at 1.
    destruct (stdin w (asked w)) as [|c0 s0] eqn:El.
    + cbn [str_truthy negb]. unfold uret, answer.
      cbn [fs clock ticks entropy draws stdin asked console].
      split; [now left|]. split; [unfold listened; cbn; repeat split|].
      split; [lia|]. split; [intros i Hi; lia|].
      replace (S (asked w) - 1)%nat with (asked w) by lia. now rewrite El.
    + cbn [str_truthy negb].
      destruct (List.existsb _ choices) eqn:Ec.
      * unfold uret, answer. cbn [fs clock ticks entropy draws stdin asked console].
        split.
        { right. apply existsb_exists in Ec. destruct Ec as (x & Hx & Ex).
          apply String.eqb_eq in Ex. now rewrite Ex. }
        split; [unfold listened; cbn; repeat split|].
        split; [lia|]. split; [intros i Hi; lia|].
        replace (S (asked w) - 1)%nat with (asked w) by lia. now rewrite El.
      * match goal with
        | |- context [ask_choice fuel prompt choices default ?w1] =>
            specialize (IH w1); destruct (ask_choice fuel prompt choices default w1)
              as [[c|e|] w']
        end; cbn [fs clock ticks entropy draws stdin asked console] in IH.
        -- destruct IH as (Hc & Hp & Ha & Hr & Hv).
           split; [exact Hc|]. split; [exact Hp|].
           split; [lia|]. split; [|exact Hv].
           intros i Hi. destruct i as [|i].
           ++ rewrite Nat.add_0_r, El. split; [discriminate | exact Ec].
           ++ replace (asked w + S i)%nat with (S (asked w) + i)%nat by lia.
              apply Hr. lia.
        -- exact IH.
        -- intros i Hi. destruct i as [|i].
           ++ rewrite Nat.add_0_r, El. split; [discriminate | exact Ec].
           ++ replace (asked w + S i)%nat with (S (asked w) + i)%nat by lia.
              apply IH. lia.
Qed.

(** X16. [display_main_menu] never raises, and the choice it returns is
    one of [1], [2], [3], [4]: an empty line gives [1], a line is taken
    when, stripped, it is one of the four, and the menu goes on asking after
    any other line. No file is touched. *)
Theorem display_main_menu_choice (fuel : nat) (w : world) :
  match display_main_menu fuel w with
  | (Done c, w') =>
      In c ["1"; "2"; "3"; "4"] /\ fs w' = fs w /\ (asked w < asked w')%nat
      /\ (forall i, (asked w + i < asked w' - 1)%nat ->
                    rejected ["1"; "2"; "3"; "4"] (stdin w (asked w + i)%nat))
      /\ (stdin w (asked w' - 1)%nat = "" -> c = "1")
  | (Fail _, _) => False
  | (Pending, _) =>
      forall i, (i < fuel)%nat ->
                rejected ["1"; "2"; "3"; "4"] (stdin w (asked w + i)%nat)
  end.
Proof.
  unfold display_main_menu. do 6 step_print.
  match goal with
  | |- context [ask_choice fuel ?p ?c ?d ?w6] =>
      pose proof (ask_choice_cases p c d fuel w6) as H;
      destruct (ask_choice fuel p c d w6) as [[c'|e|] w']
  end;
    match goal with
    | P : printed w _ |- _ => destruct P as (Pfs & _ & _ & _ & _ & Pst & Pas)
    end; rewrite ?Pst, ?Pas in H.
  - destruct H as (Hc & Hl & Ha & Hr & Hv).
    destruct Hl as (Hfs & _).
    split; [|split; [congruence|split; [lia|split; [exact Hr|]]]].
    + destruct Hc as [-> | Hc]; [now left | exact Hc].
    + intros E. rewrite Hv. unfold answer. cbn [stdin asked]. now rewrite E.
  - exact H.
  - exact H.
Qed.

(** ** The settings menu *)

Lemma chatted_refl (w : world) : chatted w w.
Proof. unfold chatted. repeat split. lia. Qed.

Lemma chatted_trans (a b c : world) : chatted a b -> chatted b c -> chatted a c.
Proof.
  unfold chatted. intros (?&?&?&?&?&?&?) (?&?&?&?&?&?&?).
  repeat split; try congruence. lia.
Qed.

Lemma printed_chatted (w w' : world) : printed w w' -> chatted w w'.
Proof. unfold printed, chatted. intros (?&?&?&?&?&?&?). repeat split; try assumption. lia. Qed.

Lemma answered_chatted (w w' : world) : answered w w' -> chatted w w'.
Proof. unfold answered, chatted. intros (?&?&?&?&?&?&?). repeat split; try assumption. lia. Qed.

Lemma wf_config_item (config : pydict) (k : string) :
  wf_config config -> In k recognized_keys ->
  exists v, dict_get config k = Some v /\ well_typed k v.
Proof.
  intros (_ & _ & (s1 & H1) & (s2 & H2) & (z & H3) & (b & H4) & H5 & (bs & H6)) Hk.
  cbn [recognized_keys In] in Hk. unfold well_typed.
  destruct Hk as [<- | [<- | [<- | [<- | [<- | [<- | []]]]]]].
  - exists (JStr s1). split; [exact H1|].
    repeat split; intros E; try discriminate E; eauto.
  - exists (JStr s2). split; [exact H2|].
    repeat split; intros E; try discriminate E; eauto.
  - exists (JInt z). split; [exact H3|].
    repeat split; intros E; try discriminate E; eauto.
  - exists (JBool b). split; [exact H4|].
    repeat split; intros E; try discriminate E; eauto.
  - destruct H5 as [H5 | (s & Hs & H5)].
    + exists JNull. split; [exact H5|].
      repeat split; intros E; try discriminate E; eauto.
    + exists (JStr s). split; [exact H5|].
      repeat split; intros E; try discriminate E; eauto.
  - exists (JList (List.map JStr bs)). split; [exact H6|].
    repeat split; intros E; try discriminate E; eauto.
Qed.

Lemma wf_config_set (config : pydict) (k : string) (v : json) :
  wf_config config -> In k recognized_keys -> well_typed k v ->
  wf_config (dict_set config k v).
Proof.
  intros Hwf Hk Hv.
  destruct (wf_config_item config k Hwf Hk) as (v0 & Hget & _).
  destruct Hwf as (Hok & Hkeys & (s1 & H1) & (s2 & H2) & (z & H3) & (b & H4) & H5
                   & (bs & H6)).
  destruct Hv as (T1 & T2 & T3 & T4 & T5 & T6).
  unfold wf_config. rewrite dict_keys_set, Hget, !dict_get_set.
  split; [now apply dict_set_ok|]. split; [exact Hkeys|].
  cbn [recognized_keys In] in Hk.
  destruct Hk as [<- | [<- | [<- | [<- | [<- | [<- | []]]]]]]; cbn [String.eqb Ascii.eqb Bool.eqb];
    repeat split; eauto.
  - destruct (T1 eq_refl) as (s & ->). eauto.
  - destruct (T2 eq_refl) as (s & ->). eauto.
  - destruct (T3 eq_refl) as (s & ->). eauto.
  - destruct (T4 eq_refl) as (s & ->). eauto.
  - destruct (T5 eq_refl) as [-> | (s & Hs & ->)]; [now left | right; eauto].
  - destruct (T6 eq_refl) as (s & ->). eauto.
Qed.

Lemma boards_valid_set (config : pydict) (k : string) (v : json) :
  boards_valid config -> k <> "job_boards" -> boards_valid (dict_set config k v).
Proof.
  intros (bs & Hb & Hv) Hk. exists bs. split; [|exact Hv].
  rewrite dict_get_set. apply String.eqb_neq in Hk. now rewrite Hk.
Qed.

Lemma strings_of_map (l : list string) : strings_of (List.map JStr l) = Return l.
Proof. induction l as [|s l IH]; [reflexivity|]. cbn. now rewrite IH. Qed.

(** Runs the subscript [config[k]] at the head of the goal, given the value
    of the key. *)
Lemma item_bind {B} (config : pydict) (k : string) (v : json) (f : json -> UI B)
    (w : world) :
  dict_get config k = Some v -> (x <-- item config k ;; f x) w = f v w.
Proof. intros H. unfold ubind, item. now rewrite H. Qed.

Lemma show_settings_run (config : pydict) (w : world) :
  wf_config config ->
  exists w', show_settings config w = (Done tt, w') /\ printed w w'.
Proof.
  intros (_ & _ & (s1 & H1) & (s2 & H2) & (z & H3) & (b & H4) & H5 & (bs & H6)).
  assert (H5' : exists v, dict_get config "job_type" = Some v)
    by (destruct H5 as [H5 | (s & _ & H5)]; eauto).
  destruct H5' as (jt & Hjt).
  unfold show_settings. step_print.
  rewrite (item_bind _ _ _ _ _ H1). step_print.
  rewrite (item_bind _ _ _ _ _ H2). step_print.
  rewrite (item_bind _ _ _ _ _ H3). step_print.
  rewrite (item_bind _ _ _ _ _ H4). step_print.
  rewrite (item_bind _ _ _ _ _ Hjt). step_print.
  rewrite (item_bind _ _ _ _ _ H6).
  unfold ubind at 1. cbn [json_join]. rewrite strings_of_map. cbn [bind of_result].
  unfold uret at 1. step_print. step_print.
  match goal with
  | |- context [print ?line ?w0] =>
      destruct (print_run line w0) as (w' & E & P')
  end.
  exists w'. split; [exact E|]. eapply printed_trans; eassumption.
Qed.

Lemma ask_run (prompt : string) (default : json) (w : world) :
  exists w',
    ask prompt default w
    = (Done (if str_truthy (stdin w (asked w))
             then JStr (Text.strip Text.isspace (stdin w (asked w)))
             else default), w')
    /\ answered w w'.
Proof. eexists. split; [reflexivity|]. unfold answered. cbn. repeat split. Qed.

Lemma ask_int_cases (prompt : string) (default : json) (fuel : nat) :
  forall w,
    match ask_int fuel prompt default w with
    | (Done v, w') => (v = default \/ exists z, v = JInt z) /\ chatted w w'
    | (Fail _, _) => False
    | (Pending, _) => True
    end.
Proof.
  induction fuel as [|fuel IH]; intros w; [exact I|].
  cbn [ask_int]. unfold ubind at 1. unfold read_line at 1.
  set (w1 := {| fs := fs w; clock := clock w; ticks := ticks w; entropy := entropy w;
                draws := draws w; stdin := stdin w; asked := S (asked w);
                console := console w |}).
  assert (C1 : chatted w w1) by (unfold chatted, w1; cbn; repeat split; lia).
  destruct (str_truthy (stdin w (asked w))); cbn [negb].
  - destruct (Num.int_of_str _) as [z|e].
    + unfold uret. split; [right; eauto | exact C1].
    + specialize (IH w1). destruct (ask_int fuel prompt default w1) as [[v|e'|] w'];
        [|exact IH|exact I].
      destruct IH as [Hv Hc]. split; [exact Hv | eapply chatted_trans; eassumption].
  - unfold uret. split; [now left | exact C1].
Qed.

Lemma ask_confirm_cases (prompt : string) (default : json) (fuel : nat) :
  forall w,
    match ask_confirm fuel prompt default w with
    | (Done v, w') => (v = default \/ exists b, v = JBool b) /\ chatted w w'
    | (Fail _, _) => False
    | (Pending, _) => True
    end.
Proof.
  induction fuel as [|fuel IH]; intros w; [exact I|].
  cbn [ask_confirm]. unfold ubind at 1. unfold read_line at 1.
  set (w1 := {| fs := fs w; clock := clock w; ticks := ticks w; entropy := entropy w;
                draws := draws w; stdin := stdin w; asked := S (asked w);
                console := console w |}).
  assert (C1 : chatted w w1) by (unfold chatted, w1; cbn; repeat split; lia).
  destruct (str_truthy (stdin w (asked w))); cbn [negb].
  - cbv zeta. destruct (String.eqb _ "y"); [unfold uret; split; [right; eauto | exact C1]|].
    destruct (String.eqb _ "n"); [unfold uret; split; [right; eauto | exact C1]|].
    specialize (IH w1). destruct (ask_confirm fuel prompt default w1) as [[v|e'|] w'];
      [|exact IH|exact I].
    destruct IH as [Hv Hc]. split; [exact Hv | eapply chatted_trans; eassumption].
  - unfold uret. split; [now left | exact C1].
Qed.

Lemma ask_choice_chatted (prompt : string) (choices : list string) (default : string)
    (fuel : nat) (w : world) :
  match ask_choice fuel prompt choices default w with
  | (Done c, w') => (c = default \/ In c choices) /\ chatted w w'
  | (Fail _, _) => False
  | (Pending, _) => True
  end.
Proof.
  pose proof (ask_choice_cases prompt choices default fuel w) as H.
  destruct (ask_choice fuel prompt choices default w) as [[c|e|] w'];
    [|exact H|exact I].
  destruct H as (Hc & (?&?&?&?&?&?&?) & Ha & _). split; [exact Hc|].
  unfold chatted. repeat split; try assumption. lia.
Qed.

Lemma settings_post_chatted (strict : bool) (w w1 : world)
    (r : outcome pydict * world) :
  chatted w w1 -> settings_post strict w1 r -> settings_post strict w r.
Proof.
  intros C. destruct r as [[cfg|e|] w']; cbn [settings_post]; [| |trivial].
  - intros (Hs & w2 & C2 & E). split; [exact Hs|]. exists w2.
    split; [eapply chatted_trans; eassumption | exact E].
  - intros (He & Hfs). split; [exact He|]. destruct C as (Cfs & _). now rewrite <- Cfs.
Qed.

Lemma is_job_type_true (v : json) :
  is_job_type v = true -> exists s, In s job_type_names /\ v = JStr s.
Proof.
  unfold is_job_type. intros H. apply existsb_exists in H.
  destruct H as (name & Hn & E). destruct v; try discriminate E.
  cbn [json_is_str] in E. apply String.eqb_eq in E. subst. eauto.
Qed.

Lemma settled_set (strict : bool) (config : pydict) (k : string) (v : json) :
  settled strict config -> In k recognized_keys -> k <> "job_boards" ->
  well_typed k v -> settled strict (dict_set config k v).
Proof.
  intros [Hwf Hb] Hk Hne Hv. split; [now apply wf_config_set|].
  intros Hs. now apply boards_valid_set; [apply Hb|].
Qed.

Lemma settled_boards (strict : bool) (config : pydict) :
  settled strict config ->
  exists bs, dict_get config "job_boards" = Some (JList (List.map JStr bs))
             /\ (strict = true -> Forall (fun b => In b ALL_JOB_BOARDS) bs).
Proof.
  intros [Hwf Hb]. destruct strict.
  - destruct (Hb eq_refl) as (bs & H & Hv). eauto.
  - destruct Hwf as (_ & _ & _ & _ & _ & _ & _ & (bs & H)). exists bs.
    split; [exact H | discriminate].
Qed.

Lemma settled_set_boards (strict : bool) (config : pydict) (bs : list string) :
  settled strict config ->
  (strict = true -> Forall (fun b => In b ALL_JOB_BOARDS) bs) ->
  settled strict (dict_set config "job_boards" (JList (List.map JStr bs))).
Proof.
  intros [Hwf Hb] Hv. split.
  - apply wf_config_set; [exact Hwf | cbn; tauto |].
    unfold well_typed. repeat split; intros E; try discriminate E. eauto.
  - intros Hs. exists bs. split; [|now apply Hv].
    rewrite dict_get_set. now rewrite String.eqb_refl.
Qed.

Lemma well_typed_text (k : string) (s : string) :
  k = "default_search" \/ k = "default_location" -> well_typed k (JStr s).
Proof.
  intros [-> | ->]; unfold well_typed; repeat split; intros E; try discriminate E; eauto.
Qed.

(** Every run of the settings menu on a well-formed configuration. *)
Lemma settings_menu_run (strict : bool) (fuel : nat) :
  forall (config : pydict) (w : world),
    settled strict config ->
    settings_post strict w (display_settings_menu fuel config w).
Proof.
  induction fuel as [|fuel IH]; intros config w Hs; [exact I|].
  pose proof Hs as [Hwf _].
  cbn [display_settings_menu]. unfold ubind at 1.
  destruct (show_settings_run config w Hwf) as (w1 & E1 & P1). rewrite E1.
  unfold ubind at 1.
  match goal with
  | |- context [ask_choice fuel ?p ?c ?d w1] =>
      pose proof (ask_choice_chatted p c d fuel w1) as H;
      destruct (ask_choice fuel p c d w1) as [[c'|e|] w2]
  end; [|contradiction|exact I].
  destruct H as [Hc C2].
  assert (C : chatted w w2)
    by (eapply chatted_trans; [apply printed_chatted|]; eassumption).
  apply (settings_post_chatted strict w w2); [exact C|]. clear C C2 P1 E1 w1 w.
  assert (Hcs : In c' ["0"; "1"; "2"; "3"; "4"; "5"; "6"])
    by (destruct Hc as [-> | Hc]; [now left | exact Hc]).
  clear Hc. cbn [In] in Hcs.
  destruct Hcs as [<- | [<- | [<- | [<- | [<- | [<- | [<- | []]]]]]]];
    cbn [String.eqb Ascii.eqb Bool.eqb].
  - (* 0: save and leave *)
    unfold ubind, run. destruct (save_config config w2) as [[[]|e] w'] eqn:Es.
    + cbn [settings_post]. split; [exact Hs|]. exists w2.
      split; [apply chatted_refl | exact Es].
    + cbn [settings_post]. unfold save_config, write_text in Es.
      destruct (fs w2 CONFIG_PATH); try discriminate Es. injection Es as <- _.
      now split.
  - (* 1: default search *)
    destruct (wf_config_item config "default_search" Hwf) as (d & Hd & Td);
      [cbn; tauto|].
    rewrite (item_bind _ _ _ _ _ Hd). unfold ubind at 1.
    destruct (ask_run "Default search terms" d w2) as (w3 & E3 & A3). rewrite E3.
    apply (settings_post_chatted strict w2 w3); [now apply answered_chatted|].
    apply IH. apply settled_set; [exact Hs | cbn; tauto | discriminate |].
    destruct (str_truthy _); [apply well_typed_text; now left | exact Td].
  - (* 2: default location *)
    destruct (wf_config_item config "default_location" Hwf) as (d & Hd & Td);
      [cbn; tauto|].
    rewrite (item_bind _ _ _ _ _ Hd). unfold ubind at 1.
    destruct (ask_run "Default location" d w2) as (w3 & E3 & A3). rewrite E3.
    apply (settings_post_chatted strict w2 w3); [now apply answered_chatted|].
    apply IH. apply settled_set; [exact Hs | cbn; tauto | discriminate |].
    destruct (str_truthy _); [apply well_typed_text; now right | exact Td].
  - (* 3: results per site *)
    destruct (wf_config_item config "results_per_site" Hwf) as (d & Hd & Td);
      [cbn; tauto|].
    rewrite (item_bind _ _ _ _ _ Hd). unfold ubind at 1.
    pose proof (ask_int_cases "Results per site" d fuel w2) as H.
    destruct (ask_int fuel "Results per site" d w2) as [[v|e|] w3];
      [|contradiction|exact I].
    destruct H as [Hv C3].
    apply (settings_post_chatted strict w2 w3); [exact C3|].
    apply IH. apply settled_set; [exact Hs | cbn; tauto | discriminate |].
    destruct Hv as [-> | (z & ->)]; [exact Td|].
    unfold well_typed. repeat split; intros E; try discriminate E. eauto.
  - (* 4: remote only *)
    destruct (wf_config_item config "remote_only" Hwf) as (d & Hd & Td);
      [cbn; tauto|].
    rewrite (item_bind _ _ _ _ _ Hd). unfold ubind at 1.
    pose proof (ask_confirm_cases "Remote jobs only?" d fuel w2) as H.
    destruct (ask_confirm fuel "Remote jobs only?" d w2) as [[v|e|] w3];
      [|contradiction|exact I].
    destruct H as [Hv C3].
    apply (settings_post_chatted strict w2 w3); [exact C3|].
    apply IH. apply settled_set; [exact Hs | cbn; tauto | discriminate |].
    destruct Hv as [-> | (z & ->)]; [exact Td|].
    unfold well_typed. repeat split; intros E; try discriminate E. eauto.
  - (* 5: job type *)
    step_print.
    destruct (wf_config_item config "job_type" Hwf) as (d & Hd & Td);
      [cbn; tauto|].
    rewrite (item_bind _ _ _ _ _ Hd). unfold ubind at 1.
    match goal with
    | |- context [ask ?p ?d0 ?wx] => destruct (ask_run p d0 wx) as (w3 & E3 & A3)
    end.
    rewrite E3.
    apply (settings_post_chatted strict w2 w3).
    { eapply chatted_trans; [apply printed_chatted | apply answered_chatted];
        eassumption. }
    apply IH. apply settled_set; [exact Hs | cbn; tauto | discriminate |].
    match goal with |- well_typed _ (if is_job_type ?x then _ else _) =>
      pose proof (is_job_type_true x) as Hj; destruct (is_job_type x) end.
    + destruct (Hj eq_refl) as (s & Hin & ->).
      unfold well_typed. repeat split; intros E; try discriminate E. right. eauto.
    + unfold well_typed. repeat split; intros E; try discriminate E. now left.
  - (* 6: job boards *)
    destruct (settled_boards strict config Hs) as (bs & Hd & Hv).
    rewrite (item_bind _ _ _ _ _ Hd). unfold ubind at 1.
    destruct (select_job_boards_valid (List.map JStr bs) w2)
      as (v & w3 & E3 & A3 & Hsel).
    rewrite E3.
    apply (settings_post_chatted strict w2 w3); [now apply answered_chatted|].
    apply IH. destruct Hsel as [-> | (bs' & -> & Hv')].
    + now apply settled_set_boards.
    + apply settled_set_boards; [exact Hs | now intros _].
Qed.

Lemma save_config_written (cfg : pydict) (w1 w' : world) :
  save_config cfg w1 = (Return tt, w') ->
  fs w1 CONFIG_PATH <> NoAccess
  /\ fs w' CONFIG_PATH = Content (json_dumps true (JDict cfg))
  /\ (forall p, p <> CONFIG_PATH -> fs w' p = fs w1 p).
Proof.
  unfold save_config, write_text. intros E.
  destruct (fs w1 CONFIG_PATH) eqn:Ef; try discriminate E; injection E as <-;
    (split; [discriminate|]; split;
     [ cbn [fs set_fs]; now rewrite String.eqb_refl
     | intros p Hp; cbn [fs set_fs]; apply String.eqb_neq in Hp; now rewrite Hp ]).
Qed.

(** X17. When the settings menu returns, on a well-formed configuration,
    the record it returns is well formed again (a text for the search and
    for the location, an integer, a boolean, no job type or one of the four
    names, a list of boards), it is the record that [config.json] now holds,
    no other file has changed, and [load_config] then reads back a record
    equal to it. Boards that were names of [ALL_JOB_BOARDS] are so again. *)
Theorem settings_menu_saves (fuel : nat) (config cfg : pydict) (w w' : world) :
  wf_config config ->
  display_settings_menu fuel config w = (Done cfg, w') ->
  wf_config cfg
  /\ (boards_valid config -> boards_valid cfg)
  /\ fs w' CONFIG_PATH = Content (json_dumps true (JDict cfg))
  /\ (forall p, p <> CONFIG_PATH -> fs w' p = fs w p)
  /\ ((2 <= recursion_limit)%nat ->
      exists cfg', load_config w' = (Return cfg', w') /\ dict_eq cfg' cfg).
Proof.
  intros Hwf E.
  assert (H0 : settled false config) by (split; [exact Hwf | discriminate]).
  pose proof (settings_menu_run false fuel config w H0) as H. rewrite E in H.
  destruct H as ([Hwf' _] & w1 & C & Es).
  destruct (save_config_written cfg w1 w' Es) as (Hna & Hfile & Hrest).
  split; [exact Hwf'|]. split; [|split; [exact Hfile|split]].
  - intros Hb.
    assert (H1 : settled true config) by (split; [exact Hwf | now intros _]).
    pose proof (settings_menu_run true fuel config w H1) as H. rewrite E in H.
    destruct H as ([_ Hb'] & _). now apply Hb'.
  - intros p Hp. rewrite (Hrest p Hp). destruct C as (Cfs & _). now rewrite Cfs.
  - intros Hlim.
    destruct (save_load_config cfg w1 Hwf' Hlim Hna) as (w2 & cfg' & Es' & El & _ & Heq).
    rewrite Es in Es'. injection Es' as <-. now exists cfg'.
Qed.







(** ** The search *)







(** The search when the answer to the first prompt counts as false. *)
Lemma search_jobs_no_term (scrape_jobs : scraper) (config : pydict) (d : json)
    (w : world) :
  dict_get config "default_search" = Some d ->
  json_truthy (reply d w 0) = false ->
  exists w',
    search_jobs scrape_jobs config w = (Done ([], JStr ""), w') /\ answered w w'.
Proof.
  intros Hd Ht. unfold search_jobs. step_print.
  rewrite (item_bind _ _ _ _ _ Hd). unfold ubind at 1.
  match goal with
  | |- context [ask ?p d ?w0] => destruct (ask_run p d w0) as (w1 & E1 & A1)
  end.
  rewrite E1.
  match goal with
  | P : printed w _ |- _ => destruct P as (Pfs & Pcl & Pti & Pen & Pdr & Pst & Pas)
  end.
  destruct A1 as (Afs & Acl & Ati & Aen & Adr & Ast & Aas).
  unfold reply in Ht. rewrite Nat.add_0_r in Ht. rewrite Pst, Pas, Ht. cbn [negb].
  unfold ubind.
  match goal with
  | |- context [print ?line w1] => destruct (print_run line w1) as (w2 & E2 & P2)
  end.
  rewrite E2. exists w2. split; [reflexivity|].
  destruct P2 as (?&?&?&?&?&?&?). unfold answered. repeat split; congruence.
Qed.






(** X20. Without a search term there is no search: when the answer to the
    first prompt counts as false (an empty line with an empty default, or a
    line of blanks), [search_jobs] returns no job and the empty term after
    that one prompt, whatever the job boards would have answered. *)
Theorem search_without_term (scrape_jobs : scraper) (config : pydict) (d : json)
    (w : world) :
  dict_get config "default_search" = Some d ->
  json_truthy (reply d w 0) = false ->
  exists w',
    search_jobs scrape_jobs config w = (Done ([], JStr ""), w') /\ answered w w'.
Proof. exact (search_jobs_no_term scrape_jobs config d w). Qed.


(** ** The main loop *)











(** ** A configuration file edited by hand *)


(** X25. In the same way, a search on a configuration whose boards are
    [None], a boolean or a number raises [TypeError] once the term and the
    location are given, when the boards are counted for the message: the job
    boards are not asked, and no file is touched. *)
Theorem search_bad_boards (scrape_jobs : scraper) (config : pydict)
    (d_search d_location boards : json) (w : world) :
  dict_get config "default_search" = Some d_search ->
  dict_get config "default_location" = Some d_location ->
  dict_get config "job_boards" = Some boards ->
  is_scalar boards = true ->
  json_truthy (reply d_search w 0) = true ->
  exists w',
    search_jobs scrape_jobs config w = (Fail (Py TypeError), w')
    /\ chatted w w' /\ asked w' = S (S (asked w)).
Proof.
  intros Hs Hl Hb Hsc Ht. unfold search_jobs. step_print.
  rewrite (item_bind _ _ _ _ _ Hs). unfold ubind at 1.
  match goal with
  | |- context [ask ?p d_search ?w0] =>
      destruct (ask_run p d_search w0) as (w1 & E1 & A1)
  end.
  rewrite E1.
  match goal with
  | P : printed w _ |- _ => destruct P as (Pfs & Pcl & Pti & Pen & Pdr & Pst & Pas)
  end.
  unfold reply in Ht. rewrite Nat.add_0_r in Ht. rewrite Pst, Pas, Ht. cbn [negb].
  rewrite (item_bind _ _ _ _ _ Hl). unfold ubind at 1.
  match goal with
  | |- context [ask ?p d_location w1] =>
      destruct (ask_run p d_location w1) as (w2 & E2 & A2)
  end.
  rewrite E2. rewrite (item_bind _ _ _ _ _ Hb). unfold ubind at 1.
  assert (Hlen : json_len boards = Raise TypeError)
    by (destruct boards; try discriminate Hsc; reflexivity).
  rewrite Hlen. cbn [of_result]. unfold uraise.
  exists w2. split; [reflexivity|].
  destruct A1 as (?&?&?&?&?&?&?). destruct A2 as (?&?&?&?&?&?&?).
  split; [unfold chatted; repeat split; try congruence; lia | congruence].
Qed.

(** ** Rounds of the main loop *)














End Python.

(** * Worked examples: the claims at concrete inputs *)

(** The interpreter's default recursion limit. *)
Example loads_default_config :
  json_loads 1000 (json_dumps repr_unused true (JDict DEFAULT_CONFIG))
  = Return (JDict DEFAULT_CONFIG).
Proof. vm_compute. reflexivity. Qed.

(** C1 (code defect). The claim, and the tests of the repository, want the
    file to hold the document [{ exportType: "jobspy_harvest", jobs: [...] }].
    Run on the one record of [nan_job] with the search term [test] and the
    default file name, [export_jobs] writes the bare list of export records:
    the text written starts a JSON array, reads back as a one-element list,
    and has no [exportType]. *)
Theorem C1_export_writes_bare_list :
  let run := export_jobs repr_unused [nan_job] "test" blank_world in
  let record :=
    cleansheet_job repr_unused nan_job "00000000-0000-4000-8000-000000003039"
      "" "2025-01-15" in
  let text := json_dumps repr_unused false (JList [record]) in
  fst run = Return tt
  /\ fs (snd run) "test_20250115_103005-0500.json" = Content text
  /\ Text.take 1 text = "["
  /\ json_loads 1000 text = Return (JList [record])
  /\ field "exportType" (JList [record]) = None.
Proof. vm_compute. repeat split; reflexivity. Qed.





(** The slip the amended claim leaves out: an infinite bound is valid, and
    its conversion to an integer raises an error the handler does not
    catch. *)
Example salary_of_infinity :
  salary_of (CFloat (S754_infinity false)) CNone = Raise OverflowError.
Proof. reflexivity. Qed.












(** The export itself raises on a record whose salary bound is infinite. *)
Example export_jobs_infinity :
  fst (export_jobs repr_unused
         [[("min_amount", CFloat (S754_infinity false))]] "test" blank_world)
  = Raise OverflowError.
Proof. vm_compute. reflexivity. Qed.

Lemma C10_witness :
  fs (with_config array_config_text) CONFIG_PATH = Content array_config_text
  /\ json_loads 1000 array_config_text = Return (JList [JInt 1; JInt 2])
  /\ load_config 1000 (with_config array_config_text)
     = (Raise TypeError, with_config array_config_text).
Proof.
  split; [reflexivity|]. split; [vm_compute; reflexivity|].
  apply (C10_non_object_raises 1000 (with_config array_config_text)
           array_config_text (JList [JInt 1; JInt 2])).
  - reflexivity.
  - vm_compute. reflexivity.
  - discriminate.
Defined.

(** * Worked examples: the further properties at concrete inputs *)

Lemma load_config_complete_witness :
  load_config 1000 (with_config partial_config_text)
  = (Return (dict_update DEFAULT_CONFIG
               [("default_search", JStr "test search"); ("results_per_site", JInt 50)]),
     with_config partial_config_text)
  /\ with_config partial_config_text = with_config partial_config_text
  /\ dict_ok (dict_update DEFAULT_CONFIG
                [("default_search", JStr "test search"); ("results_per_site", JInt 50)])
  /\ (forall k, In k recognized_keys ->
        dict_get (dict_update DEFAULT_CONFIG
                    [("default_search", JStr "test search");
                     ("results_per_site", JInt 50)]) k <> None).
Proof.
  assert (H : load_config 1000 (with_config partial_config_text)
              = (Return (dict_update DEFAULT_CONFIG
                           [("default_search", JStr "test search");
                            ("results_per_site", JInt 50)]),
                 with_config partial_config_text))
    by (vm_compute; reflexivity).
  split; [exact H|].
  exact (load_config_complete 1000 _ _ _ H).
Defined.








(** ** The interactive part *)

Lemma select_all_boards_witness :
  exists w',
    select_job_boards plain_check plain_circle (JList [JStr "indeed"])
      (typing [" ALL "])
    = (Done (JList (List.map JStr ALL_JOB_BOARDS)), w')
    /\ answered (typing [" ALL "]) w'.
Proof.
  apply (select_all_boards plain_check plain_circle [JStr "indeed"] (typing [" ALL "])).
  right. reflexivity.
Defined.


Lemma select_invalid_keeps_witness :
  exists w',
    select_job_boards plain_check plain_circle (JList [JStr "indeed"])
      (typing ["1,two"])
    = (Done (JList [JStr "indeed"]), w')
    /\ answered (typing ["1,two"]) w'.
Proof.
  apply (select_invalid_keeps plain_check plain_circle [JStr "indeed"]
           (typing ["1,two"]) "two").
  - vm_compute. discriminate.
  - vm_compute. right. left. reflexivity.
  - vm_compute. reflexivity.
Defined.

Lemma default_config_is_wf : wf_config DEFAULT_CONFIG.
Proof.
  unfold wf_config. split; [|split; [|repeat split]].
  - unfold dict_ok. cbn. repeat constructor; cbn; intuition discriminate.
  - intros k. cbn. tauto.
  - now exists "".
  - now exists "USA".
  - now exists 15.
  - now exists false.
  - now left.
  - now exists ALL_JOB_BOARDS.
Qed.

Lemma settings_menu_saves_witness :
  wf_config berlin_config
  /\ (boards_valid DEFAULT_CONFIG -> boards_valid berlin_config)
  /\ fs (snd (display_settings_menu repr_unused plain_check plain_circle 5
                DEFAULT_CONFIG (typing ["2"; " Berlin "; "0"])))
       CONFIG_PATH
     = Content (json_dumps repr_unused true (JDict berlin_config))
  /\ (forall p, p <> CONFIG_PATH ->
        fs (snd (display_settings_menu repr_unused plain_check plain_circle 5
                   DEFAULT_CONFIG (typing ["2"; " Berlin "; "0"]))) p
        = fs (typing ["2"; " Berlin "; "0"]) p)
  /\ ((2 <= 1000)%nat ->
      exists cfg',
        load_config 1000
          (snd (display_settings_menu repr_unused plain_check plain_circle 5
                  DEFAULT_CONFIG (typing ["2"; " Berlin "; "0"])))
        = (Return cfg',
           snd (display_settings_menu repr_unused plain_check plain_circle 5
                  DEFAULT_CONFIG (typing ["2"; " Berlin "; "0"])))
        /\ dict_eq cfg' berlin_config).
Proof.
  apply (settings_menu_saves repr_unused 1000 plain_check plain_circle 5
           DEFAULT_CONFIG berlin_config (typing ["2"; " Berlin "; "0"])).
  - exact default_config_is_wf.
  - vm_compute. reflexivity.
Defined.



Lemma search_without_term_witness :
  exists w',
    search_jobs repr_unused plain_table sample_web DEFAULT_CONFIG (typing ["   "])
    = (Done ([], JStr ""), w')
    /\ answered (typing ["   "]) w'.
Proof.
  apply (search_without_term repr_unused plain_table sample_web DEFAULT_CONFIG
           (JStr "") (typing ["   "])); reflexivity.
Defined.





Lemma search_bad_boards_witness :
  exists w',
    search_jobs repr_unused plain_table sample_web unboarded_config
      (typing ["python"; ""])
    = (Fail (Py TypeError), w')
    /\ chatted (typing ["python"; ""]) w'
    /\ asked w' = S (S (asked (typing ["python"; ""]))).
Proof.
  apply (search_bad_boards repr_unused plain_table sample_web unboarded_config
           (JStr "") (JStr "USA") JNull (typing ["python"; ""])); reflexivity.
Defined.




Example session_exports :
  let run :=
    main repr_unused 1000 plain_check plain_circle plain_banner plain_table 40
      (fun _ => sample_web) (typing ["1"; "python"; ""; "3"; ""; "4"]) in
  fst run = Done tt
  /\ exists text, fs (snd run) "python_20250115_103005-0500.json" = Content text
                  /\ Text.take 1 text = "[".
Proof. vm_compute. split; [reflexivity|]. eexists. split; reflexivity. Qed.
